(** * new-api-caching: the Gemini adaptor, its prompt cache and the channel tester

    A shallow embedding of
      - relay/channel/gemini/cache.go   (module [CacheV1], two-result API),
      - the later revision of the same file (module [CacheV2], four-result
        API with the JSON envelope),
      - relay/channel/gemini/adaptor.go (module [Adaptor]),
      - controller/channel-test.go      (modules [Quota], [SingleFlight],
        [TestRequest] and [ChannelTest]),
    followed by the properties of the specification they do or do not
    satisfy. *)

From Stdlib Require Import ZArith Lia Bool Ascii String List.
From Stdlib Require Import Numbers.DecimalString.
From Stdlib Require Numbers.DecimalZ.
From Stdlib Require Import Floats.SpecFloat.
From stdpp Require Import base option strings gmap.

Local Open Scope string_scope.
Local Open Scope Z_scope.

(** ** Go basics *)

(** Go's [int] on the 64-bit targets the gateway is built for. *)
Definition int_min : Z := - 2 ^ 63.
Definition int_max : Z := 2 ^ 63 - 1.

(** Two's complement wrap-around of signed 64-bit arithmetic. *)
Definition wrap64 (z : Z) : Z := (z + 2 ^ 63) mod 2 ^ 64 - 2 ^ 63.

Definition in_int_range (z : Z) : bool := (int_min <=? z) && (z <=? int_max).

(** Go errors.  [Errorf_w] is [fmt.Errorf] with the verb percent-w (the cause
    is wrapped), [Errorf_v] is [fmt.Errorf] with percent-v over a decoded
    body. *)
Inductive error : Type :=
| errors_New (msg : string)
| transport_error (msg : string)
| json_error (msg : string)
| redis_Nil
| redis_unavailable
| Errorf_w (prefix : string) (cause : error)
| Errorf_v (prefix : string) (detail : string).

(** The pair [(value, err)] a Go function returns. *)
Inductive result (A : Type) : Type :=
| Ok (a : A)
| Err (e : error).
Arguments Ok {A} a.
Arguments Err {A} e.

(** ** The [strings] and [fmt] functions the sources use *)

Module GoStrings.

(** [strings.HasPrefix s p]. *)
Definition HasPrefix (s p : string) : bool := String.prefix p s.

(** [strings.Contains s sub]. *)
Fixpoint Contains (s sub : string) : bool :=
  HasPrefix s sub ||
  match s with
  | EmptyString => false
  | String _ s' => Contains s' sub
  end.

(** [strings.HasSuffix s suf]. *)
Fixpoint HasSuffix (s suf : string) : bool :=
  String.eqb s suf ||
  match s with
  | EmptyString => false
  | String _ s' => HasSuffix s' suf
  end.

(** The text before a suffix already known to be there. *)
Fixpoint drop_suffix (s suf : string) : string :=
  if String.eqb s suf then EmptyString
  else match s with
       | EmptyString => EmptyString
       | String c s' => String c (drop_suffix s' suf)
       end.

(** [strings.TrimSuffix s suf]. *)
Definition TrimSuffix (s suf : string) : string :=
  if HasSuffix s suf then drop_suffix s suf else s.

(** [strings.Split s sep] for a non-empty separator: the pieces between
    the non-overlapping occurrences of [sep], scanned left to right.
    [skip] counts the bytes of a separator still to be passed over. *)
Fixpoint split_go (sep : string) (skip : nat) (s : string) : list string :=
  match s with
  | EmptyString => [EmptyString]
  | String c s' =>
      match skip with
      | S k => split_go sep k s'
      | O =>
          if HasPrefix s sep
          then EmptyString :: split_go sep (Nat.pred (String.length sep)) s'
          else match split_go sep O s' with
               | h :: t => String c h :: t
               | [] => [String c EmptyString]
               end
      end
  end.

(** With an empty separator Go explodes the string into its characters
    (the sources never do that; bytes stand for characters here). *)
Fixpoint explode (s : string) : list string :=
  match s with
  | EmptyString => []
  | String c s' => String c EmptyString :: explode s'
  end.

Definition Split (s sep : string) : list string :=
  match sep with
  | EmptyString => explode s
  | _ => split_go sep O s
  end.

(** [strconv.Itoa], also what the verbs percent-d and percent-v print
    for an [int]. *)
Definition Itoa (z : Z) : string := NilZero.string_of_int (Z.to_int z).

(** What [fmt.Sprintf] prints for an [int] argument under the verb
    percent-s: the verb does not apply to integers, and [fmt] reports the
    mismatch inside the output. *)
Definition Sprintf_s_int (z : Z) : string :=
  "%!s(int=" ++ Itoa z ++ ")".

(** Number of space bytes of a string. *)
Fixpoint count_spaces (s : string) : nat :=
  match s with
  | EmptyString => O
  | String c s' =>
      (if Ascii.eqb c " "%char then 1 else 0)%nat + count_spaces s'
  end.

(** Whitespace as [unicode.IsSpace] sees it on ASCII input. *)
Definition is_space (c : ascii) : bool :=
  let n := nat_of_ascii c in
  (Nat.eqb n 32 || (Nat.leb 9 n && Nat.leb n 13))%bool.

(** The whitespace-delimited words of a string ([strings.Fields]): the
    reading of the specification's "whitespace-delimited word count".
    [inword] tells whether the previous byte belonged to a word. *)
Fixpoint count_words_go (inword : bool) (s : string) : nat :=
  match s with
  | EmptyString => O
  | String c s' =>
      if is_space c then count_words_go false s'
      else ((if inword then 0 else 1) + count_words_go true s')%nat
  end.

Definition count_words (s : string) : nat := count_words_go false s.

(** [n] copies of a byte. *)
Fixpoint replicate_char (n : nat) (c : ascii) : string :=
  match n with
  | O => EmptyString
  | S k => String c (replicate_char k c)
  end.

End GoStrings.

(** ** Data and collaborators shared by both revisions of the cache *)

Module Gemini.
Import GoStrings.

(** The request structures are declared in the adaptor's dto file; the
    fields below are the ones the cache code reads.  A Go pointer that
    may be nil is an [option]. *)
Record GeminiInlineData : Type :=
  { inline_MimeType : string; inline_Data : string }.

Record GeminiFileData : Type :=
  { file_MimeType : string; file_FileUri : string }.

Record GeminiPart : Type :=
  { Text : string;
    InlineData : option GeminiInlineData;
    FileData : option GeminiFileData }.

Record GeminiChatContent : Type :=
  { Role : string; Parts : list GeminiPart }.

Record GeminiChatRequest : Type :=
  { Contents : list GeminiChatContent;
    SystemInstructions : option GeminiChatContent }.

Record GeminiCachedContentRequest : Type :=
  { cc_Model : string;
    cc_SystemInstruction : option GeminiChatContent;
    cc_Contents : list GeminiChatContent;
    cc_Ttl : string;
    cc_DisplayName : string }.

Record http_Response : Type := { StatusCode : Z; Body : string }.

Definition http_StatusOK : Z := 200.
Definition http_StatusNotFound : Z := 404.

(** [time.Hour], in nanoseconds as [time.Duration] counts. *)
Definition time_Hour : Z := 3600 * 1000000000.

(** A value handed to [json.Marshal] as a [map] from strings to
    interfaces; the encoder writes the keys in sorted order. *)
#[warnings="-register-all"]
Inductive json : Type :=
| JString (s : string)
| JInt (z : Z)
| JObject (fields : list (string * json)).

Definition GeminiCacheMinTokenThreshold : Z := 4096.

(** Everything outside the cache code: configuration, the hash, the
    JSON codec and the two remote parties (HTTP upstream, Redis). *)
Record Env : Type :=
  { EnableCache : bool;
    RedisEnabled : bool;
    redis_up : bool;
    GetMD5Hash : string -> string;
    http_Get : string -> result http_Response;
    http_NewRequest : string -> string -> option error;
    http_Do_post : string -> string -> result http_Response;
    json_Marshal_request : GeminiCachedContentRequest -> result string;
    json_Marshal_content : GeminiChatContent -> string;
    json_Marshal : json -> string;
    json_Decode_name : string -> result string;
    json_Decode_any : string -> string;
    json_Unmarshal_cache_name : string -> string }.

(** What a call does to the outside, in order. *)
Inductive Event : Type :=
| EvRedisGet (key : string)
| EvRedisSet (key value : string) (ttl : Z)
| EvHttpGet (url : string)
| EvHttpPost (url body : string).

(** The shared store (key to value and time-to-live) and the trace of
    remote interactions, most recent last. *)
Record World : Type :=
  { store : gmap string (string * Z);
    trace : list Event }.

Definition emit (ev : Event) (w : World) : World :=
  {| store := store w; trace := trace w ++ [ev] |}.

(** A computation either returns or panics, and changes the world. *)
Inductive Outcome (A : Type) : Type :=
| Returns (a : A) (w : World)
| Panics (msg : string) (w : World).
Arguments Returns {A} a w.
Arguments Panics {A} msg w.

Definition M (A : Type) : Type := World -> Outcome A.

Definition ret {A} (a : A) : M A := fun w => Returns a w.

Definition bind {A B} (m : M A) (k : A -> M B) : M B :=
  fun w =>
    match m w with
    | Returns a w' => k a w'
    | Panics msg w' => Panics msg w'
    end.

Definition panic {A} (msg : string) : M A := fun w => Panics msg w.

Declare Scope go_scope.
Delimit Scope go_scope with go.
Notation "'do' x <- m ; k" := (bind m (fun x => k))
  (at level 10, x name, m at level 100, k at level 200) : go_scope.
Notation "'do' ( x , y ) <- m ; k" :=
  (bind m (fun xy => match xy with (x, y) => k end))
  (at level 10, x name, y name, m at level 100, k at level 200) : go_scope.
Local Open Scope go_scope.

Definition is_nil (e : option error) : bool :=
  match e with None => true | Some _ => false end.

Definition nonempty (s : string) : bool := negb (String.eqb s "").

Section WithEnv.
Variable env : Env.

(** [common.RDB.Get(ctx, key).Result()]: a missing key is the error
    [redis.Nil]. *)
Definition RDB_Get (key : string) : M (string * option error) :=
  fun w =>
    let w' := emit (EvRedisGet key) w in
    if redis_up env then
      match store w !! key with
      | Some (v, _) => Returns (v, None) w'
      | None => Returns ("", Some redis_Nil) w'
      end
    else Returns ("", Some redis_unavailable) w'.

(** [common.RDB.Set(ctx, key, value, ttl).Err()]. *)
Definition RDB_Set (key value : string) (ttl : Z) : M (option error) :=
  fun w =>
    let w' := emit (EvRedisSet key value ttl) w in
    if redis_up env then
      Returns None {| store := <[key := (value, ttl)]> (store w');
                      trace := trace w' |}
    else Returns (Some redis_unavailable) w'.

Definition client_Get (url : string) : M (result http_Response) :=
  fun w => Returns (http_Get env url) (emit (EvHttpGet url) w).

Definition client_Do_post (url body : string) : M (result http_Response) :=
  fun w => Returns (http_Do_post env url body) (emit (EvHttpPost url body) w).

Definition lookup_url (apiKey cachedID : string) : string :=
  "https://generativelanguage.googleapis.com/v1beta/" ++ cachedID
    ++ "?key=" ++ apiKey.

Definition create_url (apiKey : string) : string :=
  "https://generativelanguage.googleapis.com/v1beta/cachedContents?key="
    ++ apiKey.

(** [LookupGeminiCacheByID], identical in both revisions. *)
Definition LookupGeminiCacheByID (apiKey cachedID : string)
  : M (bool * option error) :=
  do r <- client_Get (lookup_url apiKey cachedID);
  match r with
  | Err e => ret (false, Some (Errorf_w "lookup by ID failed: " e))
  | Ok resp =>
      if StatusCode resp =? http_StatusOK then ret (true, None)
      else if StatusCode resp =? http_StatusNotFound then ret (false, None)
      else ret (false, Some (Errorf_v "lookup by ID failed: "
                               (json_Decode_any env (Body resp))))
  end.

(** The part of [CreateGeminiCache] after the request value is built,
    identical in both revisions. *)
Definition post_cache_request (apiKey : string)
    (cacheReq : GeminiCachedContentRequest) : M (string * option error) :=
  match json_Marshal_request env cacheReq with
  | Err e => ret ("", Some (Errorf_w "failed to marshal cache request: " e))
  | Ok body =>
      let url := create_url apiKey in
      match http_NewRequest env url body with
      | Some e => ret ("", Some (Errorf_w "failed to create HTTP request: " e))
      | None =>
          do r <- client_Do_post url body;
          match r with
          | Err e =>
              ret ("", Some (Errorf_w "failed to perform HTTP request: " e))
          | Ok resp =>
              if negb (StatusCode resp =? http_StatusOK)
              then ret ("", Some (Errorf_v "cache creation failed: "
                                    (json_Decode_any env (Body resp))))
              else match json_Decode_name env (Body resp) with
                   | Err e =>
                       ret ("", Some (Errorf_w
                                        "error decoding cache response: " e))
                   | Ok name => ret (name, None)
                   end
          end
      end
  end.

Definition with_models_prefix (model : string) : string :=
  if negb (HasPrefix model "models/") then "models/" ++ model else model.

End WithEnv.

(** Tokens one part contributes: the number of pieces [strings.Split]
    cuts its text into at single spaces; nothing for an empty text. *)
Definition part_tokens (part : GeminiPart) : Z :=
  if nonempty (Text part)
  then Z.of_nat (List.length (Split (Text part) " "))
  else 0.

(** The inner loop of [CountTokensFromParts], from a running count.  The
    counts are bounded by the bytes of the request held in memory, far
    below the range of [int], so the additions are not wrapped. *)
Definition count_parts (count : Z) (parts : list GeminiPart) : Z :=
  fold_left (fun count part => count + part_tokens part) parts count.

End Gemini.

(** ** relay/channel/gemini/cache.go: the cache keyed per channel *)

Module CacheV1.
Import GoStrings Gemini.
Local Open Scope go_scope.

(** [CountTokensFromParts(contents []GeminiChatContent)]. *)
Definition CountTokensFromParts (contents : list GeminiChatContent) : Z :=
  fold_left (fun count content => count_parts count (Parts content)) contents 0.

Definition ShouldEnableGeminiCache (env : Env) (model : string)
    (contents : list GeminiChatContent) : bool :=
  if negb (EnableCache env) then false
  else
    let tokenCount := CountTokensFromParts contents in
    if tokenCount <? GeminiCacheMinTokenThreshold then false
    else true.

(** What one part appends to the builder in [ExtractLastUserPromptText]. *)
Definition part_prompt (part : GeminiPart) : string :=
  (if nonempty (Text part) then Text part else "")
  ++ match InlineData part with
     | Some d => inline_MimeType d ++ ":" ++ inline_Data d
     | None => ""
     end
  ++ match FileData part with
     | Some f => file_MimeType f ++ ":" ++ file_FileUri f
     | None => ""
     end.

(** The loop runs from the last content down to the first and returns at
    the first one whose role is "user". *)
Definition ExtractLastUserPromptText (request : GeminiChatRequest) : string :=
  match find (fun content => String.eqb (Role content) "user")
             (rev (Contents request)) with
  | Some content => String.concat "" (map part_prompt (Parts content))
  | None => ""
  end.

(** The key line of this revision prints the integer channel id with the
    verb percent-s. *)
Definition redisKey (channelID : Z) (hash : string) : string :=
  "gemini_cache:" ++ Sprintf_s_int channelID ++ ":" ++ hash.

Section WithEnv.
Variable env : Env.

(** [request.Contents[len(request.Contents)-1]] panics on an empty slice. *)
Definition CreateGeminiCache (apiKey model : string)
    (request : GeminiChatRequest) (displayName : string)
  : M (string * option error) :=
  let model := with_models_prefix model in
  match last (Contents request) with
  | None => panic "runtime error: index out of range [-1]"
  | Some lastContent =>
      post_cache_request env apiKey
        {| cc_Model := model;
           cc_SystemInstruction := SystemInstructions request;
           cc_Contents := [lastContent];
           cc_Ttl := "3600s";
           cc_DisplayName := displayName |}
  end.

(** The Redis branch: [Some cachedID] stands for the early
    [return cachedID, nil], [None] for falling out of the branch. *)
Definition try_cached (apiKey key : string) : M (option string) :=
  if RedisEnabled env then
    do (cachedID, err) <- RDB_Get env key;
    if is_nil err && nonempty cachedID then
      do (exists_, err) <- LookupGeminiCacheByID env apiKey cachedID;
      if is_nil err && exists_ then ret (Some cachedID) else ret None
    else ret None
  else ret None.

Definition GetOrCreateGeminiCache (apiKey : string) (channelID : Z)
    (model : string) (request : GeminiChatRequest)
  : M (string * option error) :=
  if negb (ShouldEnableGeminiCache env model (Contents request))
  then ret ("", None)
  else
    let prompt := ExtractLastUserPromptText request in
    let hash := GetMD5Hash env (model ++ "|" ++ prompt) in
    let key := redisKey channelID hash in
    do hit <- try_cached apiKey key;
    match hit with
    | Some cachedID => ret (cachedID, None)
    | None =>
        do (newID, err) <- CreateGeminiCache apiKey model request hash;
        match err with
        | Some e => ret ("", Some e)
        | None =>
            do _ <- (if RedisEnabled env
                     then RDB_Set env key newID time_Hour
                     else ret None);
            ret (newID, None)
        end
    end.

End WithEnv.
End CacheV1.

(** ** The later revision of cache.go: one cache per system instruction *)

Module CacheV2.
Import GoStrings Gemini.
Local Open Scope go_scope.

(** [CountTokensFromParts(content *GeminiChatContent)]: reading
    [content.Parts] through a nil pointer panics. *)
Definition CountTokensFromParts (content : option GeminiChatContent) : M Z :=
  match content with
  | None =>
      panic "runtime error: invalid memory address or nil pointer dereference"
  | Some c => ret (count_parts 0 (Parts c))
  end.

Definition ShouldEnableGeminiCache (env : Env) (model : string)
    (tokenCount : Z) : bool :=
  if negb (EnableCache env) then false
  else if tokenCount <? GeminiCacheMinTokenThreshold then false
  else true.

Definition HashSystemInstructions (env : Env)
    (system : option GeminiChatContent) : string :=
  match system with
  | None => ""
  | Some c => GetMD5Hash env (json_Marshal_content env c)
  end.

Definition redisKey (hash : string) : string := "gemini_cache:" ++ hash.

(** The map literal written to the store. *)
Definition envelope (newID : string) (channelID : Z) : json :=
  JObject [("cache_name", JString newID); ("channel_id", JInt channelID)].

Section WithEnv.
Variable env : Env.

Definition CreateGeminiCache (apiKey model : string)
    (request : GeminiChatRequest) (displayName : string)
  : M (string * option error) :=
  let model := with_models_prefix model in
  post_cache_request env apiKey
    {| cc_Model := model;
       cc_SystemInstruction := SystemInstructions request;
       cc_Contents := [];
       cc_Ttl := "600s";
       cc_DisplayName := displayName |}.

Definition try_cached (apiKey key : string) : M (option string) :=
  if RedisEnabled env then
    do (val, err) <- RDB_Get env key;
    if is_nil err && nonempty val then
      let CacheName := json_Unmarshal_cache_name env val in
      do (exists_, err) <- LookupGeminiCacheByID env apiKey CacheName;
      if is_nil err && exists_ then ret (Some CacheName) else ret None
    else ret None
  else ret None.

(** The four results: handle, created, estimated tokens, error. *)
Definition GetOrCreateGeminiCache (apiKey : string) (channelID : Z)
    (model : string) (request : GeminiChatRequest)
  : M (string * bool * Z * option error) :=
  do tokenCount <- CountTokensFromParts (SystemInstructions request);
  if negb (ShouldEnableGeminiCache env model tokenCount)
  then ret ("", false, 0, None)
  else
    match SystemInstructions request with
    | Some _ =>
        let hash := HashSystemInstructions env (SystemInstructions request) in
        let key := redisKey hash in
        do hit <- try_cached apiKey key;
        match hit with
        | Some CacheName => ret (CacheName, false, 0, None)
        | None =>
            do (newID, err) <- CreateGeminiCache apiKey model request hash;
            match err with
            | Some e => ret ("", false, 0, Some e)
            | None =>
                do _ <- (if RedisEnabled env
                         then RDB_Set env key
                                (json_Marshal env (envelope newID channelID))
                                time_Hour
                         else ret None);
                ret (newID, true, tokenCount, None)
            end
        end
    | None => ret ("", false, 0, None)
    end.

End WithEnv.
End CacheV2.

(** ** Estimators the token count is compared with *)

Module Estimate.
Import GoStrings Gemini.

Definition sumZ (l : list Z) : Z := fold_right Z.add 0 l.

(** The specification's wording, "whitespace-delimited word count" of the
    text parts: every text contributes its number of words. *)
Definition word_estimate_content (content : GeminiChatContent) : Z :=
  sumZ (map (fun part => Z.of_nat (count_words (Text part))) (Parts content)).

Definition word_estimate (contents : list GeminiChatContent) : Z :=
  sumZ (map word_estimate_content contents).

(** What the source computes, in closed form: a text that is not empty
    contributes its number of space bytes plus one. *)
Definition space_estimate_part (part : GeminiPart) : Z :=
  match Text part with
  | EmptyString => 0
  | text => Z.of_nat (count_spaces text) + 1
  end.

Definition space_estimate_content (content : GeminiChatContent) : Z :=
  sumZ (map space_estimate_part (Parts content)).

Definition space_estimate (contents : list GeminiChatContent) : Z :=
  sumZ (map space_estimate_content contents).

End Estimate.

(** ** Concrete collaborators and requests used to run the code *)

Module Samples.
Import GoStrings Gemini.

Definition text_part (text : string) : GeminiPart :=
  {| Text := text; InlineData := None; FileData := None |}.

(** A text of 4095 spaces and no word at all. *)
Definition blank_text : string := replicate_char 4095 " "%char.

(** 4096 one-letter words, each followed by a line feed. *)
Fixpoint lines (n : nat) : string :=
  match n with
  | O => EmptyString
  | S k => String "w"%char (String "010"%char (lines k))
  end.

Definition blank_content : GeminiChatContent :=
  {| Role := "user"; Parts := [text_part blank_text] |}.

Definition lines_content : GeminiChatContent :=
  {| Role := "user"; Parts := [text_part (lines 4096)] |}.

Definition short_content : GeminiChatContent :=
  {| Role := "user"; Parts := [text_part "hello world"] |}.

(** A request that is long enough to be cached under both revisions. *)
Definition long_request : GeminiChatRequest :=
  {| Contents := [blank_content]; SystemInstructions := Some blank_content |}.

(** A request without system instruction. *)
Definition bare_request : GeminiChatRequest :=
  {| Contents := [short_content]; SystemInstructions := None |}.

(** Upstream answers: the handle "cachedContents/old" is gone (404), every
    creation succeeds and names the new entry "cachedContents/new". *)
Definition env0 : Env :=
  {| EnableCache := true;
     RedisEnabled := true;
     redis_up := true;
     GetMD5Hash := fun _ => "h";
     http_Get := fun _ => Ok {| StatusCode := 404; Body := "" |};
     http_NewRequest := fun _ _ => None;
     http_Do_post := fun _ _ => Ok {| StatusCode := 200; Body := "new" |};
     json_Marshal_request := fun _ => Ok "req";
     json_Marshal_content := fun _ => "sys";
     json_Marshal := fun j =>
       match j with
       | JObject [(_, JString name); (_, JInt _)] => name
       | _ => ""
       end;
     json_Decode_name := fun _ => Ok "cachedContents/new";
     json_Decode_any := fun body => body;
     json_Unmarshal_cache_name := fun val => val |}.

(** The same with caching switched off. *)
Definition env_disabled : Env :=
  {| EnableCache := false;
     RedisEnabled := RedisEnabled env0;
     redis_up := redis_up env0;
     GetMD5Hash := GetMD5Hash env0;
     http_Get := http_Get env0;
     http_NewRequest := http_NewRequest env0;
     http_Do_post := http_Do_post env0;
     json_Marshal_request := json_Marshal_request env0;
     json_Marshal_content := json_Marshal_content env0;
     json_Marshal := json_Marshal env0;
     json_Decode_name := json_Decode_name env0;
     json_Decode_any := json_Decode_any env0;
     json_Unmarshal_cache_name := json_Unmarshal_cache_name env0 |}.


Definition empty_world : World := {| store := ∅; trace := [] |}.

(** A store that still maps the keys of [long_request] to the stale
    handle "cachedContents/old". *)
Definition stale_world : World :=
  {| store := <["gemini_cache:h" := ("cachedContents/old", time_Hour)]>
              (<["gemini_cache:%!s(int=5):h" := ("cachedContents/old", time_Hour)]> ∅);
     trace := [] |}.

End Samples.

(** ** Vocabulary for the cache properties *)

Module CacheSpec.
Import GoStrings Gemini.

(** The existence check confirms a handle: the GET on its URL answers
    200.  A transport failure, a 404 and any other status do not. *)
Definition verified (env : Env) (apiKey name : string) : bool :=
  match http_Get env (lookup_url apiKey name) with
  | Ok resp => StatusCode resp =? http_StatusOK
  | Err _ => false
  end.

(** The value a reachable store holds under a key, when it is usable: the
    store is enabled and answers, the key is present and the value is not
    empty. *)
Definition stored_value (env : Env) (key : string) (w : World) : option string :=
  if RedisEnabled env && redis_up env then
    match store w !! key with
    | Some (v, _) => if nonempty v then Some v else None
    | None => None
    end
  else None.

(** The errors [CreateGeminiCache] makes. *)
Definition is_create_error (e : error) : bool :=
  match e with
  | Errorf_w prefix _ =>
      String.eqb prefix "failed to marshal cache request: "
      || String.eqb prefix "failed to create HTTP request: "
      || String.eqb prefix "failed to perform HTTP request: "
      || String.eqb prefix "error decoding cache response: "
  | Errorf_v prefix _ => String.eqb prefix "cache creation failed: "
  | _ => false
  end.


(** The world after the best-effort write of a new mapping. *)
Definition remember (env : Env) (key value : string) (w : World) : World :=
  if RedisEnabled env then
    match RDB_Set env key value time_Hour w with
    | Returns _ w' => w'
    | Panics _ w' => w'
    end
  else w.

(** The keys and hashes the two revisions derive from a call. *)
Definition hash_V1 (env : Env) (model : string) (request : GeminiChatRequest)
  : string :=
  GetMD5Hash env (model ++ "|" ++ CacheV1.ExtractLastUserPromptText request).

Definition key_V1 (env : Env) (channelID : Z) (model : string)
    (request : GeminiChatRequest) : string :=
  CacheV1.redisKey channelID (hash_V1 env model request).

Definition hash_V2 (env : Env) (request : GeminiChatRequest) : string :=
  CacheV2.HashSystemInstructions env (SystemInstructions request).

Definition key_V2 (env : Env) (request : GeminiChatRequest) : string :=
  CacheV2.redisKey (hash_V2 env request).

(** The key schema of the specification for handles scoped per channel. *)
Definition channel_key (channelID : Z) (hash : string) : string :=
  "gemini_cache:" ++ Itoa channelID ++ ":" ++ hash.

(** The [Set] events of a trace. *)
Definition writes (t : list Event) : list (string * string * Z) :=
  flat_map (fun ev => match ev with
                      | EvRedisSet k v ttl => [(k, v, ttl)]
                      | _ => []
                      end) t.

(** Between two worlds nothing was written: same store, same [Set]
    events. *)
Definition quiet (w w1 : World) : Prop :=
  store w1 = store w /\ writes (trace w1) = writes (trace w).

Definition result_of {A} (o : Outcome A) : option A :=
  match o with Returns a _ => Some a | Panics _ _ => None end.

Definition world_of {A} (o : Outcome A) : World :=
  match o with Returns _ w => w | Panics _ w => w end.

End CacheSpec.

(** ** relay/channel/gemini/adaptor.go *)

Module Adaptor.
Import GoStrings.

(** The fields of [relaycommon.RelayInfo] the adaptor reads or writes. *)
Record RelayInfo : Type :=
  { OriginModelName : string;
    UpstreamModelName : string;
    BaseUrl : string;
    IsStream : bool }.

Definition set_UpstreamModelName (info : RelayInfo) (name : string) : RelayInfo :=
  {| OriginModelName := OriginModelName info;
     UpstreamModelName := name;
     BaseUrl := BaseUrl info;
     IsStream := IsStream info |}.

(** [model_setting]: the thinking-adapter switch and the API version
    configured for a model. *)
Record GeminiSettings : Type :=
  { ThinkingAdapterEnabled : bool;
    GetGeminiVersionSetting : string -> string }.

(** [parts[0]] of a split.  [strings.Split] with a separator that is not
    empty returns at least one piece, so the index is in range. *)
Definition first_part (parts : list string) : string :=
  match parts with
  | p :: _ => p
  | [] => EmptyString
  end.

(** The rewrite of [info.UpstreamModelName] at the head of
    [GetRequestURL]. *)
Definition strip_thinking (settings : GeminiSettings) (info : RelayInfo)
  : RelayInfo :=
  if ThinkingAdapterEnabled settings then
    if Contains (UpstreamModelName info) "-thinking-" then
      let parts := Split (UpstreamModelName info) "-thinking-" in
      set_UpstreamModelName info (first_part parts)
    else if HasSuffix (UpstreamModelName info) "-thinking" then
      set_UpstreamModelName info (TrimSuffix (UpstreamModelName info) "-thinking")
    else if HasSuffix (UpstreamModelName info) "-nothinking" then
      set_UpstreamModelName info (TrimSuffix (UpstreamModelName info) "-nothinking")
    else info
  else info.

(** The rest of [GetRequestURL]: the endpoint for the model now in
    [info.UpstreamModelName]. *)
Definition endpoint (settings : GeminiSettings) (info : RelayInfo) : string :=
  let version := GetGeminiVersionSetting settings (UpstreamModelName info) in
  let models := BaseUrl info ++ "/" ++ version ++ "/models/"
                ++ UpstreamModelName info ++ ":" in
  if HasPrefix (UpstreamModelName info) "imagen" then models ++ "predict"
  else if HasPrefix (UpstreamModelName info) "text-embedding"
          || HasPrefix (UpstreamModelName info) "embedding"
          || HasPrefix (UpstreamModelName info) "gemini-embedding"
  then models ++ "embedContent"
  else
    let action := if IsStream info then "streamGenerateContent?alt=sse"
                  else "generateContent" in
    models ++ action.

(** [GetRequestURL] mutates [info] through its pointer and returns the URL
    with a nil error: the updated [info] is returned next to the URL. *)
Definition GetRequestURL (settings : GeminiSettings) (info : RelayInfo)
  : RelayInfo * (string * option error) :=
  let info := strip_thinking settings info in
  (info, (endpoint settings info, None)).


(** *** GeminiImageHandler *)

Inductive ErrorCode : Type :=
| ErrorCodeBadResponseBody
| ErrorCodeBadResponse
| ErrorCodeDoRequestFailed.

(** [types.NewError err code]. *)
Record NewAPIError : Type :=
  { api_Err : error; api_errorCode : ErrorCode }.

Definition types_NewError (e : error) (code : ErrorCode) : NewAPIError :=
  {| api_Err := e; api_errorCode := code |}.

Record GeminiImagePrediction : Type :=
  { MimeType : string;
    BytesBase64Encoded : string;
    RaiFilteredReason : string }.

Record GeminiImageResponse : Type :=
  { Predictions : list GeminiImagePrediction }.

Record ImageData : Type :=
  { Url : string; B64Json : string; RevisedPrompt : string }.

Record ImageResponse : Type :=
  { Created : Z; Data : list ImageData }.

Record Usage : Type :=
  { PromptTokens : Z; CompletionTokens : Z; TotalTokens : Z }.

(** The upstream response as the handler meets it: the status and what
    [io.ReadAll] makes of the body. *)
Record UpstreamResponse : Type :=
  { resp_StatusCode : Z; resp_ReadAll : result string }.

(** The gin response writer: headers set, status written, bytes written. *)
Record Writer : Type :=
  { w_Header : list (string * string);
    w_Status : option Z;
    w_Body : string }.

(** The JSON codec and the clock. *)
Record ImageEnv : Type :=
  { json_Unmarshal_image : string -> result GeminiImageResponse;
    json_Marshal_image : ImageResponse -> result string;
    GetTimestamp : Z }.

Definition imageTokens : Z := 258.

(** The loop over the predictions: a prediction with a filter reason is
    skipped, any other is appended. *)
Definition collect (predictions : list GeminiImagePrediction) : list ImageData :=
  fold_left
    (fun data prediction =>
       if negb (String.eqb (RaiFilteredReason prediction) "") then data
       else (data ++ [ {| Url := ""; B64Json := BytesBase64Encoded prediction;
                          RevisedPrompt := "" |} ])%list)
    predictions [].

Definition GeminiImageHandler (env : ImageEnv) (resp : UpstreamResponse)
    (wr : Writer) : (option Usage * option NewAPIError) * Writer :=
  match resp_ReadAll resp with
  | Err readErr => ((None, Some (types_NewError readErr ErrorCodeBadResponseBody)), wr)
  | Ok responseBody =>
      match json_Unmarshal_image env responseBody with
      | Err jsonErr =>
          ((None, Some (types_NewError jsonErr ErrorCodeBadResponseBody)), wr)
      | Ok geminiResponse =>
          if (List.length (Predictions geminiResponse) =? 0)%nat then
            ((None, Some (types_NewError (errors_New "no images generated")
                            ErrorCodeBadResponseBody)), wr)
          else
            let openAIResponse :=
              {| Created := GetTimestamp env;
                 Data := collect (Predictions geminiResponse) |} in
            match json_Marshal_image env openAIResponse with
            | Err jsonErr =>
                ((None, Some (types_NewError jsonErr ErrorCodeBadResponseBody)), wr)
            | Ok jsonResponse =>
                let wr := {| w_Header := ("Content-Type", "application/json")
                                         :: w_Header wr;
                             w_Status := Some (resp_StatusCode resp);
                             w_Body := w_Body wr ++ jsonResponse |} in
                let generatedImages := Z.of_nat (List.length (Data openAIResponse)) in
                ((Some {| PromptTokens := wrap64 (imageTokens * generatedImages);
                          CompletionTokens := 0;
                          TotalTokens := wrap64 (imageTokens * generatedImages) |},
                  None), wr)
            end
      end
  end.

(** The unfiltered predictions, in order, as canonical image data. *)
Definition accepted (predictions : list GeminiImagePrediction) : list ImageData :=
  map (fun p => {| Url := ""; B64Json := BytesBase64Encoded p; RevisedPrompt := "" |})
      (List.filter (fun p => String.eqb (RaiFilteredReason p) "") predictions).

End Adaptor.

Module AdaptorSamples.
Import Adaptor.

Definition settings_on : GeminiSettings :=
  {| ThinkingAdapterEnabled := true;
     GetGeminiVersionSetting := fun _ => "v1beta" |}.


Definition info_for (name : string) : RelayInfo :=
  {| OriginModelName := name;
     UpstreamModelName := name;
     BaseUrl := "https://g";
     IsStream := false |}.

Definition picture (data : string) : GeminiImagePrediction :=
  {| MimeType := "image/png"; BytesBase64Encoded := data; RaiFilteredReason := "" |}.

Definition filtered_picture : GeminiImagePrediction :=
  {| MimeType := ""; BytesBase64Encoded := "";
     RaiFilteredReason := "blocked by the safety filter" |}.

(** A codec that decodes every body to the given predictions and encodes a
    response as the concatenation of its images. *)
Definition image_env (predictions : list GeminiImagePrediction) : ImageEnv :=
  {| json_Unmarshal_image := fun _ => Ok {| Predictions := predictions |};
     json_Marshal_image := fun r => Ok (String.concat "," (map B64Json (Data r)));
     GetTimestamp := 1700000000 |}.

Definition ok_response : UpstreamResponse :=
  {| resp_StatusCode := 200; resp_ReadAll := Ok "{}" |}.

Definition fresh_writer : Writer :=
  {| w_Header := []; w_Status := None; w_Body := "" |}.

End AdaptorSamples.

(** ** controller/channel-test.go: the quota of a successful test *)

Module Quota.

(** IEEE 754 binary64, Go's [float64], on the Standard Library's
    executable specification of floating-point arithmetic. *)
Definition prec : Z := 53.
Definition emax : Z := 1024.

Definition float64 : Type := spec_float.

Definition f64_mul (x y : float64) : float64 := SFmul prec emax x y.

(** The conversion [float64(n)] of an [int]: round to nearest, ties to
    even. *)
Definition float64_of_int (z : Z) : float64 := binary_normalize prec emax z 0 false.

(** The value [m * 2^e] of a literal, for writing constants. *)
Definition f64_lit (m e : Z) : float64 := binary_normalize prec emax m e false.

(** Go's [x != 0] on a float: NaN differs from everything, the two zeros
    are equal. *)
Definition f64_ne_zero (x : float64) : bool := negb (SFeqb x (S754_zero false)).

(** [math.Round]: the nearest integer, halves away from zero; zeros,
    infinities and NaN are returned as they are. *)
Definition math_Round (x : float64) : float64 :=
  match x with
  | S754_finite s m e =>
      if 0 <=? e then x
      else
        let d := 2 ^ (- e) in
        let q := Zpos m / d in
        let r := Zpos m mod d in
        let q' := if d <=? 2 * r then q + 1 else q in
        match q' with
        | Z0 => S754_zero s
        | _ => binary_normalize prec emax (if s then - q' else q') 0 false
        end
  | _ => x
  end.

(** The integer part of a finite float, towards zero. *)
Definition truncate (x : float64) : option Z :=
  match x with
  | S754_zero _ => Some 0
  | S754_finite s m e =>
      let a := if 0 <=? e then Zpos m * 2 ^ e else Zpos m / 2 ^ (- e) in
      Some (if s then - a else a)
  | S754_infinity _ | S754_nan => None
  end.

(** Neither NaN nor an infinity. *)
Definition is_finite (x : float64) : bool :=
  match x with
  | S754_nan | S754_infinity _ => false
  | S754_zero _ | S754_finite _ _ _ => true
  end.

(** The fields of [helper.PriceData] and [dto.Usage] the computation
    reads. *)
Record PriceData : Type :=
  { UsePrice : bool;
    ModelPrice : float64;
    ModelRatio : float64;
    CompletionRatio : float64 }.

Record Usage : Type := { PromptTokens : Z; CompletionTokens : Z }.

Section WithPlatform.

(** [common.QuotaPerUnit], a package variable declared outside the given
    sources. *)
Variable QuotaPerUnit : float64.

(** What the conversion [int(x)] yields when [x] is NaN, infinite or out
    of the range of [int]: Go leaves it to the implementation. *)
Variable indefinite : float64 -> Z.

(** The conversion [int(x)]: the fraction is discarded. *)
Definition int_of_float64 (x : float64) : Z :=
  match truncate x with
  | Some z => if in_int_range z then z else indefinite x
  | None => indefinite x
  end.

(** [int(math.Round(float64(n) * ratio))]. *)
Definition round_scaled (n : Z) (ratio : float64) : Z :=
  int_of_float64 (math_Round (f64_mul (float64_of_int n) ratio)).

(** Lines 200 to 209 of [testChannel]. *)
Definition testChannel_quota (priceData : PriceData) (usage : Usage) : Z :=
  if negb (UsePrice priceData) then
    let quota :=
      wrap64 (PromptTokens usage
              + round_scaled (CompletionTokens usage) (CompletionRatio priceData)) in
    let quota := round_scaled quota (ModelRatio priceData) in
    if f64_ne_zero (ModelRatio priceData) && (quota <=? 0) then 1 else quota
  else int_of_float64 (f64_mul (ModelPrice priceData) QuotaPerUnit).

End WithPlatform.

(** The amd64 behaviour of an out-of-range conversion: the smallest
    [int]. *)
Definition indefinite_amd64 (x : float64) : Z := int_min.

Definition QuotaPerUnit_default : float64 := float64_of_int 500000.

Definition ratio_priced (completionRatio modelRatio : float64) : PriceData :=
  {| UsePrice := false;
     ModelPrice := S754_zero false;
     ModelRatio := modelRatio;
     CompletionRatio := completionRatio |}.

Definition flat_priced (modelPrice : float64) : PriceData :=
  {| UsePrice := true;
     ModelPrice := modelPrice;
     ModelRatio := S754_zero false;
     CompletionRatio := S754_zero false |}.

End Quota.

(** ** controller/channel-test.go: the single-flight guard of testAllChannels *)

Module SingleFlight.

(** The error of line 388. *)
Definition already_running : error := errors_New "测试已在运行中".

(** How the loop of the batch ends. *)
Inductive ending : Type := Finished | Panicked.

(** Where a goroutine stands: an invocation of [testAllChannels] (the
    first eight points) or the batch it handed to [gopool.Go]. *)
Inductive pc : Type :=
| AtLock                          (* 385: testAllChannelsLock.Lock() *)
| AtCheck                         (* 386: if testAllChannelsRunning *)
| AtUnlockBusy                    (* 387: Unlock(), then 388: return error *)
| AtSet                           (* 390: testAllChannelsRunning = true *)
| AtUnlock                        (* 391: Unlock() *)
| AtGetAllChannels                (* 393 to 396 *)
| AtSpawn                         (* 402: gopool.Go(...), then 459: return nil *)
| Returned (err : option error)   (* the invocation is over *)
| BatchLoop                       (* 409 to 457 *)
| DeferLock (o : ending)          (* 404: Lock() *)
| DeferClear (o : ending)         (* 405: testAllChannelsRunning = false *)
| DeferUnlock (o : ending)        (* 406: Unlock() *)
| BatchOver (o : ending).

(** The two package variables. *)
Record shared : Type :=
  { locked : bool;                    (* testAllChannelsLock *)
    testAllChannelsRunning : bool }.

(** What the surroundings decide when a goroutine steps: the error of
    [model.GetAllChannels], if any, and whether the loop goes on to another
    channel ([None]) or ends. *)
Record input : Type :=
  { getChannelErr : option error;
    loop : option ending }.

Definition set_locked (b : bool) (sh : shared) : shared :=
  {| locked := b; testAllChannelsRunning := testAllChannelsRunning sh |}.

Definition set_running (b : bool) (sh : shared) : shared :=
  {| locked := locked sh; testAllChannelsRunning := b |}.

(** One atomic step of a goroutine: its next point, the shared variables
    and the goroutine it starts, if any.  [None]: it cannot move (it waits
    for the mutex, or it is over; unlocking a mutex that is not locked is a
    fatal error). *)
Definition thread_step (inp : input) (p : pc) (sh : shared)
  : option (pc * shared * option pc) :=
  match p with
  | AtLock =>
      if locked sh then None else Some (AtCheck, set_locked true sh, None)
  | AtCheck =>
      Some (if testAllChannelsRunning sh then AtUnlockBusy else AtSet, sh, None)
  | AtUnlockBusy =>
      if locked sh
      then Some (Returned (Some already_running), set_locked false sh, None)
      else None
  | AtSet => Some (AtUnlock, set_running true sh, None)
  | AtUnlock =>
      if locked sh then Some (AtGetAllChannels, set_locked false sh, None)
      else None
  | AtGetAllChannels =>
      match getChannelErr inp with
      | Some e => Some (Returned (Some e), sh, None)
      | None => Some (AtSpawn, sh, None)
      end
  | AtSpawn => Some (Returned None, sh, Some BatchLoop)
  | Returned _ => None
  | BatchLoop =>
      match loop inp with
      | None => Some (BatchLoop, sh, None)
      | Some o => Some (DeferLock o, sh, None)
      end
  | DeferLock o =>
      if locked sh then None else Some (DeferClear o, set_locked true sh, None)
  | DeferClear o => Some (DeferUnlock o, set_running false sh, None)
  | DeferUnlock o =>
      if locked sh then Some (BatchOver o, set_locked false sh, None)
      else None
  | BatchOver _ => None
  end.

Definition started (sp : option pc) : list pc :=
  match sp with Some q => [q] | None => [] end.

(** A goroutine run on its own for at most [fuel] steps. *)
Fixpoint run_thread (fuel : nat) (inp : input) (p : pc) (sh : shared)
    (spawned : list pc) : pc * shared * list pc :=
  match fuel with
  | O => (p, sh, spawned)
  | S k =>
      match thread_step inp p sh with
      | Some (p', sh', sp) => run_thread k inp p' sh' (spawned ++ started sp)
      | None => (p, sh, spawned)
      end
  end.

(** [testAllChannels] run without interference: where it ends, the shared
    variables it leaves and the batches it started.  No path has more than
    six steps. *)
Definition testAllChannels (inp : input) (sh : shared) : pc * shared * list pc :=
  run_thread 6 inp AtLock sh [].

(** The batch run without interference, once its loop ends. *)
Definition batch (o : ending) (sh : shared) : pc * shared * list pc :=
  run_thread 4 {| getChannelErr := None; loop := Some o |} BatchLoop sh [].

(** The process: the shared variables and every goroutine that ever
    entered [testAllChannels] or was started by it. *)
Record state : Type :=
  { sh : shared;
    threads : list pc }.

Definition init : state :=
  {| sh := {| locked := false; testAllChannelsRunning := false |};
     threads := [] |}.

(** A new invocation, from the HTTP trigger or the timer. *)
Definition arrive (s : state) : state :=
  {| sh := sh s; threads := threads s ++ [AtLock] |}.

(** Goroutine [i] takes a step. *)
Definition system_step (inp : input) (i : nat) (s : state) : option state :=
  match threads s !! i with
  | Some p =>
      match thread_step inp p (sh s) with
      | Some (p', sh', sp) =>
          Some {| sh := sh'; threads := <[i := p']> (threads s) ++ started sp |}
      | None => None
      end
  | None => None
  end.

Inductive step : state -> state -> Prop :=
| step_arrive (s : state) : step s (arrive s)
| step_thread (inp : input) (i : nat) (s s' : state) :
    system_step inp i s = Some s' -> step s s'.

Definition reachable (s : state) : Prop := rtc step init s.

(** Between [Lock] and [Unlock]. *)
Definition in_critical_section (p : pc) : bool :=
  match p with
  | AtCheck | AtUnlockBusy | AtSet | AtUnlock
  | DeferClear _ | DeferUnlock _ => true
  | _ => false
  end.

(** Having set the flag and not yet cleared it: the invocation on its way
    to start the batch, then the batch. *)
Definition owns_flag (p : pc) : bool :=
  match p with
  | AtUnlock | AtGetAllChannels | AtSpawn
  | BatchLoop | DeferLock _ | DeferClear _ => true
  | _ => false
  end.

(** A batch that has not finished its loop and cleanup. *)
Definition batch_in_flight (p : pc) : bool :=
  match p with
  | BatchLoop | DeferLock _ | DeferClear _ => true
  | _ => false
  end.

Definition about_to_set (p : pc) : bool :=
  match p with AtSet => true | _ => false end.

Definition b2n (b : bool) : nat := if b then 1%nat else 0%nat.

Fixpoint count (f : pc -> bool) (l : list pc) : nat :=
  match l with
  | [] => 0%nat
  | p :: l' => (b2n (f p) + count f l')%nat
  end.

(** The invariant of the guard: the mutex is held by exactly the
    goroutines inside a critical section (none or one); whoever owns the
    flag is alone and the flag is set; nobody is about to set a flag that
    is already set. *)
Definition guard_invariant (s : state) : Prop :=
  count in_critical_section (threads s) = b2n (locked (sh s))
  /\ (count owns_flag (threads s) <= b2n (testAllChannelsRunning (sh s)))%nat
  /\ (testAllChannelsRunning (sh s) = true ->
      count about_to_set (threads s) = 0%nat).

(** The flag is set and nobody is left to clear it. *)
Definition stuck (s : state) : Prop :=
  testAllChannelsRunning (sh s) = true
  /\ count owns_flag (threads s) = 0%nat
  /\ count about_to_set (threads s) = 0%nat.

Definition idle : shared := {| locked := false; testAllChannelsRunning := false |}.
Definition busy : shared := {| locked := false; testAllChannelsRunning := true |}.

Definition channels_ok : input := {| getChannelErr := None; loop := None |}.
Definition channels_fail (e : error) : input :=
  {| getChannelErr := Some e; loop := None |}.

End SingleFlight.

Module SingleFlightRuns.
Import SingleFlight.

(** A schedule: invocations arriving and goroutines stepping. *)
Inductive event : Type :=
| Arrives
| Steps (inp : input) (i : nat).

Fixpoint replay (evs : list event) (s : state) : option state :=
  match evs with
  | [] => Some s
  | Arrives :: evs' => replay evs' (arrive s)
  | Steps inp i :: evs' =>
      match system_step inp i s with
      | Some s' => replay evs' s'
      | None => None
      end
  end.

(** Goroutine [i] runs [n] steps in a row. *)
Definition burst (inp : input) (i n : nat) : list event :=
  repeat (Steps inp i) n.

(** One invocation whose channel query fails. *)
Definition failing_invocation (e : error) : list event :=
  Arrives :: burst (channels_fail e) 0 5.

(** An invocation that starts its batch, then a second invocation that
    arrives while the batch is in its loop and runs to its end. *)
Definition overlapping_invocations : list event :=
  (Arrives :: burst channels_ok 0 6) ++ (Arrives :: burst channels_ok 2 3).

End SingleFlightRuns.

(** ** Vocabulary for the worlds a cache call passes through *)

Module CacheWorlds.
Import GoStrings Gemini CacheSpec.

(** The handle a revision reads out of a stored value: the value itself
    in cache.go, the [cache_name] of the envelope in the later revision. *)
Definition raw_handle (v : string) : string := v.

(** The handle the store offers and the existence check confirms. *)
Definition confirmed_handle (env : Env) (apiKey key : string)
    (handle_of : string -> string) (w : World) : option string :=
  match stored_value env key w with
  | Some v =>
      if verified env apiKey (handle_of v) then Some (handle_of v) else None
  | None => None
  end.

(** The world after the Redis branch: one read of the store when Redis is
    enabled, then one GET when the store answered with a usable value. *)
Definition after_lookup (env : Env) (apiKey key : string)
    (handle_of : string -> string) (w : World) : World :=
  if RedisEnabled env then
    let w1 := emit (EvRedisGet key) w in
    match stored_value env key w with
    | Some v => emit (EvHttpGet (lookup_url apiKey (handle_of v))) w1
    | None => w1
    end
  else w.

(** The store events and the creations of a trace. *)
Definition is_store_event (ev : Event) : bool :=
  match ev with
  | EvRedisGet _ | EvRedisSet _ _ _ => true
  | _ => false
  end.

Definition is_post (ev : Event) : bool :=
  match ev with
  | EvHttpPost _ _ => true
  | _ => false
  end.

Definition store_events (t : list Event) : list Event := List.filter is_store_event t.

Definition posts (t : list Event) : list Event := List.filter is_post t.

(** The JSON codec gives back the handle it wrapped, and its output is
    not the empty string. *)
Definition envelope_round_trip (env : Env) (channelID : Z) (newID : string) : Prop :=
  json_Unmarshal_cache_name env (json_Marshal env (CacheV2.envelope newID channelID))
  = newID
  /\ json_Marshal env (CacheV2.envelope newID channelID) <> "".

(** No byte of the string is a closing parenthesis. *)
Fixpoint no_paren (s : string) : bool :=
  match s with
  | EmptyString => true
  | String c s' => negb (Ascii.eqb c ")"%char) && no_paren s'
  end.

End CacheWorlds.

Module CacheSamples.
Import GoStrings Gemini Samples.

(** An upstream on which every handle exists, with a codec that unwraps
    what it wrapped: the envelope is rendered as "E:" followed by the
    handle. *)
Definition env_live : Env :=
  {| EnableCache := true;
     RedisEnabled := true;
     redis_up := true;
     GetMD5Hash := GetMD5Hash env0;
     http_Get := fun _ => Ok {| StatusCode := 200; Body := "" |};
     http_NewRequest := http_NewRequest env0;
     http_Do_post := http_Do_post env0;
     json_Marshal_request := json_Marshal_request env0;
     json_Marshal_content := json_Marshal_content env0;
     json_Marshal := fun j =>
       match j with
       | JObject [(_, JString name); (_, JInt _)] => "E:" ++ name
       | _ => "E:"
       end;
     json_Decode_name := json_Decode_name env0;
     json_Decode_any := json_Decode_any env0;
     json_Unmarshal_cache_name := fun val =>
       match val with
       | String "E" (String ":" name) => name
       | _ => ""
       end |}.

(** The same without Redis. *)
Definition env_no_redis : Env :=
  {| EnableCache := true;
     RedisEnabled := false;
     redis_up := false;
     GetMD5Hash := GetMD5Hash env0;
     http_Get := http_Get env_live;
     http_NewRequest := http_NewRequest env0;
     http_Do_post := http_Do_post env0;
     json_Marshal_request := json_Marshal_request env0;
     json_Marshal_content := json_Marshal_content env0;
     json_Marshal := json_Marshal env_live;
     json_Decode_name := json_Decode_name env0;
     json_Decode_any := json_Decode_any env0;
     json_Unmarshal_cache_name := json_Unmarshal_cache_name env_live |}.

(** A store that maps the keys of [long_request] to a live handle, raw
    under the per-channel key and wrapped under the global key. *)
Definition live_world : World :=
  {| store := <["gemini_cache:h" := ("E:cachedContents/live", time_Hour)]>
              (<["gemini_cache:%!s(int=5):h" := ("cachedContents/live", time_Hour)]> ∅);
     trace := [] |}.

(** A request too short to be cached. *)
Definition short_request : GeminiChatRequest :=
  {| Contents := [short_content]; SystemInstructions := Some short_content |}.

End CacheSamples.

(** ** relay/channel/gemini/adaptor.go: the request conversions and the dispatch *)

Module AdaptorMore.
Import GoStrings Adaptor.

(** The fields of [dto.ImageRequest] the conversion reads. *)
Record ImageRequest : Type :=
  { img_Prompt : string; img_N : Z; img_Size : string }.

Record GeminiImageInstance : Type := { inst_Prompt : string }.

Record GeminiImageParameters : Type :=
  { SampleCount : Z; AspectRatio : string; PersonGeneration : string }.

Record GeminiImageRequest : Type :=
  { Instances : list GeminiImageInstance; Parameters : GeminiImageParameters }.

Definition ConvertImageRequest (info : RelayInfo) (request : ImageRequest)
  : result GeminiImageRequest :=
  if negb (HasPrefix (UpstreamModelName info) "imagen") then
    Err (errors_New "not supported model for image generation")
  else
    let aspectRatio := "1:1" in
    let aspectRatio :=
      if String.eqb (img_Size request) "1024x1024" then "1:1"
      else if String.eqb (img_Size request) "1024x1792" then "9:16"
      else if String.eqb (img_Size request) "1792x1024" then "16:9"
      else aspectRatio in
    Ok {| Instances := [ {| inst_Prompt := img_Prompt request |} ];
          Parameters := {| SampleCount := img_N request;
                           AspectRatio := aspectRatio;
                           PersonGeneration := "allow_adult" |} |}.

(** What [request.Input], of type [any], may hold. *)
Inductive any_input : Type :=
| InputString (s : string)
| InputStrings (l : list string)
| InputOther.

(** The fields of [dto.EmbeddingRequest] the conversion reads; a nil
    [Input] is [None]. *)
Record EmbeddingRequest : Type :=
  { emb_Input : option any_input; emb_Model : string; emb_Dimensions : Z }.

(** [OutputDimensionality] is 0 when it is not set. *)
Record GeminiEmbeddingRequest : Type :=
  { emb_Content : Gemini.GeminiChatContent;
    OutputDimensionality : Z }.

Section WithParseInput.

(** [dto.EmbeddingRequest.ParseInput], declared outside the given
    sources. *)
Variable ParseInput : EmbeddingRequest -> list string.

Definition ConvertEmbeddingRequest (info : RelayInfo) (request : EmbeddingRequest)
  : result GeminiEmbeddingRequest :=
  match emb_Input request with
  | None => Err (errors_New "input is required")
  | Some _ =>
      let inputs := ParseInput request in
      match inputs with
      | [] => Err (errors_New "input is empty")
      | first :: _ =>
          let dims :=
            if String.eqb (UpstreamModelName info) "text-embedding-004" then
              if 0 <? emb_Dimensions request then emb_Dimensions request else 0
            else 0 in
          Ok {| emb_Content :=
                  {| Gemini.Role := "";
                     Gemini.Parts := [ {| Gemini.Text := first;
                                          Gemini.InlineData := None;
                                          Gemini.FileData := None |} ] |};
                OutputDimensionality := dims |}
      end
  end.

End WithParseInput.

(** The stubs. *)
Definition ConvertAudioRequest : result unit := Err (errors_New "not implemented").
Definition ConvertOpenAIResponsesRequest : result unit :=
  Err (errors_New "not implemented").

(** The handlers [DoResponse] chooses between. *)
Inductive Handler : Type :=
| GeminiTextGenerationStreamHandler
| GeminiTextGenerationHandler
| ImageHandler
| GeminiEmbeddingHandler
| GeminiChatStreamHandler
| GeminiChatHandler.

Definition is_embedding_family (name : string) : bool :=
  HasPrefix name "text-embedding"
  || HasPrefix name "embedding"
  || HasPrefix name "gemini-embedding".

(** The choice made by [DoResponse]; [native] stands for
    [info.RelayMode == constant.RelayModeGemini]. *)
Definition DoResponse_route (native : bool) (info : RelayInfo) : Handler :=
  if native then
    if IsStream info then GeminiTextGenerationStreamHandler
    else GeminiTextGenerationHandler
  else if HasPrefix (UpstreamModelName info) "imagen" then ImageHandler
  else if is_embedding_family (UpstreamModelName info) then GeminiEmbeddingHandler
  else if IsStream info then GeminiChatStreamHandler
  else GeminiChatHandler.

Section WithHandlers.

(** The handlers defined in other files of the package. *)
Variable other_handler :
  Handler -> UpstreamResponse -> Writer ->
  (option Usage * option NewAPIError) * Writer.

Definition DoResponse (env : ImageEnv) (native : bool) (info : RelayInfo)
    (resp : UpstreamResponse) (wr : Writer)
  : (option Usage * option NewAPIError) * Writer :=
  match DoResponse_route native info with
  | ImageHandler => GeminiImageHandler env resp wr
  | h => other_handler h resp wr
  end.

End WithHandlers.

(** The action [GetRequestURL] puts after the colon for the answer a
    handler expects. *)
Definition action_of (h : Handler) : string :=
  match h with
  | ImageHandler => "predict"
  | GeminiEmbeddingHandler => "embedContent"
  | GeminiChatStreamHandler | GeminiTextGenerationStreamHandler =>
      "streamGenerateContent?alt=sse"
  | GeminiChatHandler | GeminiTextGenerationHandler => "generateContent"
  end.

(** The part of the URL up to the colon. *)
Definition models_prefix (settings : GeminiSettings) (info : RelayInfo) : string :=
  BaseUrl info ++ "/" ++ GetGeminiVersionSetting settings (UpstreamModelName info)
  ++ "/models/" ++ UpstreamModelName info ++ ":".

End AdaptorMore.

(** ** controller/channel-test.go: the test request *)

Module TestRequest.
Import GoStrings.

(** The parts of [dto.GeneralOpenAIRequest] and of the types it holds that
    [buildTestRequest] fills in; every other field keeps its zero value. *)
Record Message : Type := { msg_Role : string; msg_Content : string }.

(** The values of the map literal that describes the tool's parameters. *)
#[warnings="-register-all"]
Inductive jvalue : Type :=
| JVString (s : string)
| JVBool (b : bool)
| JVStrings (l : list string)
| JVObject (fields : list (string * jvalue)).

Record FunctionRequest : Type :=
  { fn_Name : string; fn_Description : string; fn_Parameters : jvalue }.

Record ToolCallRequest : Type :=
  { tool_Type : string; tool_Function : FunctionRequest }.

Record ResponseFormat : Type := { rf_Type : string }.

Record GeneralOpenAIRequest : Type :=
  { Model : string;
    Stream : bool;
    Input : option (list string);
    MaxTokens : Z;
    MaxCompletionTokens : Z;
    Temperature : option spec_float;
    Messages : list Message;
    ResponseFormat_ : option ResponseFormat;
    Tools : list ToolCallRequest;
    ToolChoice : option string }.

(** [&dto.GeneralOpenAIRequest{Model: "", Stream: false}]. *)
Definition empty_request : GeneralOpenAIRequest :=
  {| Model := ""; Stream := false; Input := None; MaxTokens := 0;
     MaxCompletionTokens := 0; Temperature := None; Messages := [];
     ResponseFormat_ := None; Tools := []; ToolChoice := None |}.

Definition set_Model (v : string) (r : GeneralOpenAIRequest) :=
  {| Model := v; Stream := Stream r; Input := Input r; MaxTokens := MaxTokens r;
     MaxCompletionTokens := MaxCompletionTokens r; Temperature := Temperature r;
     Messages := Messages r; ResponseFormat_ := ResponseFormat_ r;
     Tools := Tools r; ToolChoice := ToolChoice r |}.

Definition set_Input (v : option (list string)) (r : GeneralOpenAIRequest) :=
  {| Model := Model r; Stream := Stream r; Input := v; MaxTokens := MaxTokens r;
     MaxCompletionTokens := MaxCompletionTokens r; Temperature := Temperature r;
     Messages := Messages r; ResponseFormat_ := ResponseFormat_ r;
     Tools := Tools r; ToolChoice := ToolChoice r |}.

Definition set_MaxTokens (v : Z) (r : GeneralOpenAIRequest) :=
  {| Model := Model r; Stream := Stream r; Input := Input r; MaxTokens := v;
     MaxCompletionTokens := MaxCompletionTokens r; Temperature := Temperature r;
     Messages := Messages r; ResponseFormat_ := ResponseFormat_ r;
     Tools := Tools r; ToolChoice := ToolChoice r |}.

Definition set_MaxCompletionTokens (v : Z) (r : GeneralOpenAIRequest) :=
  {| Model := Model r; Stream := Stream r; Input := Input r;
     MaxTokens := MaxTokens r; MaxCompletionTokens := v;
     Temperature := Temperature r; Messages := Messages r;
     ResponseFormat_ := ResponseFormat_ r; Tools := Tools r;
     ToolChoice := ToolChoice r |}.

Definition set_Temperature (v : option spec_float) (r : GeneralOpenAIRequest) :=
  {| Model := Model r; Stream := Stream r; Input := Input r;
     MaxTokens := MaxTokens r; MaxCompletionTokens := MaxCompletionTokens r;
     Temperature := v; Messages := Messages r;
     ResponseFormat_ := ResponseFormat_ r; Tools := Tools r;
     ToolChoice := ToolChoice r |}.

Definition set_Messages (v : list Message) (r : GeneralOpenAIRequest) :=
  {| Model := Model r; Stream := Stream r; Input := Input r;
     MaxTokens := MaxTokens r; MaxCompletionTokens := MaxCompletionTokens r;
     Temperature := Temperature r; Messages := v;
     ResponseFormat_ := ResponseFormat_ r; Tools := Tools r;
     ToolChoice := ToolChoice r |}.

Definition set_ResponseFormat (v : option ResponseFormat) (r : GeneralOpenAIRequest) :=
  {| Model := Model r; Stream := Stream r; Input := Input r;
     MaxTokens := MaxTokens r; MaxCompletionTokens := MaxCompletionTokens r;
     Temperature := Temperature r; Messages := Messages r;
     ResponseFormat_ := v; Tools := Tools r; ToolChoice := ToolChoice r |}.

Definition set_Tools (v : list ToolCallRequest) (r : GeneralOpenAIRequest) :=
  {| Model := Model r; Stream := Stream r; Input := Input r;
     MaxTokens := MaxTokens r; MaxCompletionTokens := MaxCompletionTokens r;
     Temperature := Temperature r; Messages := Messages r;
     ResponseFormat_ := ResponseFormat_ r; Tools := v; ToolChoice := ToolChoice r |}.

Definition set_ToolChoice (v : option string) (r : GeneralOpenAIRequest) :=
  {| Model := Model r; Stream := Stream r; Input := Input r;
     MaxTokens := MaxTokens r; MaxCompletionTokens := MaxCompletionTokens r;
     Temperature := Temperature r; Messages := Messages r;
     ResponseFormat_ := ResponseFormat_ r; Tools := Tools r; ToolChoice := v |}.

(** The tool offered by the "function" test. *)
Definition add_tool : ToolCallRequest :=
  {| tool_Type := "function";
     tool_Function :=
       {| fn_Name := "add";
          fn_Description := "Sum two integers";
          fn_Parameters :=
            JVObject
              [("type", JVString "object");
               ("properties",
                JVObject [("a", JVObject [("type", JVString "integer")]);
                          ("b", JVObject [("type", JVString "integer")])]);
               ("required", JVStrings ["a"; "b"]);
               ("additionalProperties", JVBool false)] |} |}.

(** A text between double quotes, as the Go literals of the JSON test
    write it. *)
Definition quoted (s : string) : string :=
  String (ascii_of_nat 34) (s ++ String (ascii_of_nat 34) EmptyString).

Section WithLibrary.

(** [strings.ToLower] and [strings.TrimSpace], which work on Unicode
    text, and [GetSystemRoleName], a method of the request declared outside
    the given sources. *)
Variable ToLower : string -> string.
Variable TrimSpace : string -> string.
Variable GetSystemRoleName : GeneralOpenAIRequest -> string.

(** The closure [isEmbeddingModel] of [testChannel], and [isEmbedding] of
    [buildTestRequest], which has the same body. *)
Definition isEmbeddingModel (m : string) : bool :=
  let lm := ToLower m in
  Contains lm "embedding"
  || HasPrefix m "m3e"
  || Contains m "bge-"
  || Contains lm "embed".

Definition buildTestRequest (modelName testType : string) : GeneralOpenAIRequest :=
  let req := empty_request in
  if isEmbeddingModel modelName then
    let req := set_Model modelName req in
    set_Input (Some ["hello world"]) req
  else
    let req :=
      if HasPrefix modelName "o" then set_MaxCompletionTokens 32 req
      else if Contains modelName "thinking" then
        if negb (Contains modelName "claude") then set_MaxTokens 64 req else req
      else if Contains modelName "gemini" then set_MaxTokens 128 req
      else set_MaxTokens 64 req in
    let req := set_Temperature (Some (S754_zero false)) req in
    let req := set_Model modelName req in
    let kind := ToLower testType in
    if String.eqb kind "json" then
      let sys := {| msg_Role := GetSystemRoleName req;
                    msg_Content := "Return ONLY a valid JSON object. No prose, no code fences, no explanations." |} in
      let user := {| msg_Role := "user";
                     msg_Content := "Return a minimal JSON with fields: {" ++ quoted "ok" ++ ": true, "
                                      ++ quoted "model" ++ ": " ++ quoted modelName ++ ", "
                                      ++ quoted "ts" ++ ": current unix timestamp integer}." |} in
      let req := set_Messages (Messages req ++ [sys; user]) req in
      set_ResponseFormat (Some {| rf_Type := "json_object" |}) req
    else if String.eqb kind "function" then
      let req := set_Tools [add_tool] req in
      let req := set_ToolChoice (Some "required") req in
      let sys := {| msg_Role := GetSystemRoleName req;
                    msg_Content := "You are a function-calling assistant. Prefer calling tools when available." |} in
      let user := {| msg_Role := "user"; msg_Content := "Please add 2 and 3." |} in
      set_Messages (Messages req ++ [sys; user]) req
    else
      let msg := {| msg_Role := "user"; msg_Content := "hi" |} in
      set_Messages (Messages req ++ [msg]) req.

(** The normalisation of the test type at the head of [testChannel]. *)
Definition normalize_testType (testType : string) : string :=
  let testType := ToLower (TrimSpace testType) in
  if String.eqb testType "" then "text" else testType.

End WithLibrary.

(** [strings.ToLower] on ASCII text, for running the code on model names
    and test kinds written in ASCII. *)
Definition lower_char (c : ascii) : ascii :=
  let n := nat_of_ascii c in
  if (Nat.leb 65 n && Nat.leb n 90)%bool then ascii_of_nat (n + 32) else c.

Fixpoint ToLower_ascii (s : string) : string :=
  match s with
  | EmptyString => EmptyString
  | String c s' => String (lower_char c) (ToLower_ascii s')
  end.

Definition system_role (r : GeneralOpenAIRequest) : string := "system".

End TestRequest.

(** ** controller/channel-test.go: testChannel, its HTTP handler and the batch *)

Module ChannelTest.
Import GoStrings TestRequest.

(** The fields and methods of [model.Channel] the tester reads. *)
Record Channel : Type :=
  { Id : Z;
    Type_ : Z;
    Name : string;
    Status : Z;
    TestModel : option string;       (* *string *)
    GetModels : list string;         (* the method GetModels() *)
    GetAutoBan : bool;               (* the method GetAutoBan() *)
    IsMultiKey : bool }.             (* ChannelInfo.IsMultiKey *)

(** The error codes of package [types] the tester names. *)
Inductive ErrorCode : Type :=
| ErrorCodeChannelModelMappedError
| ErrorCodeInvalidApiType
| ErrorCodeModelPriceError
| ErrorCodeConvertRequestFailed
| ErrorCodeJsonMarshalFailed
| ErrorCodeDoRequestFailed
| ErrorCodeBadResponse
| ErrorCodeBadResponseBody
| ErrorCodeReadResponseBodyFailed
| ErrorCodeChannelResponseTimeExceeded.

(** A [*types.NewAPIError]: built here by [types.NewError] or
    [types.NewOpenAIError], or handed over by a collaborator. *)
Inductive NewAPIError : Type :=
| types_NewError (err : error) (code : ErrorCode)
| types_NewOpenAIError (err : error) (code : ErrorCode) (statusCode : Z)
| built_elsewhere (name : string).

(** What the field [localErr], of interface type [error], holds: an
    ordinary error or a [*types.NewAPIError]. *)
Inductive local_error : Type :=
| plain (e : error)
| api (e : NewAPIError).

(** The test context of line 61, with the request of line 75. *)
Record Context : Type := { request_Path : string }.

Record testResult : Type :=
  { context : option Context;
    localErr : option local_error;
    newAPIError : option NewAPIError }.

(** [*http.Response]. *)
Record Response : Type := { StatusCode : Z }.

Record RecordConsumeLogParams : Type :=
  { log_ChannelId : Z;
    log_PromptTokens : Z;
    log_CompletionTokens : Z;
    log_ModelName : string;
    log_TokenName : string;
    log_Quota : Z;
    log_Content : string;
    log_UseTimeSeconds : Z;
    log_IsStream : bool;
    log_Group : string;
    log_Other : string }.

(** The calls that can fail, the exchange with the upstream, the consume
    log and what the handler and the batch do to a channel, each with the
    arguments the tester decides. *)
Inductive Call : Type :=
| GetUserCache
| SetupContextForSelectedChannel (c : Context) (channel : Channel) (testModel : string)
| GenRelayInfo (c : Context)
| ModelMappedHelper
| GetAdaptor (apiType : Z)
| ModelPriceHelper (maxTokens : Z)
| adaptor_Init
| ConvertEmbeddingRequest (input : option (list string)) (model : string)
| ConvertOpenAIRequest (request : GeneralOpenAIRequest)
| json_Marshal
| DoRequest (requestBody : string)
| RelayErrorHandler (httpResp : Response)
| DoResponse (httpResp : option Response)
| ReadAll
| RecordConsumeLog (params : RecordConsumeLogParams)
| UpdateResponseTime (channel : Channel) (milliseconds : Z)
| processChannelError (c : option Context) (channel : Channel) (usingKey : string)
    (err : option NewAPIError)
| EnableChannel (channelId : Z) (usingKey : string) (name : string)
| Sleep
| NotifyRootUser.

(** What the collaborators answer during one run of [testChannel], and
    what the tester reads from the shared [info], which every collaborator
    receives by pointer and may update: the model turns each read into an
    answer of the run.  The type assertions of lines 176 and 191 are taken
    to succeed, and [service.RelayErrorHandler] to return an error. *)
Record Run : Type :=
  { run_GetUserCache : option error;                 (* 99 *)
    run_SetupContext : option NewAPIError;           (* 111 *)
    run_ModelMappedHelper : option error;            (* 118 *)
    run_UpstreamModelName : string;                  (* 125 *)
    run_apiType : Z;                                 (* 127 *)
    run_adaptor_nil : bool;                          (* 128, 129 *)
    run_ModelPriceHelper : result Quota.PriceData;   (* 140 *)
    run_RelayMode : Z;                               (* 148 *)
    run_Convert : option error;                      (* 153, 155 *)
    run_json_Marshal : result string;                (* 161 *)
    run_DoRequest : result (option Response);        (* 169 *)
    run_RelayErrorHandler : error;                   (* 178 *)
    run_DoResponse : option Quota.Usage * option NewAPIError;   (* 183 *)
    run_ReadAll : option error;                      (* 194 *)
    run_milliseconds : Z;                            (* 212 *)
    run_other : string;                              (* 215 *)
    run_OriginModelName : string;                    (* 224 *)
    run_IsStream : bool;                             (* 229 *)
    run_UsingGroup : string }.                       (* 230 *)

(** What a handler writes. *)
Inductive Reply : Type :=
| ApiError (err : error)
| JSON (success : bool) (message : string) (time : Quota.float64).

Definition f64_div (x y : Quota.float64) : Quota.float64 :=
  SFdiv Quota.prec Quota.emax x y.

Definition StatusOK : Z := 200.
Definition StatusRequestTimeout : Z := 408.
Definition StatusInternalServerError : Z := 500.

Section WithPackages.

(** Library functions and the method [GetMaxTokens] of the request. *)
Variable ToLower : string -> string.
Variable TrimSpace : string -> string.
Variable GetSystemRoleName : GeneralOpenAIRequest -> string.
Variable GetMaxTokens : GeneralOpenAIRequest -> Z.

(** Constants of packages [constant], [relayconstant] and [common]. *)
Variable ChannelTypeMidjourney : Z.
Variable ChannelTypeMidjourneyPlus : Z.
Variable ChannelTypeSunoAPI : Z.
Variable ChannelTypeKling : Z.
Variable ChannelTypeJimeng : Z.
Variable ChannelTypeVidu : Z.
Variable ChannelTypeMokaAI : Z.
Variable RelayModeEmbeddings : Z.
Variable ChannelStatusEnabled : Z.

(** [common.QuotaPerUnit] and the out-of-range conversion of a float. *)
Variable QuotaPerUnit : Quota.float64.
Variable indefinite : Quota.float64 -> Z.

(** Lines 41 to 58: the channel types that are not tested. *)
Definition unsupported (channelType : Z) : option string :=
  if channelType =? ChannelTypeMidjourney then
    Some "midjourney channel test is not supported"
  else if channelType =? ChannelTypeMidjourneyPlus then
    Some "midjourney plus channel test is not supported"
  else if channelType =? ChannelTypeSunoAPI then
    Some "suno channel test is not supported"
  else if channelType =? ChannelTypeKling then
    Some "kling channel test is not supported"
  else if channelType =? ChannelTypeJimeng then
    Some "jimeng channel test is not supported"
  else if channelType =? ChannelTypeVidu then
    Some "vidu channel test is not supported"
  else None.

(** Lines 63 to 73. *)
Definition requestPath_of (channel : Channel) (testModel : string) : string :=
  if isEmbeddingModel ToLower testModel || (Type_ channel =? ChannelTypeMokaAI)
  then "/v1/embeddings" else "/v1/chat/completions".

(** Lines 82 to 92. *)
Definition select_model (channel : Channel) (testModel : string) : string :=
  if String.eqb testModel "" then
    if match TestModel channel with
       | Some m => negb (String.eqb m "")
       | None => false
       end
    then default "" (TestModel channel)
    else
      match GetModels channel with
      | m :: _ => m
      | [] => "gpt-4o-mini"
      end
  else testModel.

Definition failed (c : option Context) (e : local_error) (n : option NewAPIError)
  : testResult :=
  {| context := c; localErr := Some e; newAPIError := n |}.

(** Lines 200 to 232: the consume log of a test that passed. *)
Definition consume_log (run : Run) (channel : Channel)
    (priceData : Quota.PriceData) (usage : Quota.Usage) : RecordConsumeLogParams :=
  let quota := Quota.testChannel_quota QuotaPerUnit indefinite priceData usage in
  let milliseconds := run_milliseconds run in
  let consumedTime := f64_div (Quota.float64_of_int milliseconds) (Quota.float64_of_int 1000) in
  {| log_ChannelId := Id channel;
     log_PromptTokens := Quota.PromptTokens usage;
     log_CompletionTokens := Quota.CompletionTokens usage;
     log_ModelName := run_OriginModelName run;
     log_TokenName := "模型测试";
     log_Quota := quota;
     log_Content := "模型测试";
     log_UseTimeSeconds := Quota.int_of_float64 indefinite consumedTime;
     log_IsStream := run_IsStream run;
     log_Group := run_UsingGroup run;
     log_Other := run_other run |}.

(** [testChannel]: its result and the calls it made, in order. *)
Definition testChannel (run : Run) (channel : Channel) (testModel testType : string)
  : testResult * list Call :=
  match unsupported (Type_ channel) with
  | Some msg =>
      ({| context := None; localErr := Some (plain (errors_New msg)); newAPIError := None |}, [])
  | None =>
  let c := {| request_Path := requestPath_of channel testModel |} in
  let testModel := select_model channel testModel in
  let testType := normalize_testType ToLower TrimSpace testType in
  let calls := [GetUserCache] in
  match run_GetUserCache run with
  | Some err =>
      ({| context := None; localErr := Some (plain err); newAPIError := None |}, calls)
  | None =>
  let calls := (calls ++ [SetupContextForSelectedChannel c channel testModel])%list in
  match run_SetupContext run with
  | Some newAPIError => (failed (Some c) (api newAPIError) (Some newAPIError), calls)
  | None =>
  let calls := (calls ++ [GenRelayInfo c; ModelMappedHelper])%list in
  match run_ModelMappedHelper run with
  | Some err =>
      (failed (Some c) (plain err)
         (Some (types_NewError err ErrorCodeChannelModelMappedError)), calls)
  | None =>
  let testModel := run_UpstreamModelName run in
  let apiType := run_apiType run in
  let calls := (calls ++ [GetAdaptor apiType])%list in
  if run_adaptor_nil run then
    let err := errors_New ("invalid api type: " ++ Itoa apiType ++ ", adaptor is nil") in
    (failed (Some c) (plain err) (Some (types_NewError err ErrorCodeInvalidApiType)), calls)
  else
  let request := buildTestRequest ToLower GetSystemRoleName testModel testType in
  let calls := (calls ++ [ModelPriceHelper (wrap64 (GetMaxTokens request))])%list in
  match run_ModelPriceHelper run with
  | Err err =>
      (failed (Some c) (plain err) (Some (types_NewError err ErrorCodeModelPriceError)), calls)
  | Ok priceData =>
  let calls :=
    (calls ++ [adaptor_Init;
               if run_RelayMode run =? RelayModeEmbeddings
               then ConvertEmbeddingRequest (Input request) (Model request)
               else ConvertOpenAIRequest request])%list in
  match run_Convert run with
  | Some err =>
      (failed (Some c) (plain err)
         (Some (types_NewError err ErrorCodeConvertRequestFailed)), calls)
  | None =>
  let calls := (calls ++ [json_Marshal])%list in
  match run_json_Marshal run with
  | Err err =>
      (failed (Some c) (plain err)
         (Some (types_NewError err ErrorCodeJsonMarshalFailed)), calls)
  | Ok jsonData =>
  let calls := (calls ++ [DoRequest jsonData])%list in
  match run_DoRequest run with
  | Err err =>
      (failed (Some c) (plain err)
         (Some (types_NewOpenAIError err ErrorCodeDoRequestFailed
                  StatusInternalServerError)), calls)
  | Ok resp =>
  match match resp with
        | Some httpResp =>
            if negb (StatusCode httpResp =? StatusOK) then Some httpResp else None
        | None => None
        end with
  | Some httpResp =>
      let err := run_RelayErrorHandler run in
      (failed (Some c) (plain err)
         (Some (types_NewOpenAIError err ErrorCodeBadResponse
                  StatusInternalServerError)),
       (calls ++ [RelayErrorHandler httpResp])%list)
  | None =>
  let calls := (calls ++ [DoResponse resp])%list in
  match run_DoResponse run with
  | (_, Some respErr) => (failed (Some c) (api respErr) (Some respErr), calls)
  | (None, None) =>
      let err := errors_New "usage is nil" in
      (failed (Some c) (plain err)
         (Some (types_NewOpenAIError err ErrorCodeBadResponseBody
                  StatusInternalServerError)), calls)
  | (Some usage, None) =>
  let calls := (calls ++ [ReadAll])%list in
  match run_ReadAll run with
  | Some err =>
      (failed (Some c) (plain err)
         (Some (types_NewOpenAIError err ErrorCodeReadResponseBodyFailed
                  StatusInternalServerError)), calls)
  | None =>
      ({| context := Some c; localErr := None; newAPIError := None |},
       (calls ++ [RecordConsumeLog (consume_log run channel priceData usage)])%list)
  end end end end end end end end end end end.

(** *** The handler TestChannel *)

(** [strconv.Atoi], the two channel lookups and the method [Error] of an
    error value. *)
Variable Atoi : string -> result Z.
Variable CacheGetChannel : Z -> result Channel.
Variable GetChannelById : Z -> result Channel.
Variable Error : local_error -> string.

(** [TestChannel] on the path parameter [id] and the query parameters
    [model] and [type], when the test takes [milliseconds]. *)
Definition TestChannel (run : Run) (id model type_ : string) (milliseconds : Z)
  : Reply * list Call :=
  match Atoi id with
  | Err err => (ApiError err, [])
  | Ok channelId =>
  match match CacheGetChannel channelId with
        | Ok channel => Ok channel
        | Err _ => GetChannelById channelId
        end with
  | Err err => (ApiError err, [])
  | Ok channel =>
  let testModel := model in
  let testType := ToLower type_ in
  let (result, calls) := testChannel run channel testModel testType in
  match localErr result with
  | Some e => (JSON false (Error e) (S754_zero false), calls)
  | None =>
  let calls := (calls ++ [UpdateResponseTime channel milliseconds])%list in
  let consumedTime :=
    f64_div (Quota.float64_of_int milliseconds) (Quota.float64_of_int 1000) in
  match newAPIError result with
  | Some e => (JSON false (Error (api e)) consumedTime, calls)
  | None => (JSON true "" consumedTime, calls)
  end end end end.

(** *** The loop of the batch *)

(** Settings of package [common], the two judgements of package [service]
    and [fmt]'s rendering of a float with two decimals. *)
Variable AutomaticDisableChannelEnabled : bool.
Variable ChannelDisableThreshold : Quota.float64.
Variable ShouldDisableChannel : Z -> NewAPIError -> bool.
Variable ShouldEnableChannel : option NewAPIError -> Z -> bool.
Variable Sprintf_2f : Quota.float64 -> string.

(** [common.GetContextKeyString(c, constant.ContextKeyChannelKey)],
    declared outside the given sources: the channel key read from the
    context of the test, or [None] when the call panics.  It reads through
    a method of the context, [result.context] is a pointer, and the results
    of lines 42 to 57 and 101 carry a nil one. *)
Variable GetContextKeyString : option Context -> option string.

(** Lines 397 to 400. *)
Definition disableThreshold : Z :=
  let disableThreshold :=
    Quota.int_of_float64 indefinite
      (Quota.f64_mul ChannelDisableThreshold (Quota.float64_of_int 1000)) in
  if disableThreshold =? 0 then 10000000 else disableThreshold.

(** Lines 424 and 425. *)
Definition response_time_exceeded (milliseconds : Z) : NewAPIError :=
  let err :=
    errors_New
      ("响应时间 "
       ++ Sprintf_2f (f64_div (Quota.float64_of_int milliseconds) (Quota.float64_of_int 1000))
       ++ "s 超过阈值 "
       ++ Sprintf_2f (f64_div (Quota.float64_of_int disableThreshold) (Quota.float64_of_int 1000))
       ++ "s") in
  types_NewOpenAIError err ErrorCodeChannelResponseTimeExceeded StatusRequestTimeout.

(** Lines 416 to 428: the error the channel is judged by and whether it
    should be banned. *)
Definition verdict (channel : Channel) (result : testResult) (milliseconds : Z)
  : option NewAPIError * bool :=
  let shouldBanChannel := false in
  let newAPIError_ := newAPIError result in
  let shouldBanChannel :=
    match newAPIError_ with
    | Some e => ShouldDisableChannel (Type_ channel) e
    | None => shouldBanChannel
    end in
  if AutomaticDisableChannelEnabled && negb shouldBanChannel then
    if disableThreshold <? milliseconds
    then (Some (response_time_exceeded milliseconds), true)
    else (newAPIError_, shouldBanChannel)
  else (newAPIError_, shouldBanChannel).

(** Lines 431 to 444: the channel is handed to [processChannelError].
    The arguments of the [go] statement, the key among them, are evaluated
    by the loop itself; [None] stands for a panic there. *)
Definition disable_step (channel : Channel) (result : testResult)
    (isChannelEnabled shouldBanChannel : bool) (newAPIError_ : option NewAPIError)
  : option (list Call) :=
  if isChannelEnabled && shouldBanChannel && GetAutoBan channel then
    match GetContextKeyString (context result) with
    | Some usingKey =>
        Some [processChannelError (context result) channel usingKey newAPIError_]
    | None => None
    end
  else Some [].

(** Lines 447 to 449. *)
Definition enable_step (channel : Channel) (result : testResult)
    (isChannelEnabled : bool) (newAPIError_ : option NewAPIError)
  : option (list Call) :=
  if negb isChannelEnabled && ShouldEnableChannel newAPIError_ (Status channel) then
    match GetContextKeyString (context result) with
    | Some usingKey => Some [EnableChannel (Id channel) usingKey (Name channel)]
    | None => None
    end
  else Some [].

(** Lines 410 to 452, after the test of the channel returned [result]
    in [milliseconds]: what is done to the channel, and whether the
    iteration got to its end or panicked on the way. *)
Definition judge (channel : Channel) (result : testResult) (milliseconds : Z)
  : list Call * SingleFlight.ending :=
  let isChannelEnabled := Status channel =? ChannelStatusEnabled in
  let '(newAPIError_, shouldBanChannel) := verdict channel result milliseconds in
  match disable_step channel result isChannelEnabled shouldBanChannel newAPIError_ with
  | None => ([], SingleFlight.Panicked)
  | Some disabled =>
      match enable_step channel result isChannelEnabled newAPIError_ with
      | None => (disabled, SingleFlight.Panicked)
      | Some enabled =>
          ((disabled ++ enabled ++ [UpdateResponseTime channel milliseconds; Sleep])%list,
           SingleFlight.Finished)
      end
  end.

(** Lines 409 to 453: the loop over the channels, each with the run of its
    test and the time it took.  A panic ends the loop where it happens. *)
Fixpoint batch_loop (channels : list (Channel * Run * Z))
  : list Call * SingleFlight.ending :=
  match channels with
  | [] => ([], SingleFlight.Finished)
  | (channel, run, milliseconds) :: rest =>
      let (result, calls) := testChannel run channel "" "" in
      match judge channel result milliseconds with
      | (done, SingleFlight.Panicked) => ((calls ++ done)%list, SingleFlight.Panicked)
      | (done, SingleFlight.Finished) =>
          let (more, o) := batch_loop rest in
          ((calls ++ done ++ more)%list, o)
      end
  end.

(** Lines 409 to 457: the loop, then the notification when the loop got
    to its end. *)
Definition batch_body (notify : bool) (channels : list (Channel * Run * Z))
  : list Call * SingleFlight.ending :=
  match batch_loop channels with
  | (calls, SingleFlight.Finished) =>
      ((calls ++ (if notify then [NotifyRootUser] else []))%list, SingleFlight.Finished)
  | (calls, SingleFlight.Panicked) => (calls, SingleFlight.Panicked)
  end.

End WithPackages.

End ChannelTest.

(** Concrete packages and runs for the channel tester. *)
Module ChannelTestSamples.
Import TestRequest ChannelTest.

(** [testChannel] with sample values for the constants. *)
Definition testChannel_sample :=
  testChannel ToLower_ascii (fun s => s) system_role MaxTokens
    2 5 36 50 51 52 44 6
    Quota.QuotaPerUnit_default Quota.indefinite_amd64.

Definition sample_channel (type_ status : Z) : Channel :=
  {| Id := 7; Type_ := type_; Name := "primary"; Status := status;
     TestModel := Some "text-embedding-3-small";
     GetModels := ["gpt-4o"]; GetAutoBan := true; IsMultiKey := false |}.

(** A run in which every collaborator succeeds. *)
Definition passing_run : Run :=
  {| run_GetUserCache := None;
     run_SetupContext := None;
     run_ModelMappedHelper := None;
     run_UpstreamModelName := "gpt-4o";
     run_apiType := 0;
     run_adaptor_nil := false;
     run_ModelPriceHelper :=
       Ok (Quota.ratio_priced (Quota.float64_of_int 2) (Quota.f64_lit 1 (-1)));
     run_RelayMode := 1;
     run_Convert := None;
     run_json_Marshal := Ok "{}";
     run_DoRequest := Ok (Some {| StatusCode := 200 |});
     run_RelayErrorHandler := errors_New "bad response";
     run_DoResponse :=
       (Some {| Quota.PromptTokens := 100; Quota.CompletionTokens := 50 |}, None);
     run_ReadAll := None;
     run_milliseconds := 1234;
     run_other := "";
     run_OriginModelName := "gpt-4o";
     run_IsStream := false;
     run_UsingGroup := "default" |}.

(** The same run with the user cache failing. *)
Definition run_without_user_cache : Run :=
  {| run_GetUserCache := Some (errors_New "user cache unavailable");
     run_SetupContext := run_SetupContext passing_run;
     run_ModelMappedHelper := run_ModelMappedHelper passing_run;
     run_UpstreamModelName := run_UpstreamModelName passing_run;
     run_apiType := run_apiType passing_run;
     run_adaptor_nil := run_adaptor_nil passing_run;
     run_ModelPriceHelper := run_ModelPriceHelper passing_run;
     run_RelayMode := run_RelayMode passing_run;
     run_Convert := run_Convert passing_run;
     run_json_Marshal := run_json_Marshal passing_run;
     run_DoRequest := run_DoRequest passing_run;
     run_RelayErrorHandler := run_RelayErrorHandler passing_run;
     run_DoResponse := run_DoResponse passing_run;
     run_ReadAll := run_ReadAll passing_run;
     run_milliseconds := run_milliseconds passing_run;
     run_other := run_other passing_run;
     run_OriginModelName := run_OriginModelName passing_run;
     run_IsStream := run_IsStream passing_run;
     run_UsingGroup := run_UsingGroup passing_run |}.

End ChannelTestSamples.

(** ** Vocabulary for the properties of the channel tester *)

Module ChannelTestSpec.
Import TestRequest ChannelTest.

(** The request of an embedding test: the model and one input, nothing
    else. *)
Definition embedding_request (modelName : string) : GeneralOpenAIRequest :=
  {| Model := modelName; Stream := false; Input := Some ["hello world"];
     MaxTokens := 0; MaxCompletionTokens := 0; Temperature := None;
     Messages := []; ResponseFormat_ := None; Tools := []; ToolChoice := None |}.

Definition user_message (content : string) : Message :=
  {| msg_Role := "user"; msg_Content := content |}.

(** The consume logs, the upstream requests and the response-time updates
    among a list of calls. *)
Definition consume_logs (calls : list Call) : list RecordConsumeLogParams :=
  omap (fun call => match call with RecordConsumeLog p => Some p | _ => None end) calls.

Definition upstream_requests (calls : list Call) : list string :=
  omap (fun call => match call with DoRequest body => Some body | _ => None end) calls.

Definition response_time_updates (calls : list Call) : list (Channel * Z) :=
  omap (fun call =>
          match call with
          | UpdateResponseTime channel ms => Some (channel, ms)
          | _ => None
          end) calls.

(** The result of a test that passed, or that is taken to have passed. *)
Definition passed (c : option Context) : testResult :=
  {| context := c; localErr := None; newAPIError := None |}.

(** Every stage before the upstream request succeeded. *)
Definition stages_before_request_pass (run : Run) (requestBody : string) : Prop :=
  run_GetUserCache run = None
  /\ run_SetupContext run = None
  /\ run_ModelMappedHelper run = None
  /\ run_adaptor_nil run = false
  /\ (exists priceData, run_ModelPriceHelper run = Ok priceData)
  /\ run_Convert run = None
  /\ run_json_Marshal run = Ok requestBody.

End ChannelTestSpec.

Module JudgeSamples.
Import TestRequest ChannelTest ChannelTestSamples.

(** Sample values: enabled is status 1, automatically disabled status 3;
    a channel is re-enabled when it was disabled automatically and the
    test left no error. *)
Definition enabled_status : Z := 1.
Definition auto_disabled_status : Z := 3.

Definition enable_when_no_error (err : option NewAPIError) (status : Z) : bool :=
  match err with
  | None => status =? auto_disabled_status
  | Some _ => false
  end.

Definition disable_always (channelType : Z) (err : NewAPIError) : bool := true.

Definition two_decimals (x : Quota.float64) : string := "?".

(** Reading the key panics on a nil context and gives the key of the
    channel otherwise. *)
Definition key_of_context (c : option Context) : option string :=
  match c with
  | Some _ => Some "sk-sample"
  | None => None
  end.

Definition judge_sample (automaticDisable : bool) :=
  judge enabled_status Quota.indefinite_amd64 automaticDisable
    (Quota.float64_of_int 5) disable_always enable_when_no_error two_decimals
    key_of_context.

Definition batch_body_sample (automaticDisable : bool) :=
  batch_body ToLower_ascii (fun s => s) system_role MaxTokens
    2 5 36 50 51 52 44 6 enabled_status
    Quota.QuotaPerUnit_default Quota.indefinite_amd64 automaticDisable
    (Quota.float64_of_int 5) disable_always enable_when_no_error two_decimals
    key_of_context.

Definition TestChannel_sample :=
  TestChannel ToLower_ascii (fun s => s) system_role MaxTokens
    2 5 36 50 51 52 44 6
    Quota.QuotaPerUnit_default Quota.indefinite_amd64
    (fun _ => Ok 7) (fun _ => Ok (sample_channel 1 1))
    (fun _ => Err (errors_New "no such channel")) (fun _ => "failed").

End JudgeSamples.

(** ** Vocabulary for the progress of the single-flight guard *)

Module SingleFlightSpec.
Import SingleFlight SingleFlightRuns.

(** The goroutine is over. *)
Definition finished (p : pc) : bool :=
  match p with
  | Returned _ | BatchOver _ => true
  | _ => false
  end.

(** At a call of [Lock]. *)
Definition at_lock (p : pc) : bool :=
  match p with
  | AtLock | DeferLock _ => true
  | _ => false
  end.

(** The shared variables a goroutine leaves when it runs three steps on
    its own. *)
Definition after_three_steps (inp : input) (p : pc) (s : shared) : shared :=
  snd (fst (run_thread 3 inp p s [])).

(** A first invocation inside its critical section while a second one
    waits for the mutex. *)
Definition contended : list event := [Arrives; Arrives; Steps channels_ok 0].

Definition contended_state : state :=
  {| sh := {| locked := true; testAllChannelsRunning := false |};
     threads := [AtCheck; AtLock] |}.

(** An invocation that started its batch. *)
Definition batch_started : list event := Arrives :: burst channels_ok 0 6.

Definition batch_started_state : state :=
  {| sh := busy; threads := [Returned None; BatchLoop] |}.

End SingleFlightSpec.

(** ** Vocabulary for the creation of a cache entry *)

Module Creation.
Import GoStrings Gemini.




End Creation.

(* ================================================================== *)
(** * Properties *)

(** ** Sanity checks of the string functions against Go's results *)

Example Split_spaces :
  GoStrings.Split "a b  c" " " = ["a"; "b"; ""; "c"].
Proof. reflexivity. Qed.

Example Split_multibyte_separator :
  GoStrings.Split "m-thinking-128-thinking-9" "-thinking-" = ["m"; "128"; "9"].
Proof. reflexivity. Qed.

Example Split_without_separator :
  GoStrings.Split "gemini-pro" "-thinking-" = ["gemini-pro"].
Proof. reflexivity. Qed.

Example TrimSuffix_examples :
  GoStrings.TrimSuffix "gemini-2.5-flash-thinking" "-thinking" = "gemini-2.5-flash"
  /\ GoStrings.TrimSuffix "gemini-2.5-flash" "-thinking" = "gemini-2.5-flash"
  /\ GoStrings.HasSuffix "gemini-2.5-flash-nothinking" "-thinking" = false.
Proof. repeat split; reflexivity. Qed.

Example Sprintf_s_int_5 : GoStrings.Sprintf_s_int 5 = "%!s(int=5)".
Proof. reflexivity. Qed.

Example Itoa_examples :
  GoStrings.Itoa 0 = "0" /\ GoStrings.Itoa 42 = "42" /\ GoStrings.Itoa (-7) = "-7".
Proof. repeat split; reflexivity. Qed.

(** ** The token estimate and the caching threshold *)

Section TokenEstimate.
Import GoStrings Gemini Estimate.

Lemma HasPrefix_space (c : ascii) (s : string) :
  HasPrefix (String c s) " " = Ascii.eqb c " "%char.
Proof.
  unfold HasPrefix; cbn [String.prefix].
  destruct (ascii_dec " " c) as [<- | Hne].
  - now destruct s.
  - symmetry. apply Ascii.eqb_neq. congruence.
Qed.

(** Splitting at single spaces yields one piece more than there are
    spaces. *)
Lemma Split_space_length (s : string) :
  List.length (Split s " ") = S (count_spaces s).
Proof.
  unfold Split.
  induction s as [| c s IH]; [reflexivity |].
  cbn [split_go count_spaces].
  rewrite HasPrefix_space.
  destruct (Ascii.eqb c " "%char); cbn [String.length Nat.pred].
  - cbn [List.length]. now rewrite IH.
  - destruct (split_go " " 0 s) as [| h t]; [discriminate IH |].
    cbn [List.length] in *. lia.
Qed.

Lemma part_tokens_closed_form (part : GeminiPart) :
  part_tokens part = space_estimate_part part.
Proof.
  unfold part_tokens, space_estimate_part, nonempty.
  destruct (Text part) as [| c s] eqn:E; [reflexivity |].
  cbn [String.eqb negb].
  rewrite Split_space_length. lia.
Qed.

Lemma sumZ_cons (x : Z) (l : list Z) : sumZ (x :: l) = x + sumZ l.
Proof. reflexivity. Qed.

Lemma count_parts_sum (parts : list GeminiPart) (count : Z) :
  count_parts count parts = count + sumZ (map space_estimate_part parts).
Proof.
  unfold count_parts.
  revert count; induction parts as [| p ps IH]; intros count;
    cbn [fold_left map]; [cbn; lia |].
  rewrite IH, part_tokens_closed_form, sumZ_cons. lia.
Qed.

Lemma CountTokensFromParts_from (contents : list GeminiChatContent) (count : Z) :
  fold_left (fun count content => count_parts count (Parts content)) contents count
  = count + space_estimate contents.
Proof.
  unfold space_estimate.
  revert count; induction contents as [| c cs IH]; intros count;
    cbn [fold_left map]; [cbn; lia |].
  rewrite IH, count_parts_sum, sumZ_cons. unfold space_estimate_content. lia.
Qed.

Lemma CountTokensFromParts_V1_closed_form (contents : list GeminiChatContent) :
  CacheV1.CountTokensFromParts contents = space_estimate contents.
Proof.
  unfold CacheV1.CountTokensFromParts.
  now rewrite CountTokensFromParts_from.
Qed.

Lemma CountTokensFromParts_V2_closed_form (content : GeminiChatContent) (w : World) :
  CacheV2.CountTokensFromParts (Some content) w
  = Returns (space_estimate_content content) w.
Proof.
  cbn. unfold ret. now rewrite count_parts_sum.
Qed.

End TokenEstimate.

Section ShouldCache.
Import GoStrings Gemini Estimate Samples.

Lemma ShouldEnable_V1_eq
    (env : Env) (model : string) (contents : list GeminiChatContent) :
  CacheV1.ShouldEnableGeminiCache env model contents
  = EnableCache env && (4096 <=? space_estimate contents).
Proof.
  unfold CacheV1.ShouldEnableGeminiCache, GeminiCacheMinTokenThreshold.
  rewrite CountTokensFromParts_V1_closed_form.
  destruct (EnableCache env); cbn [negb andb]; [| reflexivity].
  destruct (Z.ltb_spec (space_estimate contents) 4096);
    destruct (Z.leb_spec 4096 (space_estimate contents)); try lia; reflexivity.
Qed.

Lemma ShouldEnable_V2_eq (env : Env) (model : string) (tokenCount : Z) :
  CacheV2.ShouldEnableGeminiCache env model tokenCount
  = EnableCache env && (4096 <=? tokenCount).
Proof.
  unfold CacheV2.ShouldEnableGeminiCache, GeminiCacheMinTokenThreshold.
  destruct (EnableCache env); cbn [negb andb]; [| reflexivity].
  destruct (Z.ltb_spec tokenCount 4096);
    destruct (Z.leb_spec 4096 tokenCount); try lia; reflexivity.
Qed.

(** The two directions of the threshold, as the specification words them. *)
Corollary ShouldCache_below_threshold
    (env : Env) (model : string) (contents : list GeminiChatContent) :
  space_estimate contents < 4096 ->
  CacheV1.ShouldEnableGeminiCache env model contents = false.
Proof.
  intros Hlt. rewrite ShouldEnable_V1_eq.
  destruct (Z.leb_spec 4096 (space_estimate contents)); [lia |].
  apply andb_false_r.
Qed.

Corollary ShouldCache_at_or_above_threshold
    (env : Env) (model : string) (contents : list GeminiChatContent) :
  EnableCache env = true ->
  4096 <= space_estimate contents ->
  CacheV1.ShouldEnableGeminiCache env model contents = true.
Proof.
  intros Hen Hge. rewrite ShouldEnable_V1_eq, Hen. cbn [andb].
  now apply Z.leb_le.
Qed.

(** C5 (as amended).  [ShouldEnableGeminiCache] answers true exactly when
    caching is enabled and the token estimate is at least 4096, where the
    estimate is what the source computes: every text part that is not empty
    counts its space bytes plus one (the pieces [strings.Split] cuts it into
    at single spaces), summed over the parts.  So an estimate strictly below
    4096 gives false even with caching enabled, and an estimate of 4096 or
    more with caching enabled gives true; both revisions agree, the later
    one on the system instruction alone. *)
Theorem ShouldCache_threshold :
  forall (env : Env) (model : string) (contents : list GeminiChatContent)
         (content : GeminiChatContent) (tokenCount : Z) (w : World),
    CacheV1.CountTokensFromParts contents = space_estimate contents
    /\ CacheV1.ShouldEnableGeminiCache env model contents
       = EnableCache env && (4096 <=? space_estimate contents)
    /\ CacheV2.CountTokensFromParts (Some content) w
       = Returns (space_estimate_content content) w
    /\ CacheV2.ShouldEnableGeminiCache env model tokenCount
       = EnableCache env && (4096 <=? tokenCount).
Proof.
  intros env model contents content tokenCount w.
  split; [apply CountTokensFromParts_V1_closed_form |].
  split; [apply ShouldEnable_V1_eq |].
  split; [apply CountTokensFromParts_V2_closed_form | apply ShouldEnable_V2_eq].
Qed.

(** C5 as stated fails.  A text of 4095 spaces holds no word, so its
    whitespace-delimited word count is 0, below the threshold; the source
    cuts it into 4096 empty pieces and enables caching. *)
Lemma ShouldCache_word_count_counterexample :
  EnableCache env0 = true
  /\ word_estimate [blank_content] = 0
  /\ word_estimate [blank_content] < 4096
  /\ CacheV1.CountTokensFromParts [blank_content] = 4096
  /\ CacheV1.ShouldEnableGeminiCache env0 "gemini-2.5-pro" [blank_content] = true.
Proof. repeat split; vm_compute; reflexivity. Qed.

(** The other direction fails too: 4096 words separated by line feeds are
    one piece for the source, and caching stays off. *)
Example ShouldCache_line_feeds :
  word_estimate [lines_content] = 4096
  /\ CacheV1.CountTokensFromParts [lines_content] = 1
  /\ CacheV1.ShouldEnableGeminiCache env0 "gemini-2.5-pro" [lines_content] = false.
Proof. repeat split; vm_compute; reflexivity. Qed.

Example CountTokens_hello_world :
  CacheV1.CountTokensFromParts [short_content] = 2
  /\ word_estimate [short_content] = 2.
Proof. split; reflexivity. Qed.

End ShouldCache.

(** ** GetOrCreate: unverified handles and cache-layer failures *)

Section GetOrCreate.
Import GoStrings Gemini CacheSpec Samples.
Local Open Scope go_scope.

Lemma writes_app (t1 t2 : list Event) :
  writes (t1 ++ t2) = (writes t1 ++ writes t2)%list.
Proof. unfold writes. apply flat_map_app. Qed.

(** Closes [quiet] goals over worlds that only gained reads and HTTP
    calls. *)
Ltac quiet_tac :=
  unfold quiet, emit; cbn [store trace]; split;
  [ reflexivity
  | rewrite ?writes_app; cbn [writes flat_map]; rewrite ?app_nil_r; reflexivity ].

Lemma Lookup_answer (env : Env) (apiKey name : string) (w : World) :
  exists (ex : bool) (err : option error),
    LookupGeminiCacheByID env apiKey name w
    = Returns (ex, err) (emit (EvHttpGet (lookup_url apiKey name)) w)
    /\ is_nil err && ex = verified env apiKey name.
Proof.
  unfold LookupGeminiCacheByID, verified, bind, client_Get, ret.
  destruct (http_Get env (lookup_url apiKey name)) as [resp | e].
  - destruct (StatusCode resp =? http_StatusOK) eqn:E200.
    + now exists true, None.
    + destruct (StatusCode resp =? http_StatusNotFound).
      * now exists false, None.
      * now eexists false, (Some _).
  - now eexists false, (Some _).
Qed.

(** The creation request never panics, leaves the store alone and fails
    only with its own errors. *)
Lemma post_cache_request_cases
    (env : Env) (apiKey : string) (cacheReq : GeminiCachedContentRequest)
    (w : World) :
  exists (name : string) (err : option error) (w' : World),
    post_cache_request env apiKey cacheReq w = Returns (name, err) w'
    /\ quiet w w'
    /\ (forall e, err = Some e -> is_create_error e = true /\ name = "").
Proof.
  unfold post_cache_request, bind, client_Do_post, ret.
  destruct (json_Marshal_request env cacheReq) as [body | e].
  2:{ eexists _, _, _. split; [reflexivity |]. split; [quiet_tac |].
      intros e' [= <-]. now split. }
  destruct (http_NewRequest env (create_url apiKey) body) as [e |].
  { eexists _, _, _. split; [reflexivity |]. split; [quiet_tac |].
    intros e' [= <-]. now split. }
  destruct (http_Do_post env (create_url apiKey) body) as [resp | e].
  2:{ eexists _, _, _. split; [reflexivity |]. split; [quiet_tac |].
      intros e' [= <-]. now split. }
  destruct (negb (StatusCode resp =? http_StatusOK)).
  { eexists _, _, _. split; [reflexivity |]. split; [quiet_tac |].
    intros e' [= <-]. now split. }
  destruct (json_Decode_name env (Body resp)) as [name | e].
  - eexists _, _, _. split; [reflexivity |]. split; [quiet_tac |].
    intros e' [=].
  - eexists _, _, _. split; [reflexivity |]. split; [quiet_tac |].
    intros e' [= <-]. now split.
Qed.

(** Names the world a branch ends in, then checks its store. *)
Ltac pick_world := eexists; split; [| reflexivity]; quiet_tac.

(** The Redis branch returns a handle only when the store holds one and
    the existence check confirms it. *)
Lemma try_cached_V1_answer (env : Env) (apiKey key : string) (w : World) :
  exists w1 : World,
    quiet w w1
    /\ CacheV1.try_cached env apiKey key w
       = Returns (match stored_value env key w with
                  | Some v => if verified env apiKey v then Some v else None
                  | None => None
                  end) w1.
Proof.
  unfold CacheV1.try_cached, stored_value, bind, RDB_Get, ret.
  destruct (RedisEnabled env); cbn [andb]; [| pick_world].
  destruct (redis_up env); [| pick_world].
  destruct (store w !! key) as [[v ttl] |]; cbn [is_nil andb]; [| pick_world].
  destruct (nonempty v); [| pick_world].
  destruct (Lookup_answer env apiKey v (emit (EvRedisGet key) w))
    as (ex & err & -> & Hv).
  rewrite <- Hv.
  destruct (is_nil err && ex); pick_world.
Qed.

Lemma try_cached_V2_answer (env : Env) (apiKey key : string) (w : World) :
  exists w1 : World,
    quiet w w1
    /\ CacheV2.try_cached env apiKey key w
       = Returns (match stored_value env key w with
                  | Some v =>
                      let name := json_Unmarshal_cache_name env v in
                      if verified env apiKey name then Some name else None
                  | None => None
                  end) w1.
Proof.
  unfold CacheV2.try_cached, stored_value, bind, RDB_Get, ret.
  destruct (RedisEnabled env); cbn [andb]; [| pick_world].
  destruct (redis_up env); [| pick_world].
  destruct (store w !! key) as [[v ttl] |]; cbn [is_nil andb]; [| pick_world].
  destruct (nonempty v); [| pick_world].
  destruct (Lookup_answer env apiKey (json_Unmarshal_cache_name env v)
              (emit (EvRedisGet key) w)) as (ex & err & -> & Hv).
  cbv zeta. rewrite <- Hv.
  destruct (is_nil err && ex); pick_world.
Qed.

Lemma remember_spec (env : Env) (key value : string) (w : World) :
  exists o : option error,
    (if RedisEnabled env then RDB_Set env key value time_Hour else ret None) w
    = Returns o (remember env key value w).
Proof.
  unfold remember, RDB_Set, ret.
  destruct (RedisEnabled env); [| now eexists].
  destruct (redis_up env); now eexists.
Qed.

(** The whole of the earlier revision's [GetOrCreateGeminiCache] on an
    eligible request, in terms of what the store holds and what the
    existence check says. *)
Lemma GetOrCreate_V1_eligible
    (env : Env) (apiKey : string) (channelID : Z) (model : string)
    (request : GeminiChatRequest) (w : World) :
  CacheV1.ShouldEnableGeminiCache env model (Contents request) = true ->
  exists w1 : World,
    quiet w w1
    /\ CacheV1.GetOrCreateGeminiCache env apiKey channelID model request w
       = match stored_value env (key_V1 env channelID model request) w with
         | Some v =>
             if verified env apiKey v then Returns (v, None) w1
             else
               match CacheV1.CreateGeminiCache env apiKey model request
                       (hash_V1 env model request) w1 with
               | Returns (newID, None) w2 =>
                   Returns (newID, None)
                     (remember env (key_V1 env channelID model request) newID w2)
               | Returns (_, Some e) w2 => Returns ("", Some e) w2
               | Panics msg w2 => Panics msg w2
               end
         | None =>
             match CacheV1.CreateGeminiCache env apiKey model request
                     (hash_V1 env model request) w1 with
             | Returns (newID, None) w2 =>
                 Returns (newID, None)
                   (remember env (key_V1 env channelID model request) newID w2)
             | Returns (_, Some e) w2 => Returns ("", Some e) w2
             | Panics msg w2 => Panics msg w2
             end
         end.
Proof.
  intros Hel.
  unfold CacheV1.GetOrCreateGeminiCache. rewrite Hel. cbn [negb].
  fold (hash_V1 env model request). fold (key_V1 env channelID model request).
  set (key := key_V1 env channelID model request).
  destruct (try_cached_V1_answer env apiKey key w) as (w1 & Hst & Htry).
  exists w1. split; [exact Hst |].
  unfold bind at 1. rewrite Htry.
  assert (Hcreate :
    bind (CacheV1.CreateGeminiCache env apiKey model request (hash_V1 env model request))
      (fun xy => match xy with
                 | (newID, Some e) => ret ("", Some e)
                 | (newID, None) =>
                     bind (if RedisEnabled env
                           then RDB_Set env key newID time_Hour else ret None)
                       (fun _ => ret (newID, None))
                 end) w1
    = match CacheV1.CreateGeminiCache env apiKey model request
              (hash_V1 env model request) w1 with
      | Returns (newID, None) w2 => Returns (newID, None) (remember env key newID w2)
      | Returns (_, Some e) w2 => Returns ("", Some e) w2
      | Panics msg w2 => Panics msg w2
      end).
  { unfold bind at 1.
    destruct (CacheV1.CreateGeminiCache env apiKey model request
                (hash_V1 env model request) w1) as [[newID [e |]] w2 | msg w2];
      try reflexivity.
    unfold bind.
    destruct (remember_spec env key newID w2) as (o & ->). reflexivity. }
  destruct (stored_value env key w) as [v |]; [| exact Hcreate].
  destruct (verified env apiKey v); [reflexivity | exact Hcreate].
Qed.

(** The same for the later revision. *)
Lemma GetOrCreate_V2_eligible
    (env : Env) (apiKey : string) (channelID : Z) (model : string)
    (request : GeminiChatRequest) (content : GeminiChatContent) (w : World) :
  SystemInstructions request = Some content ->
  CacheV2.ShouldEnableGeminiCache env model
    (Estimate.space_estimate_content content) = true ->
  exists w1 : World,
    quiet w w1
    /\ CacheV2.GetOrCreateGeminiCache env apiKey channelID model request w
       = match stored_value env (key_V2 env request) w with
         | Some v =>
             if verified env apiKey (json_Unmarshal_cache_name env v)
             then Returns (json_Unmarshal_cache_name env v, false, 0, None) w1
             else
               match CacheV2.CreateGeminiCache env apiKey model request
                       (hash_V2 env request) w1 with
               | Returns (newID, None) w2 =>
                   Returns (newID, true, Estimate.space_estimate_content content, None)
                     (remember env (key_V2 env request)
                        (json_Marshal env (CacheV2.envelope newID channelID)) w2)
               | Returns (_, Some e) w2 => Returns ("", false, 0, Some e) w2
               | Panics msg w2 => Panics msg w2
               end
         | None =>
             match CacheV2.CreateGeminiCache env apiKey model request
                     (hash_V2 env request) w1 with
             | Returns (newID, None) w2 =>
                 Returns (newID, true, Estimate.space_estimate_content content, None)
                   (remember env (key_V2 env request)
                      (json_Marshal env (CacheV2.envelope newID channelID)) w2)
             | Returns (_, Some e) w2 => Returns ("", false, 0, Some e) w2
             | Panics msg w2 => Panics msg w2
             end
         end.
Proof.
  intros Hsys Hel.
  unfold CacheV2.GetOrCreateGeminiCache.
  unfold bind at 1. rewrite Hsys, CountTokensFromParts_V2_closed_form.
  rewrite Hel. cbn [negb].
  replace (CacheV2.HashSystemInstructions env (Some content))
    with (hash_V2 env request) by (unfold hash_V2; now rewrite Hsys).
  fold (key_V2 env request).
  set (key := key_V2 env request).
  set (tokens := Estimate.space_estimate_content content).
  destruct (try_cached_V2_answer env apiKey key w) as (w1 & Hst & Htry).
  exists w1. split; [exact Hst |].
  unfold bind at 1. rewrite Htry.
  assert (Hcreate :
    bind (CacheV2.CreateGeminiCache env apiKey model request (hash_V2 env request))
      (fun xy => match xy with
                 | (newID, Some e) => ret ("", false, 0, Some e)
                 | (newID, None) =>
                     bind (if RedisEnabled env
                           then RDB_Set env key
                                  (json_Marshal env (CacheV2.envelope newID channelID))
                                  time_Hour
                           else ret None)
                       (fun _ => ret (newID, true, tokens, None))
                 end) w1
    = match CacheV2.CreateGeminiCache env apiKey model request
              (hash_V2 env request) w1 with
      | Returns (newID, None) w2 =>
          Returns (newID, true, tokens, None)
            (remember env key (json_Marshal env (CacheV2.envelope newID channelID)) w2)
      | Returns (_, Some e) w2 => Returns ("", false, 0, Some e) w2
      | Panics msg w2 => Panics msg w2
      end).
  { unfold bind at 1.
    destruct (CacheV2.CreateGeminiCache env apiKey model request
                (hash_V2 env request) w1) as [[newID [e |]] w2 | msg w2];
      try reflexivity.
    unfold bind.
    destruct (remember_spec env key
                (json_Marshal env (CacheV2.envelope newID channelID)) w2)
      as (o & ->).
    reflexivity. }
  destruct (stored_value env key w) as [v |]; [| exact Hcreate].
  cbv zeta.
  destruct (verified env apiKey (json_Unmarshal_cache_name env v));
    [reflexivity | exact Hcreate].
Qed.






Example GetOrCreate_replaces_stale_handle :
  result_of (CacheV1.GetOrCreateGeminiCache env0 "k" 5 "gemini-2.5-pro"
               long_request stale_world)
  = Some ("cachedContents/new", None)
  /\ result_of (CacheV2.GetOrCreateGeminiCache env0 "k" 5 "gemini-2.5-pro"
                  long_request stale_world)
     = Some ("cachedContents/new", true, 4096, None)
  /\ store (world_of (CacheV2.GetOrCreateGeminiCache env0 "k" 5 "gemini-2.5-pro"
                        long_request stale_world)) !! "gemini_cache:h"
     = Some ("cachedContents/new", time_Hour).
Proof. repeat split; vm_compute; reflexivity. Qed.

(** An eligible request of the earlier revision has a last content, so
    the indexing in its [CreateGeminiCache] does not panic. *)
Lemma eligible_V1_has_contents
    (env : Env) (model : string) (request : GeminiChatRequest) :
  CacheV1.ShouldEnableGeminiCache env model (Contents request) = true ->
  exists lastContent, last (Contents request) = Some lastContent.
Proof.
  rewrite ShouldEnable_V1_eq.
  destruct (Contents request) as [| c cs] eqn:E.
  - cbn. rewrite andb_false_r. discriminate.
  - intros _. destruct (last (c :: cs)) as [x |] eqn:El; [now exists x |].
    apply last_None in El. discriminate.
Qed.

(** *** What is written to the store *)

Lemma remember_writes (env : Env) (key value : string) (w : World) :
  writes (trace (remember env key value w))
  = (writes (trace w)
     ++ if RedisEnabled env then [(key, value, time_Hour)] else [])%list.
Proof.
  unfold remember, RDB_Set, emit.
  destruct (RedisEnabled env); [| now rewrite app_nil_r].
  destruct (redis_up env); cbn [trace store]; now rewrite writes_app.
Qed.

(** The entry and its time-to-live enter the store in the same write. *)
Lemma remember_store (env : Env) (key value : string) (w : World) :
  store (remember env key value w)
  = if RedisEnabled env && redis_up env
    then <[key := (value, time_Hour)]> (store w)
    else store w.
Proof.
  unfold remember, RDB_Set, emit.
  destruct (RedisEnabled env); [| reflexivity].
  destruct (redis_up env); reflexivity.
Qed.

(** A call of the earlier revision writes at most once: under its key, the
    raw handle it returns, for one hour. *)
Lemma GetOrCreate_V1_writes
    (env : Env) (apiKey : string) (channelID : Z) (model : string)
    (request : GeminiChatRequest) (w : World) :
  let out := CacheV1.GetOrCreateGeminiCache env apiKey channelID model request w in
  writes (trace (world_of out)) = writes (trace w)
  \/ exists newID : string,
       result_of out = Some (newID, None)
       /\ writes (trace (world_of out))
          = (writes (trace w)
             ++ [(key_V1 env channelID model request, newID, time_Hour)])%list.
Proof.
  cbv zeta.
  destruct (CacheV1.ShouldEnableGeminiCache env model (Contents request)) eqn:Hel.
  2:{ left. unfold CacheV1.GetOrCreateGeminiCache. now rewrite Hel. }
  destruct (GetOrCreate_V1_eligible env apiKey channelID model request w Hel)
    as (w1 & (_ & Hw1) & ->).
  destruct (eligible_V1_has_contents env model request Hel) as (lc & Hlast).
  assert (Hcreate :
    let out := match CacheV1.CreateGeminiCache env apiKey model request
                       (hash_V1 env model request) w1 with
               | Returns (newID, None) w2 =>
                   Returns (newID, None)
                     (remember env (key_V1 env channelID model request) newID w2)
               | Returns (_, Some e) w2 => Returns ("", Some e) w2
               | Panics msg w2 => Panics msg w2
               end in
    writes (trace (world_of out)) = writes (trace w)
    \/ exists newID : string,
         result_of out = Some (newID, None)
         /\ writes (trace (world_of out))
            = (writes (trace w)
               ++ [(key_V1 env channelID model request, newID, time_Hour)])%list).
  { cbv zeta. unfold CacheV1.CreateGeminiCache. rewrite Hlast.
    match goal with
    | |- context [post_cache_request env apiKey ?r w1] =>
        destruct (post_cache_request_cases env apiKey r w1)
          as (name & err & w2 & -> & (_ & Hw2) & _)
    end.
    destruct err as [e |]; cbn [world_of result_of].
    - left. congruence.
    - rewrite remember_writes, Hw2, Hw1.
      destruct (RedisEnabled env).
      + right. exists name. now split.
      + left. now rewrite app_nil_r. }
  destruct (stored_value env (key_V1 env channelID model request) w) as [v |];
    [| exact Hcreate].
  destruct (verified env apiKey v); [left; exact Hw1 | exact Hcreate].
Qed.

(** A call of the later revision writes at most once: under the global
    key, the envelope of the handle it returns and the channel id, for one
    hour. *)
Lemma GetOrCreate_V2_writes
    (env : Env) (apiKey : string) (channelID : Z) (model : string)
    (request : GeminiChatRequest) (w : World) :
  let out := CacheV2.GetOrCreateGeminiCache env apiKey channelID model request w in
  writes (trace (world_of out)) = writes (trace w)
  \/ exists (newID : string) (tokens : Z),
       result_of out = Some (newID, true, tokens, None)
       /\ writes (trace (world_of out))
          = (writes (trace w)
             ++ [(key_V2 env request,
                  json_Marshal env (CacheV2.envelope newID channelID),
                  time_Hour)])%list.
Proof.
  cbv zeta.
  destruct (SystemInstructions request) as [content |] eqn:Hsys.
  2:{ left. unfold CacheV2.GetOrCreateGeminiCache, bind. now rewrite Hsys. }
  destruct (CacheV2.ShouldEnableGeminiCache env model
              (Estimate.space_estimate_content content)) eqn:Hel.
  2:{ left. unfold CacheV2.GetOrCreateGeminiCache. unfold bind at 1.
      now rewrite Hsys, CountTokensFromParts_V2_closed_form, Hel. }
  destruct (GetOrCreate_V2_eligible env apiKey channelID model request content w
              Hsys Hel) as (w1 & (_ & Hw1) & ->).
  assert (Hcreate :
    let out := match CacheV2.CreateGeminiCache env apiKey model request
                       (hash_V2 env request) w1 with
               | Returns (newID, None) w2 =>
                   Returns (newID, true,
                            Estimate.space_estimate_content content, None)
                     (remember env (key_V2 env request)
                        (json_Marshal env (CacheV2.envelope newID channelID)) w2)
               | Returns (_, Some e) w2 => Returns ("", false, 0, Some e) w2
               | Panics msg w2 => Panics msg w2
               end in
    writes (trace (world_of out)) = writes (trace w)
    \/ exists (newID : string) (tokens : Z),
         result_of out = Some (newID, true, tokens, None)
         /\ writes (trace (world_of out))
            = (writes (trace w)
               ++ [(key_V2 env request,
                    json_Marshal env (CacheV2.envelope newID channelID),
                    time_Hour)])%list).
  { cbv zeta. unfold CacheV2.CreateGeminiCache.
    match goal with
    | |- context [post_cache_request env apiKey ?r w1] =>
        destruct (post_cache_request_cases env apiKey r w1)
          as (name & err & w2 & -> & (_ & Hw2) & _)
    end.
    destruct err as [e |]; cbn [world_of result_of].
    - left. congruence.
    - rewrite remember_writes, Hw2, Hw1.
      destruct (RedisEnabled env).
      + right. exists name, (Estimate.space_estimate_content content). now split.
      + left. now rewrite app_nil_r. }
  destruct (stored_value env (key_V2 env request) w) as [v |]; [| exact Hcreate].
  destruct (verified env apiKey (json_Unmarshal_cache_name env v));
    [left; exact Hw1 | exact Hcreate].
Qed.

End GetOrCreate.

(** ** The key written by the per-channel revision, and the nil system instruction *)

Section KeyAndNil.
Import GoStrings Gemini CacheSpec Samples.

Lemma append_assoc (s1 s2 s3 : string) :
  (s1 ++ s2) ++ s3 = s1 ++ (s2 ++ s3).
Proof.
  induction s1 as [| c s1 IH]; [reflexivity |].
  change (String c ((s1 ++ s2) ++ s3) = String c (s1 ++ (s2 ++ s3))).
  now f_equal.
Qed.

(** A decimal rendering starts with a digit or a minus sign. *)
Lemma Itoa_head (z : Z) :
  exists (c : ascii) (s : string), Itoa z = String c s /\ c <> "%"%char.
Proof.
  unfold Itoa, NilZero.string_of_int, NilZero.string_of_uint.
  destruct (Z.to_int z) as [d | d].
  - destruct d; cbn; eexists _, _; (split; [reflexivity | discriminate]).
  - eexists _, _; (split; [reflexivity | discriminate]).
Qed.

(** C9, the earlier revision.  The key line prints the integer channel id
    with the verb percent-s, so the key carries the text "%!s(int=N)" where
    the schema has the channel id N; for no channel id do the two agree.  A
    run for channel 5 writes the raw handle for one hour under
    "gemini_cache:%!s(int=5):h". *)
Theorem redisKey_V1_misprints_channel_id :
  (forall (channelID : Z) (hash : string),
     CacheV1.redisKey channelID hash
     = "gemini_cache:%!s(int=" ++ Itoa channelID ++ "):" ++ hash
     /\ CacheV1.redisKey channelID hash <> channel_key channelID hash)
  /\ writes (trace (world_of
       (CacheV1.GetOrCreateGeminiCache env0 "k" 5 "gemini-2.5-pro" long_request
          empty_world)))
     = [("gemini_cache:%!s(int=5):h", "cachedContents/new", time_Hour)]
  /\ channel_key 5 "h" = "gemini_cache:5:h".
Proof.
  split; [| split; vm_compute; reflexivity].
  intros channelID hash. split.
  - unfold CacheV1.redisKey, Sprintf_s_int.
    rewrite !append_assoc. reflexivity.
  - unfold CacheV1.redisKey, channel_key, Sprintf_s_int.
    destruct (Itoa_head channelID) as (c & s & -> & Hc).
    cbn [String.append]. intros [= Heq _]. apply Hc. now rewrite Heq.
Qed.

(** The later revision writes under the global key, and what it writes is
    the envelope of the new handle and the channel id, for one hour. *)
Example GetOrCreate_V2_writes_envelope :
  writes (trace (world_of
    (CacheV2.GetOrCreateGeminiCache env0 "k" 5 "gemini-2.5-pro" long_request
       empty_world)))
  = [("gemini_cache:h",
      json_Marshal env0 (CacheV2.envelope "cachedContents/new" 5),
      time_Hour)]
  /\ CacheV2.redisKey "h" = "gemini_cache:" ++ "h".
Proof. split; vm_compute; reflexivity. Qed.

(** C10.  The four-result function reads the parts of the system
    instruction before it tests the pointer: with a nil system instruction
    the call panics, whatever the rest of the request, the configuration
    and the store are, and it returns nothing. *)
Theorem GetOrCreate_V2_panics_on_nil_SystemInstructions :
  forall (env : Env) (apiKey : string) (channelID : Z) (model : string)
         (contents : list GeminiChatContent) (w : World),
    CacheV2.GetOrCreateGeminiCache env apiKey channelID model
      {| Contents := contents; SystemInstructions := None |} w
    = Panics "runtime error: invalid memory address or nil pointer dereference" w.
Proof. reflexivity. Qed.

(** With a system instruction present the later revision never panics. *)
Lemma GetOrCreate_V2_returns
    (env : Env) (apiKey : string) (channelID : Z) (model : string)
    (request : GeminiChatRequest) (content : GeminiChatContent) (w : World) :
  SystemInstructions request = Some content ->
  exists r w', CacheV2.GetOrCreateGeminiCache env apiKey channelID model request w
               = Returns r w'.
Proof.
  intros Hsys.
  destruct (CacheV2.ShouldEnableGeminiCache env model
              (Estimate.space_estimate_content content)) eqn:Hel.
  2:{ unfold CacheV2.GetOrCreateGeminiCache. unfold bind at 1.
      rewrite Hsys, CountTokensFromParts_V2_closed_form, Hel. now eexists _, _. }
  destruct (GetOrCreate_V2_eligible env apiKey channelID model request content w
              Hsys Hel) as (w1 & _ & ->).
  assert (Hcreate : exists r w',
    match CacheV2.CreateGeminiCache env apiKey model request
            (hash_V2 env request) w1 with
    | Returns (newID, None) w2 =>
        Returns (newID, true, Estimate.space_estimate_content content, None)
          (remember env (key_V2 env request)
             (json_Marshal env (CacheV2.envelope newID channelID)) w2)
    | Returns (_, Some e) w2 => Returns ("", false, 0, Some e) w2
    | Panics msg w2 => Panics msg w2
    end = Returns r w').
  { unfold CacheV2.CreateGeminiCache.
    match goal with
    | |- context [post_cache_request env apiKey ?r w1] =>
        destruct (post_cache_request_cases env apiKey r w1)
          as (name & err & w2 & -> & _ & _)
    end.
    destruct err; now eexists _, _. }
  destruct (stored_value env (key_V2 env request) w) as [v |]; [| exact Hcreate].
  destruct (verified env apiKey (json_Unmarshal_cache_name env v));
    [now eexists _, _ | exact Hcreate].
Qed.

(** The earlier revision never panics: when the request is eligible its
    contents are not empty, and otherwise nothing is indexed. *)
Lemma GetOrCreate_V1_returns
    (env : Env) (apiKey : string) (channelID : Z) (model : string)
    (request : GeminiChatRequest) (w : World) :
  exists r w', CacheV1.GetOrCreateGeminiCache env apiKey channelID model request w
               = Returns r w'.
Proof.
  destruct (CacheV1.ShouldEnableGeminiCache env model (Contents request)) eqn:Hel.
  2:{ unfold CacheV1.GetOrCreateGeminiCache. rewrite Hel. now eexists _, _. }
  destruct (GetOrCreate_V1_eligible env apiKey channelID model request w Hel)
    as (w1 & _ & ->).
  destruct (eligible_V1_has_contents env model request Hel) as (lc & Hlast).
  assert (Hcreate : exists r w',
    match CacheV1.CreateGeminiCache env apiKey model request
            (hash_V1 env model request) w1 with
    | Returns (newID, None) w2 =>
        Returns (newID, None)
          (remember env (key_V1 env channelID model request) newID w2)
    | Returns (_, Some e) w2 => Returns ("", Some e) w2
    | Panics msg w2 => Panics msg w2
    end = Returns r w').
  { unfold CacheV1.CreateGeminiCache. rewrite Hlast.
    match goal with
    | |- context [post_cache_request env apiKey ?r w1] =>
        destruct (post_cache_request_cases env apiKey r w1)
          as (name & err & w2 & -> & _ & _)
    end.
    destruct err; now eexists _, _. }
  destruct (stored_value env (key_V1 env channelID model request) w) as [v |];
    [| exact Hcreate].
  destruct (verified env apiKey v); [now eexists _, _ | exact Hcreate].
Qed.

End KeyAndNil.

(** ** The request URL and the thinking suffixes *)

Section RequestURL.
Import GoStrings Adaptor AdaptorSamples.



Lemma prefix_cons (x y : ascii) (p s : string) :
  String.prefix (String x p) (String y s)
  = if ascii_dec x y then String.prefix p s else false.
Proof. reflexivity. Qed.



Lemma Contains_cons (c : ascii) (s sub : string) :
  Contains (String c s) sub = HasPrefix (String c s) sub || Contains s sub.
Proof. reflexivity. Qed.

Lemma split_go_cons (sep : string) (c : ascii) (s : string) :
  split_go sep 0 (String c s)
  = if HasPrefix (String c s) sep
    then EmptyString :: split_go sep (Nat.pred (String.length sep)) s
    else match split_go sep 0 s with
         | h :: t => String c h :: t
         | [] => [String c EmptyString]
         end.
Proof. reflexivity. Qed.













Example GetRequestURL_examples :
  snd (GetRequestURL settings_on (info_for "gemini-2.5-flash-thinking-128"))
  = ("https://g/v1beta/models/gemini-2.5-flash:generateContent", None)
  /\ snd (GetRequestURL settings_on (info_for "gemini-2.5-flash-thinking"))
     = ("https://g/v1beta/models/gemini-2.5-flash:generateContent", None)
  /\ snd (GetRequestURL settings_on (info_for "gemini-2.5-flash-nothinking"))
     = ("https://g/v1beta/models/gemini-2.5-flash:generateContent", None)
  /\ snd (GetRequestURL settings_on (info_for "imagen-3.0-generate-002"))
     = ("https://g/v1beta/models/imagen-3.0-generate-002:predict", None)
  /\ snd (GetRequestURL settings_on (info_for "text-embedding-004"))
     = ("https://g/v1beta/models/text-embedding-004:embedContent", None).
Proof. repeat split; reflexivity. Qed.

End RequestURL.

(** ** The image handler *)

Section ImageHandler.
Import Adaptor AdaptorSamples.

Lemma collect_from (predictions : list GeminiImagePrediction) (data : list ImageData) :
  fold_left
    (fun data prediction =>
       if negb (String.eqb (RaiFilteredReason prediction) "") then data
       else (data ++ [ {| Url := ""; B64Json := BytesBase64Encoded prediction;
                          RevisedPrompt := "" |} ])%list)
    predictions data
  = (data ++ accepted predictions)%list.
Proof.
  revert data; induction predictions as [| p ps IH]; intros data.
  - cbn. now rewrite app_nil_r.
  - cbn [fold_left]. rewrite IH. unfold accepted. cbn [List.filter].
    destruct (String.eqb (RaiFilteredReason p) ""); cbn [negb map].
    + now rewrite <- app_assoc.
    + reflexivity.
Qed.

(** The loop keeps exactly the unfiltered predictions, in order. *)
Lemma collect_accepted (predictions : list GeminiImagePrediction) :
  collect predictions = accepted predictions.
Proof. unfold collect. now rewrite collect_from. Qed.

Lemma wrap64_small (z : Z) : int_min <= z <= int_max -> wrap64 z = z.
Proof.
  unfold wrap64, int_min, int_max. intros H.
  rewrite Z.mod_small; lia.
Qed.

(** An empty prediction list is a BadResponseBody error, and nothing is
    written to the client. *)
Lemma GeminiImageHandler_no_predictions
    (env : ImageEnv) (resp : UpstreamResponse) (wr : Writer) (body : string) :
  resp_ReadAll resp = Ok body ->
  json_Unmarshal_image env body = Ok {| Predictions := [] |} ->
  GeminiImageHandler env resp wr
  = ((None, Some (types_NewError (errors_New "no images generated")
                    ErrorCodeBadResponseBody)), wr).
Proof. intros Hread Hjson. unfold GeminiImageHandler. now rewrite Hread, Hjson. Qed.

(** Every error of the handler is of the BadResponseBody kind. *)
Lemma GeminiImageHandler_error_kind
    (env : ImageEnv) (resp : UpstreamResponse) (wr wr' : Writer)
    (usage : option Usage) (e : NewAPIError) :
  GeminiImageHandler env resp wr = ((usage, Some e), wr') ->
  api_errorCode e = ErrorCodeBadResponseBody /\ usage = None /\ wr' = wr.
Proof.
  unfold GeminiImageHandler.
  destruct (resp_ReadAll resp) as [body | readErr];
    [| intros [= <- <- <-]; now repeat split].
  destruct (json_Unmarshal_image env body) as [response | jsonErr];
    [| intros [= <- <- <-]; now repeat split].
  destruct (List.length (Predictions response) =? 0)%nat;
    [intros [= <- <- <-]; now repeat split |].
  destruct (json_Marshal_image env _) as [jsonResponse | jsonErr];
    [discriminate | intros [= <- <- <-]; now repeat split].
Qed.

(** A response with a prediction, once encoded, succeeds with the
    unfiltered predictions as its data, also when there is none of them. *)
Lemma GeminiImageHandler_success
    (env : ImageEnv) (resp : UpstreamResponse) (wr : Writer)
    (body jsonResponse : string) (response : GeminiImageResponse) :
  resp_ReadAll resp = Ok body ->
  json_Unmarshal_image env body = Ok response ->
  Predictions response <> [] ->
  json_Marshal_image env {| Created := GetTimestamp env;
                            Data := accepted (Predictions response) |}
  = Ok jsonResponse ->
  GeminiImageHandler env resp wr
  = ((Some {| PromptTokens :=
                wrap64 (258 * Z.of_nat (List.length (accepted (Predictions response))));
              CompletionTokens := 0;
              TotalTokens :=
                wrap64 (258 * Z.of_nat (List.length (accepted (Predictions response)))) |},
      None),
     {| w_Header := ("Content-Type", "application/json") :: w_Header wr;
        w_Status := Some (resp_StatusCode resp);
        w_Body := w_Body wr ++ jsonResponse |}).
Proof.
  intros Hread Hjson Hne Hmarshal. unfold GeminiImageHandler.
  rewrite Hread, Hjson.
  destruct (Predictions response) as [| p ps] eqn:E; [congruence |].
  cbn [List.length Nat.eqb]. rewrite collect_accepted, Hmarshal.
  reflexivity.
Qed.

(** C8.  When the handler accepts a response (it returns a usage), the
    prompt tokens are 258 times the number of unfiltered predictions, the
    completion tokens are zero and the total equals the prompt tokens;
    filtered predictions add nothing.  The product is taken in Go's [int]:
    the count is assumed to keep it in range. *)
Theorem GeminiImageHandler_usage :
  forall (env : ImageEnv) (resp : UpstreamResponse) (wr wr' : Writer)
         (body : string) (response : GeminiImageResponse)
         (usage : Usage) (err : option NewAPIError),
    resp_ReadAll resp = Ok body ->
    json_Unmarshal_image env body = Ok response ->
    258 * Z.of_nat (List.length (accepted (Predictions response))) <= int_max ->
    GeminiImageHandler env resp wr = ((Some usage, err), wr') ->
    PromptTokens usage
    = 258 * Z.of_nat (List.length
                        (List.filter (fun p => String.eqb (RaiFilteredReason p) "")
                           (Predictions response)))
    /\ CompletionTokens usage = 0
    /\ TotalTokens usage = PromptTokens usage
    /\ err = None.
Proof.
  intros env resp wr wr' body response usage err Hread Hjson Hrange.
  unfold GeminiImageHandler. rewrite Hread, Hjson.
  destruct (List.length (Predictions response) =? 0)%nat; [discriminate |].
  destruct (json_Marshal_image env _) as [jsonResponse | jsonErr];
    [| discriminate].
  intros [= <- <- _]. cbn [PromptTokens CompletionTokens TotalTokens Data].
  rewrite collect_accepted. unfold imageTokens.
  rewrite wrap64_small by (unfold int_min; lia).
  unfold accepted. rewrite length_map. now repeat split.
Qed.

(** Three predictions, the first filtered: usage for two images. *)
Lemma GeminiImageHandler_usage_witness :
  PromptTokens {| PromptTokens := 516; CompletionTokens := 0; TotalTokens := 516 |}
  = 258 * Z.of_nat (List.length
                      (List.filter (fun p => String.eqb (RaiFilteredReason p) "")
                         [filtered_picture; picture "AAA"; picture "BBB"]))
  /\ CompletionTokens
       {| PromptTokens := 516; CompletionTokens := 0; TotalTokens := 516 |} = 0
  /\ TotalTokens {| PromptTokens := 516; CompletionTokens := 0; TotalTokens := 516 |}
     = PromptTokens
         {| PromptTokens := 516; CompletionTokens := 0; TotalTokens := 516 |}
  /\ @None NewAPIError = None.
Proof.
  apply (GeminiImageHandler_usage
           (image_env [filtered_picture; picture "AAA"; picture "BBB"])
           ok_response fresh_writer
           {| w_Header := [("Content-Type", "application/json")];
              w_Status := Some 200;
              w_Body := "AAA,BBB" |}
           "{}"
           {| Predictions := [filtered_picture; picture "AAA"; picture "BBB"] |}).
  - reflexivity.
  - reflexivity.
  - vm_compute. discriminate.
  - reflexivity.
Defined.

(** C3.  Two predictions, both content-filtered: the prediction list is
    not empty, so the "no images generated" test passes; the loop then
    drops both, and the handler reports success with a usage of zero and
    writes a response without any image. *)
Theorem GeminiImageHandler_all_filtered_succeeds :
  accepted [filtered_picture; filtered_picture] = []
  /\ GeminiImageHandler (image_env [filtered_picture; filtered_picture])
       ok_response fresh_writer
     = ((Some {| PromptTokens := 0; CompletionTokens := 0; TotalTokens := 0 |},
         None),
        {| w_Header := [("Content-Type", "application/json")];
           w_Status := Some 200;
           w_Body := "" |}).
Proof. split; reflexivity. Qed.

(** The same for every response whose predictions are all filtered. *)
Lemma GeminiImageHandler_all_filtered
    (env : ImageEnv) (resp : UpstreamResponse) (wr : Writer)
    (body jsonResponse : string) (response : GeminiImageResponse) :
  resp_ReadAll resp = Ok body ->
  json_Unmarshal_image env body = Ok response ->
  Predictions response <> [] ->
  accepted (Predictions response) = [] ->
  json_Marshal_image env {| Created := GetTimestamp env; Data := [] |}
  = Ok jsonResponse ->
  fst (GeminiImageHandler env resp wr)
  = (Some {| PromptTokens := 0; CompletionTokens := 0; TotalTokens := 0 |}, None).
Proof.
  intros Hread Hjson Hne Hacc Hmarshal.
  rewrite (GeminiImageHandler_success env resp wr body jsonResponse response);
    try assumption.
  - now rewrite Hacc.
  - now rewrite Hacc.
Qed.

Example GeminiImageHandler_partial :
  fst (GeminiImageHandler
         (image_env [filtered_picture; picture "AAA"; picture "BBB"])
         ok_response fresh_writer)
  = (Some {| PromptTokens := 516; CompletionTokens := 0; TotalTokens := 516 |}, None)
  /\ fst (GeminiImageHandler (image_env []) ok_response fresh_writer)
     = (None, Some (types_NewError (errors_New "no images generated")
                      ErrorCodeBadResponseBody)).
Proof. split; reflexivity. Qed.

End ImageHandler.

(** ** The quota of a channel test *)

Section QuotaProperties.
Import Quota.

Example math_Round_examples :
  math_Round (f64_lit 5 (-1)) = float64_of_int 3          (* 2.5 *)
  /\ math_Round (f64_lit (-5) (-1)) = float64_of_int (-3)  (* -2.5 *)
  /\ math_Round (f64_lit 3 (-1)) = float64_of_int 2        (* 1.5 *)
  /\ math_Round (f64_lit 1 (-2)) = S754_zero false         (* 0.25 *)
  /\ math_Round (f64_lit (-1) (-2)) = S754_zero true       (* -0.25 *)
  /\ math_Round (float64_of_int 200) = float64_of_int 200
  /\ math_Round S754_nan = S754_nan.
Proof. repeat split; vm_compute; reflexivity. Qed.

Example truncate_examples :
  truncate (f64_lit 7 (-1)) = Some 3
  /\ truncate (f64_lit (-7) (-1)) = Some (-3)
  /\ truncate (float64_of_int 250000) = Some 250000
  /\ truncate (S754_infinity false) = None.
Proof. repeat split; vm_compute; reflexivity. Qed.

(** *** Converting an [int] never yields NaN or an infinity *)

Lemma digits2_pos_size (p : positive) : digits2_pos p = Pos.size p.
Proof. induction p; cbn; congruence. Qed.

Lemma pos_lt_pow_digits (p : positive) : Zpos p < 2 ^ Zpos (digits2_pos p).
Proof.
  rewrite digits2_pos_size.
  pose proof (Pos.size_gt p) as H.
  apply Pos2Z.pos_lt_pos in H. now rewrite Pos2Z.inj_pow in H.
Qed.

Lemma digits_le_of_lt_pow (p : positive) (k : Z) :
  0 <= k -> Zpos p < 2 ^ k -> Zpos (digits2_pos p) <= k.
Proof.
  intros Hk Hlt. rewrite digits2_pos_size.
  pose proof (Pos.size_le p) as H.
  apply Pos2Z.pos_le_pos in H. rewrite Pos2Z.inj_pow in H.
  change (Zpos p~0) with (2 * Zpos p) in H.
  assert (H2 : 2 ^ Zpos (Pos.size p) < 2 ^ (k + 1)).
  { replace (k + 1) with (Z.succ k) by lia. rewrite Z.pow_succ_r by lia. lia. }
  apply Z.pow_lt_mono_r_iff in H2; lia.
Qed.

Lemma Zdigits2_le (m k : Z) : 0 <= m < 2 ^ k -> 0 <= k -> Zdigits2 m <= k.
Proof.
  intros [Hm Hlt] Hk. destruct m as [| p | p]; cbn; [lia | | lia].
  now apply digits_le_of_lt_pow.
Qed.

Lemma Zdigits2_gt (m : Z) : 0 <= m -> m < 2 ^ Zdigits2 m.
Proof.
  destruct m as [| p | p]; cbn; [lia | | lia]. intros _. apply pos_lt_pow_digits.
Qed.

Lemma Zdigits2_nonneg (m : Z) : 0 <= Zdigits2 m.
Proof. destruct m; cbn; lia. Qed.

Lemma shr_1_bounds (mrs : shr_record) :
  0 <= shr_m mrs -> 0 <= shr_m (shr_1 mrs) <= shr_m mrs.
Proof.
  destruct mrs as [m r s]. cbn [shr_m]. intros Hm.
  destruct m as [| [p | p |] | p]; cbn; lia.
Qed.

Lemma iter_shr_1_bounds (n : positive) (mrs : shr_record) :
  0 <= shr_m mrs -> 0 <= shr_m (SpecFloat.iter_pos shr_1 n mrs) <= shr_m mrs.
Proof.
  revert mrs; induction n as [n IH | n IH |]; intros mrs Hm; cbn [SpecFloat.iter_pos].
  - pose proof (shr_1_bounds mrs Hm) as H1.
    pose proof (IH _ (proj1 H1)) as H2.
    pose proof (IH _ (proj1 H2)) as H3. lia.
  - pose proof (IH _ Hm) as H2.
    pose proof (IH _ (proj1 H2)) as H3. lia.
  - now apply shr_1_bounds.
Qed.

Lemma shr_m_of_loc (m : Z) (l : location) : shr_m (shr_record_of_loc m l) = m.
Proof. destruct l as [| []]; reflexivity. Qed.

Lemma fexp_le (e : Z) : fexp prec emax e <= Z.max (e - 53) (-1074).
Proof. unfold fexp, SpecFloat.emin, prec, emax. lia. Qed.

Lemma shr_fexp_bounds (m e : Z) (l : location) :
  0 <= m ->
  let '(mrs, e') := shr_fexp prec emax m e l in
  0 <= shr_m mrs <= m /\ e' <= Z.max e (fexp prec emax (Zdigits2 m + e)).
Proof.
  intros Hm. unfold shr_fexp, shr.
  destruct (fexp prec emax (Zdigits2 m + e) - e) as [| n | n] eqn:En.
  - rewrite shr_m_of_loc. lia.
  - pose proof (iter_shr_1_bounds n (shr_record_of_loc m l)) as H.
    rewrite shr_m_of_loc in H. specialize (H Hm). lia.
  - rewrite shr_m_of_loc. lia.
Qed.

Lemma round_nearest_even_bounds (m : Z) (l : location) :
  0 <= m -> 0 <= round_nearest_even m l <= m + 1.
Proof. intros Hm. destruct l as [| []]; cbn; try lia. destruct (Z.even m); lia. Qed.

Lemma binary_round_aux_is_finite (s : bool) (m e : Z) (l : location) :
  0 <= m -> Zdigits2 m + e <= 64 -> -64 <= e <= 0 ->
  is_finite (binary_round_aux prec emax s m e l) = true.
Proof.
  intros Hm Hd He. unfold binary_round_aux.
  pose proof (shr_fexp_bounds m e l Hm) as H1.
  destruct (shr_fexp prec emax m e l) as [mrs' e'].
  destruct H1 as [Hm1 He1].
  pose proof (round_nearest_even_bounds (shr_m mrs') (loc_of_shr_record mrs')
                (proj1 Hm1)) as Hr.
  set (m1 := round_nearest_even (shr_m mrs') (loc_of_shr_record mrs')) in *.
  clearbody m1.
  pose proof (shr_fexp_bounds m1 e' loc_Exact (proj1 Hr)) as H2.
  destruct (shr_fexp prec emax m1 e' loc_Exact) as [mrs'' e''].
  destruct H2 as [Hm2 He2].
  assert (Hdm : Zdigits2 m1 <= Zdigits2 m + 1).
  { pose proof (Zdigits2_gt m Hm). pose proof (Zdigits2_nonneg m).
    apply Zdigits2_le; [| lia].
    replace (Zdigits2 m + 1) with (Z.succ (Zdigits2 m)) by lia.
    rewrite Z.pow_succ_r by lia.
    generalize dependent (2 ^ Zdigits2 m). intros X HX. lia. }
  pose proof (fexp_le (Zdigits2 m + e)).
  pose proof (fexp_le (Zdigits2 m1 + e')).
  destruct (shr_m mrs'') as [| p | p] eqn:E; [reflexivity | | lia].
  destruct (Z.leb_spec e'' (emax - prec)); [reflexivity |].
  unfold emax, prec in *. lia.
Qed.

Lemma iter_xO_digits (k m : positive) :
  Zpos (digits2_pos (Pos.iter xO m k)) = Zpos (digits2_pos m) + Zpos k.
Proof.
  induction k as [| k IH] using Pos.peano_ind.
  - cbn. lia.
  - rewrite Pos.iter_succ. cbn [digits2_pos]. lia.
Qed.

Lemma binary_round_is_finite (s : bool) (m : positive) :
  Zpos m < 2 ^ 64 ->
  is_finite (binary_round prec emax s m 0) = true.
Proof.
  intros Hm. unfold binary_round, shl_align.
  pose proof (digits_le_of_lt_pow m 64 ltac:(lia) Hm) as Hd.
  pose proof (fexp_le (Zpos (digits2_pos m) + 0)) as Hf.
  assert (Hf' : fexp prec emax (Zpos (digits2_pos m) + 0) = Zpos (digits2_pos m) - 53).
  { unfold fexp, SpecFloat.emin, prec, emax. lia. }
  rewrite Hf' in *.
  destruct (Zpos (digits2_pos m) - 53 - 0) as [| d | d] eqn:Ed.
  - apply binary_round_aux_is_finite; cbn [Zdigits2]; lia.
  - apply binary_round_aux_is_finite; cbn [Zdigits2]; lia.
  - apply binary_round_aux_is_finite; cbn [Zdigits2]; try lia.
    rewrite iter_xO_digits. lia.
Qed.

Lemma float64_of_int_is_finite (z : Z) :
  - 2 ^ 64 < z < 2 ^ 64 -> is_finite (float64_of_int z) = true.
Proof.
  intros Hz. unfold float64_of_int, binary_normalize.
  destruct z as [| m | m]; [reflexivity | |];
    apply binary_round_is_finite; lia.
Qed.

Lemma wrap64_range (z : Z) : int_min <= wrap64 z <= int_max.
Proof.
  unfold wrap64, int_min, int_max.
  pose proof (Z.mod_pos_bound (z + 2 ^ 63) (2 ^ 64) ltac:(lia)). lia.
Qed.

(** A finite float times a zero is a zero. *)
Lemma f64_mul_zero (x : float64) (s : bool) :
  is_finite x = true -> exists s', f64_mul x (S754_zero s) = S754_zero s'.
Proof.
  destruct x as [sx | sx | | sx m e]; cbn; try discriminate; intros _; now eexists.
Qed.

(** A ratio is not "different from 0" exactly when it is a zero. *)
Lemma f64_ne_zero_false (m : float64) :
  f64_ne_zero m = false -> exists s, m = S754_zero s.
Proof.
  destruct m as [s | s | | s mm e]; cbn; try discriminate.
  - intros _. now exists s.
  - now destruct s.
  - now destruct s.
Qed.

(** With a zero model ratio the second rounding yields 0, whatever the
    tokens and the completion ratio are. *)
Lemma round_scaled_zero_ratio
    (indefinite : float64 -> Z) (n : Z) (s : bool) :
  round_scaled indefinite (wrap64 n) (S754_zero s) = 0.
Proof.
  unfold round_scaled.
  destruct (f64_mul_zero (float64_of_int (wrap64 n)) s) as (s' & ->).
  - apply float64_of_int_is_finite.
    pose proof (wrap64_range n). unfold int_min, int_max in *. lia.
  - reflexivity.
Qed.

(** The floor-to-1 rule, case by case. *)
Lemma floor_rule (m : float64) (raw : Z) :
  (f64_ne_zero m = true -> raw <= 0 ->
   (if f64_ne_zero m && (raw <=? 0) then 1 else raw) = 1)
  /\ (f64_ne_zero m = true -> 0 < raw ->
      (if f64_ne_zero m && (raw <=? 0) then 1 else raw) = raw)
  /\ (f64_ne_zero m = false ->
      (if f64_ne_zero m && (raw <=? 0) then 1 else raw) = raw).
Proof.
  repeat split.
  - intros -> Hle. cbn [andb]. now apply Z.leb_le in Hle as ->.
  - intros -> Hlt. cbn [andb]. now apply Z.leb_gt in Hlt as ->.
  - now intros ->.
Qed.

(** A ratio that is a zero of either sign is not "different from 0". *)
Lemma zero_ratio_is_not_ne_zero (s : bool) : f64_ne_zero (S754_zero s) = false.
Proof. reflexivity. Qed.

(** C6 (as amended).  For a ratio-priced model the quota is
    round(q * m) with q = p + round(c * r) taken in [int] and converted
    back to a float, every round being [math.Round] followed by the
    conversion to [int]; it is replaced by 1 exactly when m differs from 0
    and the result is not positive, and left as it is when m is a zero, in
    which case it is 0.
    For a flat-priced model the quota is modelPrice * quotaPerUnit with the
    fraction discarded by the conversion to [int].  With p = 100, c = 50,
    r = 2.0 and m = 0.5 the quota is 100, and with m = 0 it is 0. *)
Theorem testChannel_quota_formula :
  forall (QuotaPerUnit : float64) (indefinite : float64 -> Z)
         (priceData : PriceData) (usage : Usage),
    let p := PromptTokens usage in
    let c := CompletionTokens usage in
    let r := CompletionRatio priceData in
    let m := ModelRatio priceData in
    let raw :=
      round_scaled indefinite (wrap64 (p + round_scaled indefinite c r)) m in
    let quota := testChannel_quota QuotaPerUnit indefinite priceData usage in
    (UsePrice priceData = false ->
     (f64_ne_zero m = true -> raw <= 0 -> quota = 1)
     /\ (f64_ne_zero m = true -> 0 < raw -> quota = raw)
     /\ (f64_ne_zero m = false -> quota = raw /\ quota = 0))
    /\ (UsePrice priceData = true ->
        quota = int_of_float64 indefinite (f64_mul (ModelPrice priceData) QuotaPerUnit))
    /\ testChannel_quota QuotaPerUnit indefinite
         (ratio_priced (f64_lit 2 0) (f64_lit 1 (-1)))
         {| PromptTokens := 100; CompletionTokens := 50 |} = 100
    /\ testChannel_quota QuotaPerUnit indefinite
         (ratio_priced (f64_lit 2 0) (S754_zero false))
         {| PromptTokens := 100; CompletionTokens := 50 |} = 0.
Proof.
  intros QuotaPerUnit indefinite priceData usage p c r m raw quota.
  split; [| split; [| split]].
  - intros Hratio. subst quota. unfold testChannel_quota. rewrite Hratio.
    cbn [negb]. fold p c r m. fold raw.
    destruct (floor_rule m raw) as (Hone & Hraw & Hzero).
    split; [exact Hone |]. split; [exact Hraw |].
    intros Hm. split; [now apply Hzero |].
    rewrite (Hzero Hm). subst raw.
    destruct (f64_ne_zero_false m Hm) as (s & ->).
    apply round_scaled_zero_ratio.
  - intros Hflat. subst quota. unfold testChannel_quota. now rewrite Hflat.
  - vm_compute. reflexivity.
  - vm_compute. reflexivity.
Qed.

(** The theorem on the worked example of the specification, on a flat
    price of one half, on a ratio so small that the floor applies, and on a
    zero ratio. *)
Lemma testChannel_quota_formula_witness :
  (testChannel_quota QuotaPerUnit_default indefinite_amd64
     (ratio_priced (f64_lit 2 0) (f64_lit 1 (-1)))
     {| PromptTokens := 100; CompletionTokens := 50 |}
   = round_scaled indefinite_amd64
       (wrap64 (100 + round_scaled indefinite_amd64 50 (f64_lit 2 0)))
       (f64_lit 1 (-1)))
  /\ testChannel_quota QuotaPerUnit_default indefinite_amd64
       (flat_priced (f64_lit 1 (-1)))
       {| PromptTokens := 100; CompletionTokens := 50 |}
     = int_of_float64 indefinite_amd64
         (f64_mul (f64_lit 1 (-1)) QuotaPerUnit_default)
  /\ testChannel_quota QuotaPerUnit_default indefinite_amd64
       (ratio_priced (f64_lit 2 0) (f64_lit 1 (-20)))
       {| PromptTokens := 1; CompletionTokens := 0 |} = 1
  /\ testChannel_quota QuotaPerUnit_default indefinite_amd64
       (ratio_priced (f64_lit 2 0) (S754_zero false))
       {| PromptTokens := 100; CompletionTokens := 50 |} = 0.
Proof.
  split; [| split; [| split]]; cycle 2.
  - destruct (proj1 (testChannel_quota_formula QuotaPerUnit_default
                       indefinite_amd64
                       (ratio_priced (f64_lit 2 0) (f64_lit 1 (-20)))
                       {| PromptTokens := 1; CompletionTokens := 0 |})
                eq_refl) as (Hone & _ & _).
    apply Hone; vm_compute; [reflexivity | discriminate].
  - destruct (proj1 (testChannel_quota_formula QuotaPerUnit_default
                       indefinite_amd64
                       (ratio_priced (f64_lit 2 0) (S754_zero false))
                       {| PromptTokens := 100; CompletionTokens := 50 |})
                eq_refl) as (_ & _ & Hzero).
    apply Hzero. reflexivity.
  - destruct (proj1 (testChannel_quota_formula QuotaPerUnit_default
                       indefinite_amd64
                       (ratio_priced (f64_lit 2 0) (f64_lit 1 (-1)))
                       {| PromptTokens := 100; CompletionTokens := 50 |})
                eq_refl) as (_ & Hpositive & _).
    apply Hpositive; vm_compute; reflexivity.
  - apply (proj1 (proj2 (testChannel_quota_formula QuotaPerUnit_default
                           indefinite_amd64 (flat_priced (f64_lit 1 (-1)))
                           {| PromptTokens := 100; CompletionTokens := 50 |}))).
    reflexivity.
Defined.

(** C6 as stated fails on the flat price: with a price of 2^-19 and
    500000 quota per unit the product is 0.95367431640625, and the quota
    recorded is 0. *)
Lemma flat_quota_discards_the_fraction :
  f64_mul (f64_lit 1 (-19)) QuotaPerUnit_default = f64_lit 8589934592000000 (-53)
  /\ testChannel_quota QuotaPerUnit_default indefinite_amd64
       (flat_priced (f64_lit 1 (-19)))
       {| PromptTokens := 100; CompletionTokens := 50 |} = 0
  /\ SFeqb (float64_of_int 0) (f64_mul (f64_lit 1 (-19)) QuotaPerUnit_default) = false.
Proof. repeat split; vm_compute; reflexivity. Qed.

Example quota_examples :
  (* a tiny ratio: the raw result 0 is lifted to 1 *)
  testChannel_quota QuotaPerUnit_default indefinite_amd64
    (ratio_priced (f64_lit 2 0) (f64_lit 1 (-20)))
    {| PromptTokens := 1; CompletionTokens := 0 |} = 1
  (* no tokens and a zero ratio: 0 stays 0 *)
  /\ testChannel_quota QuotaPerUnit_default indefinite_amd64
       (ratio_priced (f64_lit 2 0) (S754_zero true))
       {| PromptTokens := 0; CompletionTokens := 0 |} = 0
  (* a flat price of one half *)
  /\ testChannel_quota QuotaPerUnit_default indefinite_amd64
       (flat_priced (f64_lit 1 (-1)))
       {| PromptTokens := 7; CompletionTokens := 9 |} = 250000.
Proof. repeat split; vm_compute; reflexivity. Qed.

End QuotaProperties.

(** ** The single-flight guard *)

Section SingleFlightProperties.
Import SingleFlight SingleFlightRuns.

Lemma count_app (f : pc -> bool) (l1 l2 : list pc) :
  count f (l1 ++ l2) = (count f l1 + count f l2)%nat.
Proof.
  induction l1 as [| p l1 IH]; [reflexivity |].
  cbn [app count]. rewrite IH. lia.
Qed.

(** Replacing goroutine [i] moves its weight from the old point to the
    new one. *)
Lemma count_insert (f : pc -> bool) (l : list pc) (i : nat) (p p' : pc) :
  l !! i = Some p ->
  (count f (<[i := p']> l) + b2n (f p) = count f l + b2n (f p'))%nat.
Proof.
  revert i; induction l as [| q l IH]; intros i Hi; [discriminate |].
  destruct i as [| i]; cbn in Hi.
  - injection Hi as ->. cbn [count]. change (<[0%nat := p']> (p :: l)) with (p' :: l).
    cbn [count]. lia.
  - change (<[S i := p']> (q :: l)) with (q :: <[i := p']> l).
    cbn [count]. specialize (IH i Hi). lia.
Qed.

Lemma count_le (f g : pc -> bool) (l : list pc) :
  (forall p, f p = true -> g p = true) ->
  (count f l <= count g l)%nat.
Proof.
  intros Hfg. induction l as [| p l IH]; [reflexivity |].
  cbn [count]. specialize (Hfg p).
  destruct (f p), (g p); cbn [b2n]; lia.
Qed.

Lemma guard_invariant_init : guard_invariant init.
Proof. repeat split; cbn; lia. Qed.

Lemma guard_invariant_arrive (s : state) :
  guard_invariant s -> guard_invariant (arrive s).
Proof.
  unfold guard_invariant, arrive. cbn [threads sh].
  rewrite !count_app. cbn. intros (H1 & H2 & H3).
  repeat split; try lia. intros Hr. specialize (H3 Hr). lia.
Qed.

Lemma guard_invariant_step (inp : input) (i : nat) (s s' : state) :
  guard_invariant s -> system_step inp i s = Some s' -> guard_invariant s'.
Proof.
  destruct s as [[lk rn] l]. unfold guard_invariant, system_step.
  cbn [threads sh locked testAllChannelsRunning].
  intros (H1 & H2 & H3).
  destruct (l !! i) as [p |] eqn:Hi; [| discriminate].
  pose proof (count_le about_to_set in_critical_section l) as Hle.
  assert (Hle' : (count about_to_set l <= count in_critical_section l)%nat)
    by (apply Hle; intros []; cbn; congruence).
  clear Hle.
  destruct (thread_step inp p {| locked := lk; testAllChannelsRunning := rn |})
    as [[[p' sh'] sp] |] eqn:Hstep; [| discriminate].
  intros [= <-]. cbn [threads sh].
  pose proof (count_insert in_critical_section l i p p' Hi) as E1.
  pose proof (count_insert owns_flag l i p p' Hi) as E2.
  pose proof (count_insert about_to_set l i p p' Hi) as E3.
  rewrite !count_app.
  destruct p; cbn in Hstep;
    repeat match type of Hstep with
           | context [if ?b then _ else _] => destruct b eqn:?
           | context [match ?o with Some _ => _ | None => _ end] =>
               destruct o eqn:?
           end;
    try discriminate; injection Hstep as <- <- <-;
    cbn [in_critical_section owns_flag about_to_set b2n started count
         locked testAllChannelsRunning set_locked set_running] in *;
    destruct lk, rn; cbn [b2n] in *; try discriminate;
    try specialize (H3 eq_refl);
    (repeat split; [lia | lia | intros Hr; try discriminate; lia]).
Qed.

Lemma step_preserves_guard_invariant (s s' : state) :
  step s s' -> guard_invariant s -> guard_invariant s'.
Proof.
  intros [s0 | inp i s0 s1 Hstep] Hinv.
  - now apply guard_invariant_arrive.
  - eapply guard_invariant_step; eassumption.
Qed.

Lemma reachable_guard_invariant (s : state) :
  reachable s -> guard_invariant s.
Proof.
  unfold reachable. revert s.
  apply (rtc_ind_r guard_invariant init guard_invariant_init).
  intros y z _ Hstep Hinv.
  eapply step_preserves_guard_invariant; eassumption.
Qed.

Lemma replay_steps (evs : list event) (s s' : state) :
  replay evs s = Some s' -> rtc step s s'.
Proof.
  revert s; induction evs as [| ev evs IH]; intros s Hrun; cbn in Hrun.
  - injection Hrun as <-. apply rtc_refl.
  - destruct ev as [| inp i].
    + eapply rtc_l; [apply step_arrive | now apply IH].
    + destruct (system_step inp i s) as [s1 |] eqn:Hstep; [| discriminate].
      eapply rtc_l; [eapply step_thread, Hstep | now apply IH].
Qed.

(** Once the loop of the batch ends, normally or by a panic, the deferred
    function clears the flag and releases the mutex. *)
Lemma batch_clears_flag (o : ending) : batch o busy = (BatchOver o, idle, []).
Proof. reflexivity. Qed.

(** An invocation on an idle guard whose channel query succeeds sets the
    flag and starts one batch. *)
Lemma testAllChannels_starts_batch :
  testAllChannels channels_ok idle = (Returned None, busy, [BatchLoop]).
Proof. reflexivity. Qed.

(** A stuck guard stays stuck, whatever arrives and whoever steps. *)
Lemma stuck_step (s s' : state) : step s s' -> stuck s -> stuck s'.
Proof.
  intros [s0 | inp i s0 s1 Hstep].
  - unfold stuck, arrive. cbn [threads sh]. rewrite !count_app. cbn.
    intros (H1 & H2 & H3). repeat split; [exact H1 | lia | lia].
  - destruct s0 as [[lk rn] l]. unfold stuck, system_step in *.
    cbn [threads sh locked testAllChannelsRunning] in *.
    intros (-> & H2 & H3).
    destruct (l !! i) as [p |] eqn:Hi; [| discriminate].
    destruct (thread_step inp p {| locked := lk; testAllChannelsRunning := true |})
      as [[[p' sh'] sp] |] eqn:Hth; [| discriminate].
    injection Hstep as <-. cbn [threads sh].
    pose proof (count_insert owns_flag l i p p' Hi) as E2.
    pose proof (count_insert about_to_set l i p p' Hi) as E3.
    rewrite !count_app.
    destruct p; cbn in Hth;
      repeat match type of Hth with
             | context [if ?b then _ else _] => destruct b eqn:?
             | context [match ?o with Some _ => _ | None => _ end] =>
                 destruct o eqn:?
             end;
      try discriminate; injection Hth as <- <- <-;
      cbn [owns_flag about_to_set b2n started count
           locked testAllChannelsRunning set_locked set_running] in *;
      try lia; (repeat split; [reflexivity | lia | lia]).
Qed.

Lemma stuck_forever (s s' : state) : stuck s -> rtc step s s' -> stuck s'.
Proof.
  intros Hs Hsteps. induction Hsteps as [| x y z Hxy _ IH]; [exact Hs |].
  apply IH. eapply stuck_step; eassumption.
Qed.

(** C1.  An invocation on an idle guard whose channel query fails returns
    that error with the flag set and no batch started; the state it leaves
    is stuck, so nothing will clear the flag; and every later invocation is
    turned away as "already running". *)
Theorem testAllChannels_keeps_flag_after_GetAllChannels_error :
  forall e : error,
    testAllChannels (channels_fail e) idle = (Returned (Some e), busy, [])
    /\ replay (failing_invocation e) init
       = Some {| sh := busy; threads := [Returned (Some e)] |}
    /\ stuck {| sh := busy; threads := [Returned (Some e)] |}
    /\ (forall inp : input,
          testAllChannels inp busy = (Returned (Some already_running), busy, [])).
Proof.
  intros e. repeat split; reflexivity.
Qed.

(** After the failing invocation the flag is set in every state the
    process can reach. *)
Lemma flag_never_cleared_after_GetAllChannels_error (e : error) (s : state) :
  rtc step {| sh := busy; threads := [Returned (Some e)] |} s ->
  testAllChannelsRunning (sh s) = true
  /\ count batch_in_flight (threads s) = 0%nat.
Proof.
  intros Hsteps.
  assert (Hstuck : stuck s).
  { eapply stuck_forever; [| exact Hsteps]. repeat split; reflexivity. }
  destruct Hstuck as (Hflag & Hown & _). split; [exact Hflag |].
  pose proof (count_le batch_in_flight owns_flag (threads s)) as Hle.
  assert ((count batch_in_flight (threads s) <= count owns_flag (threads s))%nat)
    by (apply Hle; intros []; cbn; congruence).
  lia.
Qed.

(** C2.  With the flag set, an invocation run on its own returns the
    "already running" error, starts nothing and leaves both package
    variables as they were.  Step by step: the test of the flag happens
    inside the critical section and, when it reads true, leads to the
    unlock and the error without any write to the flag.  In every
    reachable state the mutex is held by exactly the goroutines between
    Lock and Unlock, of which there is at most one, so the test and the set
    are not interleaved with another goroutine's; the flag has at most one
    owner and is set while it has one; at most one batch is in flight. *)
Theorem testAllChannels_rejects_overlap :
  (forall inp : input,
     testAllChannels inp busy = (Returned (Some already_running), busy, []))
  /\ (forall (inp : input) (s : shared),
        testAllChannelsRunning s = true ->
        locked s = true ->
        thread_step inp AtCheck s = Some (AtUnlockBusy, s, None)
        /\ thread_step inp AtUnlockBusy s
           = Some (Returned (Some already_running), set_locked false s, None))
  /\ (forall s : state,
        reachable s ->
        count in_critical_section (threads s) = b2n (locked (sh s))
        /\ (count in_critical_section (threads s) <= 1)%nat
        /\ (count owns_flag (threads s)
            <= b2n (testAllChannelsRunning (sh s)))%nat
        /\ (count batch_in_flight (threads s) <= 1)%nat).
Proof.
  split; [reflexivity |]. split.
  - intros inp s Hrun Hlock. unfold thread_step. now rewrite Hrun, Hlock.
  - intros s Hreach.
    destruct (reachable_guard_invariant s Hreach) as (H1 & H2 & _).
    pose proof (count_le batch_in_flight owns_flag (threads s)) as Hle.
    assert ((count batch_in_flight (threads s) <= count owns_flag (threads s))%nat)
      by (apply Hle; intros []; cbn; congruence).
    destruct (locked (sh s)), (testAllChannelsRunning (sh s));
      cbn [b2n] in *; repeat split; lia.
Qed.

(** The theorem on the state in which a second invocation has been turned
    away while the batch of the first is in its loop. *)
Lemma testAllChannels_rejects_overlap_witness :
  (thread_step channels_ok AtCheck
     {| locked := true; testAllChannelsRunning := true |}
   = Some (AtUnlockBusy, {| locked := true; testAllChannelsRunning := true |}, None)
   /\ thread_step channels_ok AtUnlockBusy
        {| locked := true; testAllChannelsRunning := true |}
      = Some (Returned (Some already_running),
              set_locked false {| locked := true; testAllChannelsRunning := true |},
              None))
  /\ (count in_critical_section
        [Returned None; BatchLoop; Returned (Some already_running)]
      = b2n (locked busy)
      /\ (count in_critical_section
            [Returned None; BatchLoop; Returned (Some already_running)] <= 1)%nat
      /\ (count owns_flag
            [Returned None; BatchLoop; Returned (Some already_running)]
          <= b2n (testAllChannelsRunning busy))%nat
      /\ (count batch_in_flight
            [Returned None; BatchLoop; Returned (Some already_running)] <= 1)%nat).
Proof.
  destruct testAllChannels_rejects_overlap as (_ & Hstep & Hreach).
  split.
  - apply Hstep; reflexivity.
  - apply (Hreach {| sh := busy;
                     threads := [Returned None; BatchLoop;
                                 Returned (Some already_running)] |}).
    apply (replay_steps overlapping_invocations). reflexivity.
Defined.

End SingleFlightProperties.

(* ================================================================== *)
(** * Further properties of the cache *)

Section CacheExact.
Import GoStrings Gemini CacheSpec CacheWorlds Samples.
Local Open Scope go_scope.

(** The Redis branch, with the world it ends in. *)
Lemma try_cached_V1_exact (env : Env) (apiKey key : string) (w : World) :
  CacheV1.try_cached env apiKey key w
  = Returns (confirmed_handle env apiKey key raw_handle w)
            (after_lookup env apiKey key raw_handle w).
Proof.
  unfold CacheV1.try_cached, confirmed_handle, after_lookup, stored_value,
    raw_handle, bind, RDB_Get, ret.
  destruct (RedisEnabled env); cbn [andb]; [| reflexivity].
  destruct (redis_up env); [| reflexivity].
  destruct (store w !! key) as [[v ttl] |]; cbn [is_nil andb]; [| reflexivity].
  destruct (nonempty v); [| reflexivity].
  destruct (Lookup_answer env apiKey v (emit (EvRedisGet key) w))
    as (ex & err & -> & Hv).
  rewrite <- Hv. now destruct (is_nil err && ex).
Qed.

Lemma try_cached_V2_exact (env : Env) (apiKey key : string) (w : World) :
  CacheV2.try_cached env apiKey key w
  = Returns (confirmed_handle env apiKey key (json_Unmarshal_cache_name env) w)
            (after_lookup env apiKey key (json_Unmarshal_cache_name env) w).
Proof.
  unfold CacheV2.try_cached, confirmed_handle, after_lookup, stored_value,
    bind, RDB_Get, ret.
  destruct (RedisEnabled env); cbn [andb]; [| reflexivity].
  destruct (redis_up env); [| reflexivity].
  destruct (store w !! key) as [[v ttl] |]; cbn [is_nil andb]; [| reflexivity].
  destruct (nonempty v); [| reflexivity].
  destruct (Lookup_answer env apiKey (json_Unmarshal_cache_name env v)
              (emit (EvRedisGet key) w)) as (ex & err & -> & Hv).
  cbv zeta. rewrite <- Hv. now destruct (is_nil err && ex).
Qed.

(** The tail of both functions after a creation. *)
Lemma finish_V1 (env : Env) (key : string) (w1 : World)
    (create : M (string * option error)) :
  bind create
    (fun xy => match xy with
               | (newID, Some e) => ret ("", Some e)
               | (newID, None) =>
                   bind (if RedisEnabled env
                         then RDB_Set env key newID time_Hour else ret None)
                     (fun _ => ret (newID, None))
               end) w1
  = match create w1 with
    | Returns (newID, None) w2 => Returns (newID, None) (remember env key newID w2)
    | Returns (_, Some e) w2 => Returns ("", Some e) w2
    | Panics msg w2 => Panics msg w2
    end.
Proof.
  unfold bind at 1.
  destruct (create w1) as [[newID [e |]] w2 | msg w2]; try reflexivity.
  unfold bind. destruct (remember_spec env key newID w2) as (r & ->). reflexivity.
Qed.

(** The earlier revision on an eligible request, world included. *)
Lemma GetOrCreate_V1_exact
    (env : Env) (apiKey : string) (channelID : Z) (model : string)
    (request : GeminiChatRequest) (w : World) :
  CacheV1.ShouldEnableGeminiCache env model (Contents request) = true ->
  CacheV1.GetOrCreateGeminiCache env apiKey channelID model request w
  = let key := key_V1 env channelID model request in
    let w1 := after_lookup env apiKey key raw_handle w in
    match confirmed_handle env apiKey key raw_handle w with
    | Some handle => Returns (handle, None) w1
    | None =>
        match CacheV1.CreateGeminiCache env apiKey model request
                (hash_V1 env model request) w1 with
        | Returns (newID, None) w2 => Returns (newID, None) (remember env key newID w2)
        | Returns (_, Some e) w2 => Returns ("", Some e) w2
        | Panics msg w2 => Panics msg w2
        end
    end.
Proof.
  intros Hel. cbv zeta.
  unfold CacheV1.GetOrCreateGeminiCache. rewrite Hel. cbn [negb].
  fold (hash_V1 env model request). fold (key_V1 env channelID model request).
  unfold bind at 1. rewrite try_cached_V1_exact.
  destruct (confirmed_handle env apiKey (key_V1 env channelID model request)
              raw_handle w) as [handle |]; [reflexivity |].
  apply finish_V1.
Qed.

Lemma finish_V2 (env : Env) (key : string) (channelID tokens : Z) (w1 : World)
    (create : M (string * option error)) :
  bind create
    (fun xy => match xy with
               | (newID, Some e) => ret ("", false, 0, Some e)
               | (newID, None) =>
                   bind (if RedisEnabled env
                         then RDB_Set env key
                                (json_Marshal env (CacheV2.envelope newID channelID))
                                time_Hour
                         else ret None)
                     (fun _ => ret (newID, true, tokens, None))
               end) w1
  = match create w1 with
    | Returns (newID, None) w2 =>
        Returns (newID, true, tokens, None)
          (remember env key (json_Marshal env (CacheV2.envelope newID channelID)) w2)
    | Returns (_, Some e) w2 => Returns ("", false, 0, Some e) w2
    | Panics msg w2 => Panics msg w2
    end.
Proof.
  unfold bind at 1.
  destruct (create w1) as [[newID [e |]] w2 | msg w2]; try reflexivity.
  unfold bind.
  destruct (remember_spec env key
              (json_Marshal env (CacheV2.envelope newID channelID)) w2) as (r & ->).
  reflexivity.
Qed.

(** The later revision on an eligible request, world included. *)
Lemma GetOrCreate_V2_exact
    (env : Env) (apiKey : string) (channelID : Z) (model : string)
    (request : GeminiChatRequest) (content : GeminiChatContent) (w : World) :
  SystemInstructions request = Some content ->
  CacheV2.ShouldEnableGeminiCache env model
    (Estimate.space_estimate_content content) = true ->
  CacheV2.GetOrCreateGeminiCache env apiKey channelID model request w
  = let key := key_V2 env request in
    let handle_of := json_Unmarshal_cache_name env in
    let w1 := after_lookup env apiKey key handle_of w in
    match confirmed_handle env apiKey key handle_of w with
    | Some handle => Returns (handle, false, 0, None) w1
    | None =>
        match CacheV2.CreateGeminiCache env apiKey model request
                (hash_V2 env request) w1 with
        | Returns (newID, None) w2 =>
            Returns (newID, true, Estimate.space_estimate_content content, None)
              (remember env key
                 (json_Marshal env (CacheV2.envelope newID channelID)) w2)
        | Returns (_, Some e) w2 => Returns ("", false, 0, Some e) w2
        | Panics msg w2 => Panics msg w2
        end
    end.
Proof.
  intros Hsys Hel. cbv zeta.
  unfold CacheV2.GetOrCreateGeminiCache.
  unfold bind at 1. rewrite Hsys, CountTokensFromParts_V2_closed_form.
  rewrite Hel. cbn [negb].
  replace (CacheV2.HashSystemInstructions env (Some content))
    with (hash_V2 env request) by (unfold hash_V2; now rewrite Hsys).
  fold (key_V2 env request).
  unfold bind at 1. rewrite try_cached_V2_exact.
  destruct (confirmed_handle env apiKey (key_V2 env request)
              (json_Unmarshal_cache_name env) w) as [handle |]; [reflexivity |].
  apply finish_V2.
Qed.

Lemma stored_value_enabled (env : Env) (key v : string) (w : World) :
  stored_value env key w = Some v ->
  RedisEnabled env = true /\ redis_up env = true
  /\ nonempty v = true /\ exists ttl, store w !! key = Some (v, ttl).
Proof.
  unfold stored_value.
  destruct (RedisEnabled env), (redis_up env); cbn [andb]; try discriminate.
  destruct (store w !! key) as [[v' ttl] |]; [| discriminate].
  destruct (nonempty v') eqn:Hne; [| discriminate].
  intros [= <-]. repeat split; try assumption. now exists ttl.
Qed.

(** The hit of the later revision, for reuse. *)
Lemma GetOrCreate_V2_hit
    (env : Env) (apiKey : string) (channelID : Z) (model : string)
    (request : GeminiChatRequest) (content : GeminiChatContent)
    (v : string) (w : World) :
  SystemInstructions request = Some content ->
  CacheV2.ShouldEnableGeminiCache env model
    (Estimate.space_estimate_content content) = true ->
  stored_value env (key_V2 env request) w = Some v ->
  verified env apiKey (json_Unmarshal_cache_name env v) = true ->
  CacheV2.GetOrCreateGeminiCache env apiKey channelID model request w
  = Returns (json_Unmarshal_cache_name env v, false, 0, None)
      (emit (EvHttpGet (lookup_url apiKey (json_Unmarshal_cache_name env v)))
         (emit (EvRedisGet (key_V2 env request)) w)).
Proof.
  intros Hsys Hel Hst Hver.
  rewrite (GetOrCreate_V2_exact env apiKey channelID model request content w
             Hsys Hel).
  cbv zeta. unfold confirmed_handle, after_lookup.
  destruct (stored_value_enabled _ _ _ _ Hst) as (-> & _).
  now rewrite Hst, Hver.
Qed.

(** X1.  A hit.  When the store holds a usable value under the key of the
    call and the existence check confirms its handle, the call returns that
    handle (with created = false and zero tokens in the later revision)
    after exactly one read of the store and one GET: nothing is created and
    nothing is written. *)
Theorem GetOrCreate_reuses_confirmed_handle :
  forall (env : Env) (apiKey : string) (channelID : Z) (model : string)
         (request : GeminiChatRequest) (v : string) (w : World),
    (CacheV1.ShouldEnableGeminiCache env model (Contents request) = true ->
     stored_value env (key_V1 env channelID model request) w = Some v ->
     verified env apiKey v = true ->
     CacheV1.GetOrCreateGeminiCache env apiKey channelID model request w
     = Returns (v, None)
         (emit (EvHttpGet (lookup_url apiKey v))
            (emit (EvRedisGet (key_V1 env channelID model request)) w)))
    /\ (forall content : GeminiChatContent,
         SystemInstructions request = Some content ->
         CacheV2.ShouldEnableGeminiCache env model
           (Estimate.space_estimate_content content) = true ->
         stored_value env (key_V2 env request) w = Some v ->
         verified env apiKey (json_Unmarshal_cache_name env v) = true ->
         CacheV2.GetOrCreateGeminiCache env apiKey channelID model request w
         = Returns (json_Unmarshal_cache_name env v, false, 0, None)
             (emit (EvHttpGet (lookup_url apiKey (json_Unmarshal_cache_name env v)))
                (emit (EvRedisGet (key_V2 env request)) w))).
Proof.
  intros env apiKey channelID model request v w. split.
  - intros Hel Hst Hver.
    rewrite (GetOrCreate_V1_exact env apiKey channelID model request w Hel).
    cbv zeta. unfold confirmed_handle, after_lookup, raw_handle.
    destruct (stored_value_enabled _ _ _ _ Hst) as (-> & _).
    now rewrite Hst, Hver.
  - intros content Hsys Hel Hst Hver.
    rewrite (GetOrCreate_V2_exact env apiKey channelID model request content w
               Hsys Hel).
    cbv zeta. unfold confirmed_handle, after_lookup.
    destruct (stored_value_enabled _ _ _ _ Hst) as (-> & _).
    now rewrite Hst, Hver.
Qed.

Import CacheSamples.

(** The theorem on a store that holds a live handle under both keys. *)
Lemma GetOrCreate_reuses_confirmed_handle_witness :
  CacheV1.GetOrCreateGeminiCache env_live "k" 5 "gemini-2.5-pro" long_request
    live_world
  = Returns ("cachedContents/live", None)
      (emit (EvHttpGet (lookup_url "k" "cachedContents/live"))
         (emit (EvRedisGet (key_V1 env_live 5 "gemini-2.5-pro" long_request))
            live_world))
  /\ CacheV2.GetOrCreateGeminiCache env_live "k" 5 "gemini-2.5-pro" long_request
       live_world
     = Returns (json_Unmarshal_cache_name env_live "E:cachedContents/live",
                false, 0, None)
         (emit (EvHttpGet
                  (lookup_url "k"
                     (json_Unmarshal_cache_name env_live "E:cachedContents/live")))
            (emit (EvRedisGet (key_V2 env_live long_request)) live_world)).
Proof.
  split.
  - apply (proj1 (GetOrCreate_reuses_confirmed_handle env_live "k" 5
                    "gemini-2.5-pro" long_request "cachedContents/live" live_world));
      vm_compute; reflexivity.
  - apply (proj2 (GetOrCreate_reuses_confirmed_handle env_live "k" 5
                    "gemini-2.5-pro" long_request "E:cachedContents/live" live_world)
             blank_content); vm_compute; reflexivity.
Defined.

Lemma stored_value_same_store (env : Env) (key : string) (w w' : World) :
  store w' = store w -> stored_value env key w' = stored_value env key w.
Proof. intros H. unfold stored_value. now rewrite H. Qed.

Lemma stored_value_after_remember (env : Env) (key value : string) (w : World) :
  RedisEnabled env = true -> redis_up env = true -> value <> "" ->
  stored_value env key (remember env key value w) = Some value.
Proof.
  intros Hen Hup Hne. unfold stored_value.
  rewrite remember_store, Hen, Hup. cbn [andb].
  rewrite lookup_insert_eq. unfold nonempty.
  destruct (String.eqb value "") eqn:E; [| reflexivity].
  apply String.eqb_eq in E. contradiction.
Qed.

Lemma after_lookup_store (env : Env) (apiKey key : string)
    (handle_of : string -> string) (w : World) :
  store (after_lookup env apiKey key handle_of w) = store w.
Proof.
  unfold after_lookup. destruct (RedisEnabled env); [| reflexivity].
  cbv zeta. now destruct (stored_value env key w).
Qed.

Lemma CreateGeminiCache_V1_store
    (env : Env) (apiKey model : string) (request : GeminiChatRequest)
    (hash : string) (w : World) :
  store (world_of (CacheV1.CreateGeminiCache env apiKey model request hash w))
  = store w.
Proof.
  unfold CacheV1.CreateGeminiCache.
  destruct (last (Contents request)); [| reflexivity].
  match goal with
  | |- context [post_cache_request env apiKey ?r w] =>
      destruct (post_cache_request_cases env apiKey r w)
        as (name & err & w2 & -> & (Hst & _) & _)
  end.
  exact Hst.
Qed.

Lemma CreateGeminiCache_V2_store
    (env : Env) (apiKey model : string) (request : GeminiChatRequest)
    (hash : string) (w : World) :
  store (world_of (CacheV2.CreateGeminiCache env apiKey model request hash w))
  = store w.
Proof.
  unfold CacheV2.CreateGeminiCache.
  match goal with
  | |- context [post_cache_request env apiKey ?r w] =>
      destruct (post_cache_request_cases env apiKey r w)
        as (name & err & w2 & -> & (Hst & _) & _)
  end.
  exact Hst.
Qed.

(** After any call that returned a handle without error, the store of a
    reachable Redis maps the key of the call to that handle. *)
Lemma GetOrCreate_V1_leaves_handle_stored
    (env : Env) (apiKey : string) (channelID : Z) (model : string)
    (request : GeminiChatRequest) (newID : string) (w w' : World) :
  RedisEnabled env = true -> redis_up env = true -> newID <> "" ->
  CacheV1.GetOrCreateGeminiCache env apiKey channelID model request w
  = Returns (newID, None) w' ->
  CacheV1.ShouldEnableGeminiCache env model (Contents request) = true
  /\ stored_value env (key_V1 env channelID model request) w' = Some newID.
Proof.
  intros Hen Hup Hne.
  destruct (CacheV1.ShouldEnableGeminiCache env model (Contents request)) eqn:Hel.
  2:{ unfold CacheV1.GetOrCreateGeminiCache. rewrite Hel. cbn [negb].
      intros [= <- _]. contradiction. }
  rewrite (GetOrCreate_V1_exact env apiKey channelID model request w Hel).
  cbv zeta. set (key := key_V1 env channelID model request).
  unfold confirmed_handle, raw_handle.
  destruct (stored_value env key w) as [v |] eqn:Hst.
  - destruct (verified env apiKey v).
    + intros [= -> <-]. split; [reflexivity |].
      rewrite (stored_value_same_store env key w _) by apply after_lookup_store.
      exact Hst.
    + destruct (CacheV1.CreateGeminiCache env apiKey model request
                  (hash_V1 env model request)
                  (after_lookup env apiKey key (fun v0 => v0) w))
        as [[n [e |]] w2 | msg w2]; try discriminate.
      intros [= -> <-]. split; [reflexivity |].
      now apply stored_value_after_remember.
  - destruct (CacheV1.CreateGeminiCache env apiKey model request
                (hash_V1 env model request)
                (after_lookup env apiKey key (fun v0 => v0) w))
      as [[n [e |]] w2 | msg w2]; try discriminate.
    intros [= -> <-]. split; [reflexivity |].
    now apply stored_value_after_remember.
Qed.

(** X2.  A second call finds what the first one left.  With Redis enabled
    and reachable, once a call of cache.go has returned a handle that is not
    empty, a repeated call with the same arguments returns the same handle,
    provided the upstream confirms it, after one read of the store and one
    GET: it creates nothing and writes nothing. *)
Theorem GetOrCreate_V1_second_call_reuses :
  forall (env : Env) (apiKey : string) (channelID : Z) (model : string)
         (request : GeminiChatRequest) (newID : string) (w w' : World),
    RedisEnabled env = true ->
    redis_up env = true ->
    newID <> "" ->
    verified env apiKey newID = true ->
    CacheV1.GetOrCreateGeminiCache env apiKey channelID model request w
    = Returns (newID, None) w' ->
    CacheV1.GetOrCreateGeminiCache env apiKey channelID model request w'
    = Returns (newID, None)
        (emit (EvHttpGet (lookup_url apiKey newID))
           (emit (EvRedisGet (key_V1 env channelID model request)) w')).
Proof.
  intros env apiKey channelID model request newID w w' Hen Hup Hne Hver Hfirst.
  destruct (GetOrCreate_V1_leaves_handle_stored env apiKey channelID model request
              newID w w' Hen Hup Hne Hfirst) as (Hel & Hst).
  rewrite (GetOrCreate_V1_exact env apiKey channelID model request w' Hel).
  cbv zeta. unfold confirmed_handle, after_lookup, raw_handle.
  now rewrite Hen, Hst, Hver.
Qed.

(** A first call that creates, then the repeated call. *)
Lemma GetOrCreate_V1_second_call_reuses_witness :
  CacheV1.GetOrCreateGeminiCache env_live "k" 5 "gemini-2.5-pro" long_request
    (world_of (CacheV1.GetOrCreateGeminiCache env_live "k" 5 "gemini-2.5-pro"
                 long_request empty_world))
  = Returns ("cachedContents/new", None)
      (emit (EvHttpGet (lookup_url "k" "cachedContents/new"))
         (emit (EvRedisGet (key_V1 env_live 5 "gemini-2.5-pro" long_request))
            (world_of (CacheV1.GetOrCreateGeminiCache env_live "k" 5
                         "gemini-2.5-pro" long_request empty_world)))).
Proof.
  apply (GetOrCreate_V1_second_call_reuses env_live "k" 5 "gemini-2.5-pro"
           long_request "cachedContents/new" empty_world).
  - reflexivity.
  - reflexivity.
  - discriminate.
  - reflexivity.
  - vm_compute. reflexivity.
Defined.

(** X3.  The same round trip through the envelope of the later revision.
    Once a call has created a handle and written its envelope, a later call
    for the same request, from any channel and for any model name, returns
    that handle with created = false and zero tokens, provided the codec
    gives back what it wrapped and the upstream confirms the handle. *)
Theorem GetOrCreate_V2_second_call_reuses :
  forall (env : Env) (apiKey : string) (channelID channelID' : Z)
         (model model' : string) (request : GeminiChatRequest)
         (newID : string) (tokens : Z) (w w' : World),
    RedisEnabled env = true ->
    redis_up env = true ->
    envelope_round_trip env channelID newID ->
    verified env apiKey newID = true ->
    CacheV2.GetOrCreateGeminiCache env apiKey channelID model request w
    = Returns (newID, true, tokens, None) w' ->
    CacheV2.GetOrCreateGeminiCache env apiKey channelID' model' request w'
    = Returns (newID, false, 0, None)
        (emit (EvHttpGet (lookup_url apiKey newID))
           (emit (EvRedisGet (key_V2 env request)) w')).
Proof.
  intros env apiKey channelID channelID' model model' request newID tokens w w'
    Hen Hup (Hround & Hne) Hver Hfirst.
  destruct (SystemInstructions request) as [content |] eqn:Hsys.
  2:{ unfold CacheV2.GetOrCreateGeminiCache, bind in Hfirst.
      rewrite Hsys in Hfirst. discriminate. }
  destruct (CacheV2.ShouldEnableGeminiCache env model
              (Estimate.space_estimate_content content)) eqn:Hel.
  2:{ unfold CacheV2.GetOrCreateGeminiCache in Hfirst. unfold bind at 1 in Hfirst.
      rewrite Hsys, CountTokensFromParts_V2_closed_form, Hel in Hfirst.
      discriminate. }
  assert (Hst : stored_value env (key_V2 env request) w'
                = Some (json_Marshal env (CacheV2.envelope newID channelID))).
  { rewrite (GetOrCreate_V2_exact env apiKey channelID model request content w
               Hsys Hel) in Hfirst.
    cbv zeta in Hfirst.
    destruct (confirmed_handle env apiKey (key_V2 env request)
                (json_Unmarshal_cache_name env) w); [discriminate |].
    destruct (CacheV2.CreateGeminiCache env apiKey model request
                (hash_V2 env request) _) as [[n [e |]] w2 | msg w2];
      try discriminate.
    injection Hfirst as -> _ <-.
    now apply stored_value_after_remember. }
  assert (Hel' : CacheV2.ShouldEnableGeminiCache env model'
                   (Estimate.space_estimate_content content) = true)
    by exact Hel.
  pose proof (GetOrCreate_V2_hit env apiKey channelID'
                model' request content _ w' Hsys Hel' Hst) as H.
  rewrite Hround in H. now apply H.
Qed.

(** A creation through the envelope, then a call from another channel
    and for another model name. *)
Lemma GetOrCreate_V2_second_call_reuses_witness :
  CacheV2.GetOrCreateGeminiCache env_live "k" 9 "gemini-2.5-flash" long_request
    (world_of (CacheV2.GetOrCreateGeminiCache env_live "k" 5 "gemini-2.5-pro"
                 long_request empty_world))
  = Returns ("cachedContents/new", false, 0, None)
      (emit (EvHttpGet (lookup_url "k" "cachedContents/new"))
         (emit (EvRedisGet (key_V2 env_live long_request))
            (world_of (CacheV2.GetOrCreateGeminiCache env_live "k" 5
                         "gemini-2.5-pro" long_request empty_world)))).
Proof.
  apply (GetOrCreate_V2_second_call_reuses env_live "k" 5 9 "gemini-2.5-pro"
           "gemini-2.5-flash" long_request "cachedContents/new" 4096 empty_world).
  - reflexivity.
  - reflexivity.
  - split; [reflexivity | discriminate].
  - reflexivity.
  - vm_compute. reflexivity.
Defined.

(** X4.  A request that is not eligible costs nothing.  With caching
    disabled, or with an estimate below 4096, cache.go returns the empty
    handle and a nil error and leaves the world as it was: no read of the
    store, no HTTP call.  The later revision does the same for a request
    that has a system instruction; for a request without one it panics,
    whatever the configuration and the estimate, and it too leaves the
    world as it was. *)
Theorem GetOrCreate_untouched_when_not_eligible :
  forall (env : Env) (apiKey : string) (channelID : Z) (model : string)
         (request : GeminiChatRequest) (w : World),
    (EnableCache env = false
     \/ Estimate.space_estimate (Contents request) < 4096 ->
     CacheV1.GetOrCreateGeminiCache env apiKey channelID model request w
     = Returns ("", None) w)
    /\ (forall content : GeminiChatContent,
          SystemInstructions request = Some content ->
          EnableCache env = false
          \/ Estimate.space_estimate_content content < 4096 ->
          CacheV2.GetOrCreateGeminiCache env apiKey channelID model request w
          = Returns ("", false, 0, None) w)
    /\ (SystemInstructions request = None ->
        CacheV2.GetOrCreateGeminiCache env apiKey channelID model request w
        = Panics "runtime error: invalid memory address or nil pointer dereference" w).
Proof.
  intros env apiKey channelID model request w. split; [| split].
  - intros Hno.
    assert (Hel : CacheV1.ShouldEnableGeminiCache env model (Contents request)
                  = false).
    { rewrite ShouldEnable_V1_eq. destruct Hno as [-> | Hlt]; [reflexivity |].
      destruct (Z.leb_spec 4096 (Estimate.space_estimate (Contents request)));
        [lia | apply andb_false_r]. }
    unfold CacheV1.GetOrCreateGeminiCache. now rewrite Hel.
  - intros content Hsys Hno.
    assert (Hel : CacheV2.ShouldEnableGeminiCache env model
                    (Estimate.space_estimate_content content) = false).
    { rewrite ShouldEnable_V2_eq. destruct Hno as [-> | Hlt]; [reflexivity |].
      destruct (Z.leb_spec 4096 (Estimate.space_estimate_content content));
        [lia | apply andb_false_r]. }
    unfold CacheV2.GetOrCreateGeminiCache. unfold bind at 1.
    now rewrite Hsys, CountTokensFromParts_V2_closed_form, Hel.
  - intros Hsys.
    unfold CacheV2.GetOrCreateGeminiCache. unfold bind at 1.
    now rewrite Hsys.
Qed.

Lemma GetOrCreate_untouched_when_not_eligible_witness :
  CacheV1.GetOrCreateGeminiCache env_live "k" 5 "gemini-2.5-pro" short_request
    live_world
  = Returns ("", None) live_world
  /\ CacheV2.GetOrCreateGeminiCache env_disabled "k" 5 "gemini-2.5-pro" long_request
       live_world
     = Returns ("", false, 0, None) live_world
  /\ CacheV2.GetOrCreateGeminiCache env_disabled "k" 5 "gemini-2.5-pro" bare_request
       live_world
     = Panics "runtime error: invalid memory address or nil pointer dereference"
         live_world.
Proof.
  split; [| split].
  - apply (proj1 (GetOrCreate_untouched_when_not_eligible env_live "k" 5
                    "gemini-2.5-pro" short_request live_world)).
    right. vm_compute. reflexivity.
  - apply (proj1 (proj2 (GetOrCreate_untouched_when_not_eligible env_disabled "k" 5
                           "gemini-2.5-pro" long_request live_world)) blank_content).
    + reflexivity.
    + left. reflexivity.
  - apply (proj2 (proj2 (GetOrCreate_untouched_when_not_eligible env_disabled "k" 5
                           "gemini-2.5-pro" bare_request live_world))).
    reflexivity.
Defined.

(** The store after a call is the store before it, or that store with the
    key of the call bound to a value for one hour. *)
Lemma GetOrCreate_V1_store
    (env : Env) (apiKey : string) (channelID : Z) (model : string)
    (request : GeminiChatRequest) (w : World) :
  let out := CacheV1.GetOrCreateGeminiCache env apiKey channelID model request w in
  store (world_of out) = store w
  \/ (RedisEnabled env = true
      /\ exists v, store (world_of out)
                   = <[key_V1 env channelID model request := (v, time_Hour)]> (store w)).
Proof.
  cbv zeta.
  destruct (CacheV1.ShouldEnableGeminiCache env model (Contents request)) eqn:Hel.
  2:{ left. unfold CacheV1.GetOrCreateGeminiCache. now rewrite Hel. }
  rewrite (GetOrCreate_V1_exact env apiKey channelID model request w Hel).
  cbv zeta. set (key := key_V1 env channelID model request).
  set (w1 := after_lookup env apiKey key raw_handle w).
  assert (Hw1 : store w1 = store w) by apply after_lookup_store.
  destruct (confirmed_handle env apiKey key raw_handle w); [now left |].
  pose proof (CreateGeminiCache_V1_store env apiKey model request
                (hash_V1 env model request) w1) as Hc.
  destruct (CacheV1.CreateGeminiCache env apiKey model request
              (hash_V1 env model request) w1) as [[n [e |]] w2 | msg w2];
    cbn [world_of] in *; try (left; congruence).
  rewrite remember_store.
  destruct (RedisEnabled env); cbn [andb]; [| left; congruence].
  destruct (redis_up env); [| left; congruence].
  right. split; [reflexivity |]. exists n. congruence.
Qed.

Lemma GetOrCreate_V2_store
    (env : Env) (apiKey : string) (channelID : Z) (model : string)
    (request : GeminiChatRequest) (w : World) :
  let out := CacheV2.GetOrCreateGeminiCache env apiKey channelID model request w in
  store (world_of out) = store w
  \/ (RedisEnabled env = true
      /\ exists v, store (world_of out)
                   = <[key_V2 env request := (v, time_Hour)]> (store w)).
Proof.
  cbv zeta.
  destruct (SystemInstructions request) as [content |] eqn:Hsys.
  2:{ left. unfold CacheV2.GetOrCreateGeminiCache, bind. now rewrite Hsys. }
  destruct (CacheV2.ShouldEnableGeminiCache env model
              (Estimate.space_estimate_content content)) eqn:Hel.
  2:{ left. unfold CacheV2.GetOrCreateGeminiCache. unfold bind at 1.
      now rewrite Hsys, CountTokensFromParts_V2_closed_form, Hel. }
  rewrite (GetOrCreate_V2_exact env apiKey channelID model request content w
             Hsys Hel).
  cbv zeta. set (key := key_V2 env request).
  set (w1 := after_lookup env apiKey key (json_Unmarshal_cache_name env) w).
  assert (Hw1 : store w1 = store w) by apply after_lookup_store.
  destruct (confirmed_handle env apiKey key (json_Unmarshal_cache_name env) w);
    [now left |].
  pose proof (CreateGeminiCache_V2_store env apiKey model request
                (hash_V2 env request) w1) as Hc.
  destruct (CacheV2.CreateGeminiCache env apiKey model request
              (hash_V2 env request) w1) as [[n [e |]] w2 | msg w2];
    cbn [world_of] in *; try (left; congruence).
  rewrite remember_store.
  destruct (RedisEnabled env); cbn [andb]; [| left; congruence].
  destruct (redis_up env); [| left; congruence].
  right. split; [reflexivity |]. eexists. now rewrite Hc, Hw1.
Qed.

(** X5.  A call keeps to its own key.  Whatever the request and whatever
    the upstream answers, every other key of the store holds after the call
    what it held before, and the key of the call is either unchanged or
    bound with a time-to-live of one hour; with Redis not enabled the store
    is not changed at all. *)
Theorem GetOrCreate_writes_only_its_key :
  forall (env : Env) (apiKey : string) (channelID : Z) (model : string)
         (request : GeminiChatRequest) (w : World),
    let out1 := CacheV1.GetOrCreateGeminiCache env apiKey channelID model request w in
    let out2 := CacheV2.GetOrCreateGeminiCache env apiKey channelID model request w in
    (forall k : string,
       k <> key_V1 env channelID model request ->
       store (world_of out1) !! k = store w !! k)
    /\ (store (world_of out1) !! key_V1 env channelID model request
        = store w !! key_V1 env channelID model request
        \/ exists v, store (world_of out1) !! key_V1 env channelID model request
                     = Some (v, time_Hour))
    /\ (forall k : string,
          k <> key_V2 env request ->
          store (world_of out2) !! k = store w !! k)
    /\ (store (world_of out2) !! key_V2 env request = store w !! key_V2 env request
        \/ exists v, store (world_of out2) !! key_V2 env request
                     = Some (v, time_Hour))
    /\ (RedisEnabled env = false ->
        store (world_of out1) = store w /\ store (world_of out2) = store w).
Proof.
  intros env apiKey channelID model request w out1 out2.
  pose proof (GetOrCreate_V1_store env apiKey channelID model request w) as H1.
  pose proof (GetOrCreate_V2_store env apiKey channelID model request w) as H2.
  cbv zeta in H1, H2. fold out1 in H1. fold out2 in H2.
  repeat split.
  - intros k Hk. destruct H1 as [-> | (_ & v & ->)]; [reflexivity |].
    now rewrite lookup_insert_ne.
  - destruct H1 as [-> | (_ & v & ->)]; [now left |].
    right. exists v. apply lookup_insert_eq.
  - intros k Hk. destruct H2 as [-> | (_ & v & ->)]; [reflexivity |].
    now rewrite lookup_insert_ne.
  - destruct H2 as [-> | (_ & v & ->)]; [now left |].
    right. exists v. apply lookup_insert_eq.
  - destruct H1 as [H1 | (Hen & _)]; [exact H1 | congruence].
  - destruct H2 as [H2 | (Hen & _)]; [exact H2 | congruence].
Qed.

Lemma GetOrCreate_writes_only_its_key_witness :
  store (world_of (CacheV1.GetOrCreateGeminiCache env0 "k" 5 "gemini-2.5-pro"
                     long_request stale_world)) !! "gemini_cache:h"
  = store stale_world !! "gemini_cache:h"
  /\ store (world_of (CacheV2.GetOrCreateGeminiCache env0 "k" 5 "gemini-2.5-pro"
                        long_request stale_world)) !! "gemini_cache:%!s(int=5):h"
     = store stale_world !! "gemini_cache:%!s(int=5):h"
  /\ store (world_of (CacheV1.GetOrCreateGeminiCache env_no_redis "k" 5
                        "gemini-2.5-pro" long_request stale_world))
     = store stale_world.
Proof.
  destruct (GetOrCreate_writes_only_its_key env0 "k" 5 "gemini-2.5-pro"
              long_request stale_world) as (H1 & _ & H2 & _).
  destruct (GetOrCreate_writes_only_its_key env_no_redis "k" 5 "gemini-2.5-pro"
              long_request stale_world) as (_ & _ & _ & _ & H3).
  split; [| split].
  - apply H1. vm_compute. discriminate.
  - apply H2. vm_compute. discriminate.
  - apply H3. reflexivity.
Defined.



End CacheExact.

(** ** The creation a call falls through to *)

Section UnverifiedHandle.
Import GoStrings Gemini CacheSpec CacheWorlds Creation Samples.
Local Open Scope go_scope.













End UnverifiedHandle.

Section CacheInputs.
Import GoStrings Gemini CacheSpec CacheWorlds Estimate Samples.

Lemma sumZ_app (l1 l2 : list Z) : sumZ (l1 ++ l2) = sumZ l1 + sumZ l2.
Proof.
  induction l1 as [| x l1 IH]; [reflexivity |].
  change (sumZ (x :: (l1 ++ l2)) = sumZ (x :: l1) + sumZ l2).
  rewrite !sumZ_cons, IH. lia.
Qed.

Lemma space_estimate_part_nonneg (part : GeminiPart) : 0 <= space_estimate_part part.
Proof. unfold space_estimate_part. destruct (Text part); lia. Qed.

Lemma sumZ_map_nonneg {A : Type} (f : A -> Z) (l : list A) :
  (forall x, 0 <= f x) -> 0 <= sumZ (map f l).
Proof.
  intros Hf. induction l as [| x l IH]; [reflexivity |].
  cbn [map]. rewrite sumZ_cons. specialize (Hf x). lia.
Qed.

Lemma space_estimate_content_nonneg (content : GeminiChatContent) :
  0 <= space_estimate_content content.
Proof. apply sumZ_map_nonneg, space_estimate_part_nonneg. Qed.

Lemma space_estimate_nonneg (contents : list GeminiChatContent) :
  0 <= space_estimate contents.
Proof. apply sumZ_map_nonneg, space_estimate_content_nonneg. Qed.

(** X7.  The estimate of cache.go adds up over the contents and never
    goes down, so a conversation that is eligible stays eligible however it
    is extended, before or after. *)
Theorem CountTokensFromParts_additive :
  forall (env : Env) (model : string) (before contents after : list GeminiChatContent),
    CacheV1.CountTokensFromParts (before ++ contents ++ after)
    = CacheV1.CountTokensFromParts before
      + CacheV1.CountTokensFromParts contents
      + CacheV1.CountTokensFromParts after
    /\ 0 <= CacheV1.CountTokensFromParts contents
    /\ (CacheV1.ShouldEnableGeminiCache env model contents = true ->
        CacheV1.ShouldEnableGeminiCache env model (before ++ contents ++ after) = true).
Proof.
  intros env model before contents after.
  rewrite !CountTokensFromParts_V1_closed_form.
  assert (Hsum : space_estimate (before ++ contents ++ after)
                 = space_estimate before + space_estimate contents
                   + space_estimate after).
  { unfold space_estimate. rewrite !map_app, !sumZ_app. lia. }
  split; [exact Hsum |]. split; [apply space_estimate_nonneg |].
  rewrite !ShouldEnable_V1_eq, Hsum.
  intros H. apply andb_true_iff in H as [-> H]. cbn [andb].
  apply Z.leb_le in H. apply Z.leb_le.
  pose proof (space_estimate_nonneg before).
  pose proof (space_estimate_nonneg after). lia.
Qed.

Lemma CountTokensFromParts_additive_witness :
  CacheV1.ShouldEnableGeminiCache env0 "gemini-2.5-pro"
    ([short_content] ++ [blank_content] ++ [short_content]) = true.
Proof.
  apply (proj2 (proj2 (CountTokensFromParts_additive env0 "gemini-2.5-pro"
                         [short_content] [blank_content] [short_content]))).
  vm_compute. reflexivity.
Defined.

(** *** What the key of cache.go depends on *)

(** The prompt read by the loop that runs down from the last content. *)
Lemma ExtractLastUserPromptText_snoc
    (contents : list GeminiChatContent) (c : GeminiChatContent)
    (sys sys' : option GeminiChatContent) :
  CacheV1.ExtractLastUserPromptText
    {| Contents := contents ++ [c]; SystemInstructions := sys |}
  = if String.eqb (Role c) "user"
    then String.concat "" (map CacheV1.part_prompt (Parts c))
    else CacheV1.ExtractLastUserPromptText
           {| Contents := contents; SystemInstructions := sys' |}.
Proof.
  unfold CacheV1.ExtractLastUserPromptText. cbn [Contents].
  rewrite rev_app_distr. cbn [rev app find].
  now destruct (String.eqb (Role c) "user").
Qed.

Lemma ExtractLastUserPromptText_last_user
    (history after : list GeminiChatContent) (c : GeminiChatContent)
    (sys : option GeminiChatContent) :
  String.eqb (Role c) "user" = true ->
  forallb (fun x => negb (String.eqb (Role x) "user")) after = true ->
  CacheV1.ExtractLastUserPromptText
    {| Contents := history ++ c :: after; SystemInstructions := sys |}
  = String.concat "" (map CacheV1.part_prompt (Parts c)).
Proof.
  intros Hc. revert after.
  induction after as [| x after IH] using rev_ind; intros Hafter.
  - rewrite (ExtractLastUserPromptText_snoc history c sys sys). now rewrite Hc.
  - rewrite forallb_app in Hafter. apply andb_true_iff in Hafter as [Ha Hx].
    cbn [forallb] in Hx. rewrite andb_true_r in Hx.
    replace (history ++ c :: after ++ [x])%list
      with ((history ++ c :: after) ++ [x])%list
      by (now rewrite <- app_assoc).
    rewrite (ExtractLastUserPromptText_snoc _ x sys sys).
    apply negb_true_iff in Hx. rewrite Hx. now apply IH.
Qed.

(** X8.  The key of cache.go is made of the channel, the model and the
    last content whose role is "user", and of nothing else: two requests
    that agree on these get the same key, whatever their system
    instructions, their earlier turns and the turns of other roles that
    follow. *)
Theorem key_V1_ignores_history :
  forall (env : Env) (channelID : Z) (model : string)
         (history history' after after' : list GeminiChatContent)
         (c : GeminiChatContent) (sys sys' : option GeminiChatContent),
    String.eqb (Role c) "user" = true ->
    forallb (fun x => negb (String.eqb (Role x) "user")) after = true ->
    forallb (fun x => negb (String.eqb (Role x) "user")) after' = true ->
    key_V1 env channelID model
      {| Contents := history ++ c :: after; SystemInstructions := sys |}
    = key_V1 env channelID model
        {| Contents := history' ++ c :: after'; SystemInstructions := sys' |}.
Proof.
  intros env channelID model history history' after after' c sys sys' Hc Ha Ha'.
  unfold key_V1, hash_V1.
  now rewrite !ExtractLastUserPromptText_last_user.
Qed.

Lemma key_V1_ignores_history_witness :
  key_V1 env0 5 "gemini-2.5-pro"
    {| Contents := [blank_content] ++ short_content :: [];
       SystemInstructions := Some blank_content |}
  = key_V1 env0 5 "gemini-2.5-pro"
      {| Contents := [] ++ short_content :: []; SystemInstructions := None |}.
Proof.
  apply (key_V1_ignores_history env0 5 "gemini-2.5-pro" [blank_content] [] [] []
           short_content (Some blank_content) None); reflexivity.
Defined.

Lemma string_of_uint_no_paren (d : Decimal.uint) :
  no_paren (NilEmpty.string_of_uint d) = true.
Proof. induction d; cbn; assumption || reflexivity. Qed.

Lemma Itoa_no_paren (z : Z) : no_paren (Itoa z) = true.
Proof.
  unfold Itoa, NilZero.string_of_int, NilZero.string_of_uint.
  destruct (Z.to_int z) as [d | d].
  - destruct d; try reflexivity; apply string_of_uint_no_paren.
  - cbn [no_paren].
    destruct d; try reflexivity; now rewrite string_of_uint_no_paren.
Qed.

Lemma to_int_not_nil (z : Z) :
  Z.to_int z <> Decimal.Pos Decimal.Nil /\ Z.to_int z <> Decimal.Neg Decimal.Nil.
Proof.
  split; intros H; pose proof (DecimalZ.of_to z) as Hz; rewrite H in Hz;
    cbn in Hz; subst z; discriminate H.
Qed.

Lemma Itoa_injective (a b : Z) : Itoa a = Itoa b -> a = b.
Proof.
  unfold Itoa. intros H.
  destruct (to_int_not_nil a) as [Ha1 Ha2].
  destruct (to_int_not_nil b) as [Hb1 Hb2].
  pose proof (NilZero.isi (Z.to_int a) Ha1 Ha2) as Ia.
  pose proof (NilZero.isi (Z.to_int b) Hb1 Hb2) as Ib.
  rewrite H, Ib in Ia. injection Ia as Ia.
  symmetry. now apply DecimalZ.to_int_inj.
Qed.

(** Two texts without a closing parenthesis, each followed by one, match
    only when they and what follows are equal. *)
Lemma split_at_paren (s1 s2 r1 r2 : string) :
  no_paren s1 = true -> no_paren s2 = true ->
  s1 ++ String ")" r1 = s2 ++ String ")" r2 ->
  s1 = s2 /\ r1 = r2.
Proof.
  revert s2; induction s1 as [| c s1 IH]; intros s2 H1 H2 Heq.
  - destruct s2 as [| c2 s2]; cbn in Heq.
    + now injection Heq as ->.
    + injection Heq as <- _. cbn in H2. discriminate.
  - destruct s2 as [| c2 s2]; cbn in Heq.
    + injection Heq as -> _. cbn in H1. discriminate.
    + injection Heq as -> Heq.
      cbn in H1, H2. apply andb_true_iff in H1 as [_ H1].
      apply andb_true_iff in H2 as [_ H2].
      destruct (IH s2 H1 H2 Heq) as [-> ->]. now split.
Qed.

(** X9.  The key of cache.go, misprinted as it is, still tells channels
    and hashes apart: two keys are equal only for the same channel id and
    the same hash, so the mappings of two channels never fall on one key. *)
Theorem redisKey_V1_injective :
  forall (channelID channelID' : Z) (hash hash' : string),
    CacheV1.redisKey channelID hash = CacheV1.redisKey channelID' hash' ->
    channelID = channelID' /\ hash = hash'.
Proof.
  intros a b h h'. unfold CacheV1.redisKey, Sprintf_s_int.
  rewrite !append_assoc. cbn [String.append].
  intros [= Heq].
  change (Itoa a ++ String ")" (":" ++ h) = Itoa b ++ String ")" (":" ++ h'))
    in Heq.
  destruct (split_at_paren _ _ _ _ (Itoa_no_paren a) (Itoa_no_paren b) Heq)
    as [Hi Hh].
  split; [now apply Itoa_injective |].
  now injection Hh.
Qed.

Lemma redisKey_V1_injective_witness :
  5 = 5 /\ "h" = "h".
Proof.
  apply (redisKey_V1_injective 5 5 "h" "h"). reflexivity.
Defined.



End CacheInputs.

(* ================================================================== *)
(** * Further properties of the adaptor *)

Section AdaptorFurther.
Import GoStrings Adaptor AdaptorMore AdaptorSamples.

Lemma prefix_nil (s : string) : String.prefix "" s = true.
Proof. now destruct s. Qed.

Lemma prefix_trans (a b c : string) :
  String.prefix a b = true -> String.prefix b c = true -> String.prefix a c = true.
Proof.
  revert b c; induction a as [| x a IH]; intros b c Hab Hbc; [apply prefix_nil |].
  destruct b as [| y b]; [discriminate |].
  destruct c as [| z c]; [discriminate |].
  rewrite prefix_cons in *.
  destruct (ascii_dec x y) as [-> |]; [| discriminate].
  destruct (ascii_dec y z) as [-> |]; [| discriminate].
  destruct (ascii_dec z z); [| congruence].
  eapply IH; eassumption.
Qed.

(** The first piece of a split, computed along the string. *)
Lemma first_part_cons (sep : string) (c : ascii) (s : string) :
  first_part (split_go sep 0 (String c s))
  = if HasPrefix (String c s) sep then EmptyString
    else String c (first_part (split_go sep 0 s)).
Proof.
  rewrite split_go_cons.
  destruct (HasPrefix (String c s) sep); [reflexivity |].
  now destruct (split_go sep 0 s).
Qed.

Lemma first_part_is_prefix (sep s : string) :
  String.prefix (first_part (split_go sep 0 s)) s = true.
Proof.
  induction s as [| c s IH]; [reflexivity |].
  rewrite first_part_cons.
  destruct (HasPrefix (String c s) sep); [reflexivity |].
  rewrite prefix_cons. now destruct (ascii_dec c c).
Qed.

Lemma prefix_self (s : string) : String.prefix s s = true.
Proof.
  induction s as [| c s IH]; [reflexivity |].
  rewrite prefix_cons. now destruct (ascii_dec c c).
Qed.

(** The first piece holds no separator. *)
Lemma first_part_has_no_separator (x : ascii) (sep' s : string) :
  Contains (first_part (split_go (String x sep') 0 s)) (String x sep') = false.
Proof.
  set (sep := String x sep').
  induction s as [| c s IH]; [reflexivity |].
  rewrite first_part_cons.
  destruct (HasPrefix (String c s) sep) eqn:Hpre; [reflexivity |].
  rewrite Contains_cons, IH, orb_false_r.
  destruct (HasPrefix (String c (first_part (split_go sep 0 s))) sep) eqn:E;
    [| reflexivity].
  rewrite <- Hpre. symmetry. unfold HasPrefix in *.
  eapply prefix_trans; [exact E |].
  rewrite prefix_cons. destruct (ascii_dec c c); [| congruence].
  apply first_part_is_prefix.
Qed.

Lemma drop_suffix_is_prefix (s suf : string) :
  String.prefix (drop_suffix s suf) s = true.
Proof.
  induction s as [| c s IH]; cbn [drop_suffix].
  - now destruct (String.eqb "" suf).
  - destruct (String.eqb (String c s) suf); [reflexivity |].
    rewrite prefix_cons. now destruct (ascii_dec c c).
Qed.

Lemma TrimSuffix_is_prefix (s suf : string) :
  String.prefix (TrimSuffix s suf) s = true.
Proof.
  unfold TrimSuffix. destruct (HasSuffix s suf);
    [apply drop_suffix_is_prefix | apply prefix_self].
Qed.

(** What a prefix contains, the whole contains. *)
Lemma Contains_of_prefix (p s sub : string) :
  String.prefix p s = true -> Contains p sub = true -> Contains s sub = true.
Proof.
  revert s; induction p as [| c p IH]; intros s Hps Hc.
  - cbn [Contains] in Hc. rewrite orb_false_r in Hc.
    destruct s as [| d s]; [cbn [Contains]; now rewrite orb_false_r |].
    rewrite Contains_cons. unfold HasPrefix in *.
    rewrite (prefix_trans sub "" (String d s) Hc (prefix_nil _)). reflexivity.
  - destruct s as [| d s]; [discriminate |].
    rewrite prefix_cons in Hps. destruct (ascii_dec c d) as [<- |]; [| discriminate].
    rewrite Contains_cons in *. apply orb_true_iff in Hc as [Hc | Hc].
    + unfold HasPrefix in *.
      rewrite (prefix_trans sub (String c p) (String c s) Hc); [reflexivity |].
      rewrite prefix_cons. now destruct (ascii_dec c c).
    + rewrite (IH s Hps Hc). apply orb_true_r.
Qed.

(** X11.  Stripping only shortens.  The upstream model name after
    [GetRequestURL] is always a prefix of the name before it, the other
    fields of the relay context are left alone, and with the thinking
    adapter enabled the name that goes into the URL never holds
    "-thinking-". *)
Theorem GetRequestURL_resolved_name :
  forall (settings : GeminiSettings) (info : RelayInfo),
    let info' := fst (GetRequestURL settings info) in
    HasPrefix (UpstreamModelName info) (UpstreamModelName info') = true
    /\ OriginModelName info' = OriginModelName info
    /\ BaseUrl info' = BaseUrl info
    /\ IsStream info' = IsStream info
    /\ (ThinkingAdapterEnabled settings = true ->
        Contains (UpstreamModelName info') "-thinking-" = false).
Proof.
  intros settings info. cbv zeta. unfold GetRequestURL. cbn [fst].
  unfold strip_thinking, HasPrefix.
  destruct (ThinkingAdapterEnabled settings).
  2:{ repeat split; try apply prefix_self. discriminate. }
  destruct (Contains (UpstreamModelName info) "-thinking-") eqn:Hc.
  { cbn [set_UpstreamModelName UpstreamModelName OriginModelName BaseUrl IsStream].
    repeat split.
    - apply first_part_is_prefix.
    - intros _. apply first_part_has_no_separator. }
  assert (Htrim : forall suf,
            Contains (TrimSuffix (UpstreamModelName info) suf) "-thinking-" = false).
  { intros suf.
    destruct (Contains (TrimSuffix (UpstreamModelName info) suf) "-thinking-")
      eqn:E; [| reflexivity].
    rewrite <- Hc. symmetry.
    eapply Contains_of_prefix; [apply TrimSuffix_is_prefix | exact E]. }
  destruct (HasSuffix (UpstreamModelName info) "-thinking").
  { cbn [set_UpstreamModelName UpstreamModelName OriginModelName BaseUrl IsStream].
    repeat split; [apply TrimSuffix_is_prefix | intros _; apply Htrim]. }
  destruct (HasSuffix (UpstreamModelName info) "-nothinking").
  { cbn [set_UpstreamModelName UpstreamModelName OriginModelName BaseUrl IsStream].
    repeat split; [apply TrimSuffix_is_prefix | intros _; apply Htrim]. }
  repeat split; [apply prefix_self | intros _; exact Hc].
Qed.

Lemma GetRequestURL_resolved_name_witness :
  Contains
    (UpstreamModelName
       (fst (GetRequestURL settings_on (info_for "x-thinking-64-thinking-8"))))
    "-thinking-" = false.
Proof.
  apply (GetRequestURL_resolved_name settings_on (info_for "x-thinking-64-thinking-8")).
  reflexivity.
Defined.

(** X12.  The URL and the handler agree.  Outside the native mode, the
    action [GetRequestURL] puts after the colon is the one of the handler
    [DoResponse] will choose for the same relay context: predict for the
    image handler, embedContent for the embedding handler, and the
    streaming or plain generateContent for the chat handlers; the URL comes
    with a nil error.  In the native mode the handler follows the streaming
    flag alone, and the agreement holds for the models that are neither
    image nor embedding models. *)
Theorem GetRequestURL_matches_DoResponse :
  forall (settings : GeminiSettings) (native : bool) (info : RelayInfo),
    let info' := fst (GetRequestURL settings info) in
    native = false
    \/ (HasPrefix (UpstreamModelName info') "imagen" = false
        /\ is_embedding_family (UpstreamModelName info') = false) ->
    snd (GetRequestURL settings info)
    = (models_prefix settings info' ++ action_of (DoResponse_route native info'),
       None).
Proof.
  intros settings native info. cbv zeta. unfold GetRequestURL. cbn [fst snd].
  set (info' := strip_thinking settings info).
  unfold endpoint, models_prefix, DoResponse_route, is_embedding_family.
  intros [-> | [Himg Hemb]].
  - destruct (HasPrefix (UpstreamModelName info') "imagen"); [reflexivity |].
    destruct (HasPrefix (UpstreamModelName info') "text-embedding"
              || HasPrefix (UpstreamModelName info') "embedding"
              || HasPrefix (UpstreamModelName info') "gemini-embedding");
      [reflexivity |].
    now destruct (IsStream info').
  - unfold is_embedding_family in Hemb. rewrite Himg, Hemb.
    destruct native; now destruct (IsStream info').
Qed.

Lemma GetRequestURL_matches_DoResponse_witness :
  snd (GetRequestURL settings_on (info_for "imagen-3.0-generate-002"))
  = (models_prefix settings_on
       (fst (GetRequestURL settings_on (info_for "imagen-3.0-generate-002")))
     ++ action_of
          (DoResponse_route false
             (fst (GetRequestURL settings_on (info_for "imagen-3.0-generate-002")))),
     None).
Proof.
  apply (GetRequestURL_matches_DoResponse settings_on false
           (info_for "imagen-3.0-generate-002")).
  left. reflexivity.
Defined.

(** In the native mode an image model is sent to predict and answered by
    the text handler. *)
Example native_mode_ignores_the_model_family :
  snd (GetRequestURL settings_on (info_for "imagen-3.0-generate-002"))
  = ("https://g/v1beta/models/imagen-3.0-generate-002:predict", None)
  /\ DoResponse_route true (info_for "imagen-3.0-generate-002")
     = GeminiTextGenerationHandler.
Proof. split; reflexivity. Qed.

(** X13.  The image conversion accepts exactly the models that
    [DoResponse] hands to the image handler outside the native mode, and
    fails for every other model with "not supported model for image
    generation".  When it succeeds the request has one instance with the
    prompt, the sample count asked for, person generation "allow_adult" and
    an aspect ratio that is "9:16" for 1024x1792, "16:9" for 1792x1024 and
    "1:1" for every other size, known or not. *)
Theorem ConvertImageRequest_accepts_image_models :
  forall (info : RelayInfo) (request : ImageRequest),
    ((exists r, ConvertImageRequest info request = Ok r)
     <-> DoResponse_route false info = ImageHandler)
    /\ (DoResponse_route false info <> ImageHandler ->
        ConvertImageRequest info request
        = Err (errors_New "not supported model for image generation"))
    /\ (forall r, ConvertImageRequest info request = Ok r ->
          Instances r = [ {| inst_Prompt := img_Prompt request |} ]
          /\ SampleCount (Parameters r) = img_N request
          /\ PersonGeneration (Parameters r) = "allow_adult"
          /\ AspectRatio (Parameters r)
             = (if String.eqb (img_Size request) "1024x1792" then "9:16"
                else if String.eqb (img_Size request) "1792x1024" then "16:9"
                else "1:1")).
Proof.
  intros info request.
  unfold ConvertImageRequest, DoResponse_route.
  destruct (HasPrefix (UpstreamModelName info) "imagen"); cbn [negb].
  - split; [split; [reflexivity | intros _; now eexists] |].
    split; [congruence |].
    intros r [= <-]. cbn. repeat split.
    destruct (String.eqb (img_Size request) "1024x1024") eqn:E; [| reflexivity].
    apply String.eqb_eq in E. now rewrite E.
  - split.
    + split; [intros (r & [=]) |].
      destruct (is_embedding_family (UpstreamModelName info));
        [discriminate | destruct (IsStream info); discriminate].
    + split; [reflexivity | intros r [=]].
Qed.

Lemma ConvertImageRequest_accepts_image_models_witness :
  ConvertImageRequest (info_for "gemini-2.5-pro")
    {| img_Prompt := "a cat"; img_N := 2; img_Size := "512x512" |}
  = Err (errors_New "not supported model for image generation")
  /\ AspectRatio
       (Parameters
          {| Instances := [ {| inst_Prompt := "a cat" |} ];
             Parameters := {| SampleCount := 2; AspectRatio := "1:1";
                              PersonGeneration := "allow_adult" |} |})
     = (if String.eqb "512x512" "1024x1792" then "9:16"
        else if String.eqb "512x512" "1792x1024" then "16:9" else "1:1").
Proof.
  split.
  - apply (proj1 (proj2 (ConvertImageRequest_accepts_image_models
                           (info_for "gemini-2.5-pro")
                           {| img_Prompt := "a cat"; img_N := 2;
                              img_Size := "512x512" |}))).
    discriminate.
  - apply (proj2 (proj2 (ConvertImageRequest_accepts_image_models
                           (info_for "imagen-3.0-generate-002")
                           {| img_Prompt := "a cat"; img_N := 2;
                              img_Size := "512x512" |}))).
    reflexivity.
Defined.

(** X14.  The embedding conversion fails on a nil input ("input is
    required") and on an input that parses to nothing ("input is empty");
    otherwise it embeds the first parsed input and drops the others, and it
    sets the output dimensionality only for "text-embedding-004" and only
    to a positive number of dimensions. *)
Theorem ConvertEmbeddingRequest_first_input_only :
  forall (ParseInput : EmbeddingRequest -> list string)
         (info : RelayInfo) (request : EmbeddingRequest),
    (emb_Input request = None ->
     ConvertEmbeddingRequest ParseInput info request
     = Err (errors_New "input is required"))
    /\ (emb_Input request <> None -> ParseInput request = [] ->
        ConvertEmbeddingRequest ParseInput info request
        = Err (errors_New "input is empty"))
    /\ (forall first rest,
          emb_Input request <> None -> ParseInput request = first :: rest ->
          exists r,
            ConvertEmbeddingRequest ParseInput info request = Ok r
            /\ map Gemini.Text (Gemini.Parts (emb_Content r)) = [first]
            /\ (UpstreamModelName info <> "text-embedding-004" ->
                OutputDimensionality r = 0)
            /\ (emb_Dimensions request <= 0 -> OutputDimensionality r = 0)
            /\ (UpstreamModelName info = "text-embedding-004" ->
                0 < emb_Dimensions request ->
                OutputDimensionality r = emb_Dimensions request)).
Proof.
  intros ParseInput info request. unfold ConvertEmbeddingRequest.
  destruct (emb_Input request) as [input |]; repeat split; try congruence.
  - intros _ ->. reflexivity.
  - intros first rest _ ->. eexists. split; [reflexivity |].
    cbn [emb_Content OutputDimensionality Gemini.Parts Gemini.Text map].
    split; [reflexivity |].
    destruct (String.eqb_spec (UpstreamModelName info) "text-embedding-004");
      destruct (Z.ltb_spec 0 (emb_Dimensions request));
      repeat split; intros; try reflexivity; try congruence; lia.
Qed.

Lemma ConvertEmbeddingRequest_first_input_only_witness :
  ConvertEmbeddingRequest (fun _ => []) (info_for "text-embedding-004")
    {| emb_Input := None; emb_Model := "text-embedding-004"; emb_Dimensions := 8 |}
  = Err (errors_New "input is required")
  /\ ConvertEmbeddingRequest (fun _ => []) (info_for "text-embedding-004")
       {| emb_Input := Some (InputStrings []); emb_Model := "text-embedding-004";
          emb_Dimensions := 8 |}
     = Err (errors_New "input is empty")
  /\ exists r,
       ConvertEmbeddingRequest (fun _ => ["a"; "b"]) (info_for "text-embedding-004")
         {| emb_Input := Some (InputStrings ["a"; "b"]);
            emb_Model := "text-embedding-004"; emb_Dimensions := 8 |} = Ok r
       /\ map Gemini.Text (Gemini.Parts (emb_Content r)) = ["a"]
       /\ (UpstreamModelName (info_for "text-embedding-004") <> "text-embedding-004" ->
           OutputDimensionality r = 0)
       /\ (8 <= 0 -> OutputDimensionality r = 0)
       /\ (UpstreamModelName (info_for "text-embedding-004") = "text-embedding-004" ->
           0 < 8 -> OutputDimensionality r = 8).
Proof.
  split; [| split].
  - apply (proj1 (ConvertEmbeddingRequest_first_input_only (fun _ => [])
                    (info_for "text-embedding-004")
                    {| emb_Input := None; emb_Model := "text-embedding-004";
                       emb_Dimensions := 8 |})).
    reflexivity.
  - apply (proj1 (proj2 (ConvertEmbeddingRequest_first_input_only (fun _ => [])
                           (info_for "text-embedding-004")
                           {| emb_Input := Some (InputStrings []);
                              emb_Model := "text-embedding-004";
                              emb_Dimensions := 8 |}))).
    + discriminate.
    + reflexivity.
  - apply (proj2 (proj2 (ConvertEmbeddingRequest_first_input_only
                           (fun _ => ["a"; "b"]) (info_for "text-embedding-004")
                           {| emb_Input := Some (InputStrings ["a"; "b"]);
                              emb_Model := "text-embedding-004";
                              emb_Dimensions := 8 |})) "a" ["b"]).
    + discriminate.
    + reflexivity.
Defined.

End AdaptorFurther.

(* ================================================================== *)
(** * Further properties of the channel tester *)

(** ** The test request *)

Section TestRequestProperties.
Import GoStrings TestRequest ChannelTestSpec.

Variable ToLower : string -> string.
Variable GetSystemRoleName : GeneralOpenAIRequest -> string.

Lemma Contains_weaken (s a b : string) :
  String.prefix a b = true -> Contains s b = true -> Contains s a = true.
Proof.
  intros Hab; induction s as [| c s IH]; intros H.
  - cbn [Contains] in *. rewrite orb_false_r in *. unfold HasPrefix in *.
    now apply (prefix_trans a b).
  - rewrite Contains_cons in *. apply orb_true_iff in H as [H | H].
    + apply orb_true_iff; left. unfold HasPrefix in *.
      now apply (prefix_trans a b).
    + apply orb_true_iff; right. now apply IH.
Qed.

(** The first test of [isEmbeddingModel] is covered by the last one. *)
Lemma isEmbeddingModel_eq (m : string) :
  isEmbeddingModel ToLower m
  = HasPrefix m "m3e" || Contains m "bge-" || Contains (ToLower m) "embed".
Proof.
  unfold isEmbeddingModel.
  destruct (Contains (ToLower m) "embedding") eqn:E; [| reflexivity].
  rewrite (Contains_weaken (ToLower m) "embed" "embedding" eq_refl E).
  now rewrite !orb_true_r.
Qed.

(** X15. For a model that [buildTestRequest] takes for an embedding model
    (a name that starts with m3e, contains bge-, or contains embed once
    lowered), the request holds the model name and the single input
    hello world and nothing else: no message, no token limit, no
    temperature, whatever the kind of test asked for. *)
Theorem buildTestRequest_embedding_models (m t : string) :
  HasPrefix m "m3e" = true \/ Contains m "bge-" = true
  \/ Contains (ToLower m) "embed" = true ->
  buildTestRequest ToLower GetSystemRoleName m t = embedding_request m.
Proof.
  intros H. unfold buildTestRequest. rewrite isEmbeddingModel_eq.
  assert (HasPrefix m "m3e" || Contains m "bge-" || Contains (ToLower m) "embed" = true)
    as ->.
  { destruct H as [-> | [-> | ->]]; rewrite ?orb_true_r; reflexivity. }
  reflexivity.
Qed.

(** X16. The token limits of a test request: at most one of MaxTokens and
    MaxCompletionTokens is set and together they never exceed 128;
    MaxCompletionTokens is set only for names that start with o, and is
    then 32; 128 is given only to names that contain gemini and not
    thinking. *)
Theorem buildTestRequest_token_limits (m t : string) :
  (MaxTokens (buildTestRequest ToLower GetSystemRoleName m t) = 0
   \/ MaxCompletionTokens (buildTestRequest ToLower GetSystemRoleName m t) = 0)
  /\ 0 <= MaxTokens (buildTestRequest ToLower GetSystemRoleName m t)
          + MaxCompletionTokens (buildTestRequest ToLower GetSystemRoleName m t) <= 128
  /\ (MaxCompletionTokens (buildTestRequest ToLower GetSystemRoleName m t) <> 0 ->
      HasPrefix m "o" = true
      /\ MaxCompletionTokens (buildTestRequest ToLower GetSystemRoleName m t) = 32)
  /\ (MaxTokens (buildTestRequest ToLower GetSystemRoleName m t) = 128 ->
      Contains m "gemini" = true /\ Contains m "thinking" = false).
Proof.
  unfold buildTestRequest.
  destruct (isEmbeddingModel ToLower m); [cbn; repeat split; intros; lia |].
  destruct (HasPrefix m "o") eqn:Ho, (Contains m "thinking") eqn:Hth,
    (Contains m "claude") eqn:Hc, (Contains m "gemini") eqn:Hg,
    (String.eqb (ToLower t) "json"), (String.eqb (ToLower t) "function");
    cbn; repeat split; intros; try lia; try discriminate; auto.
Qed.

(** X17. For a model that is not an embedding model the request carries
    the model name, a zero temperature and no input; its last message is a
    user message; it never holds both tools and a response format, tools
    come with the tool choice required, and a kind that lowers to neither
    json nor function gives the single user message hi. *)
Theorem buildTestRequest_chat_models (m t : string) :
  isEmbeddingModel ToLower m = false ->
  Model (buildTestRequest ToLower GetSystemRoleName m t) = m
  /\ Input (buildTestRequest ToLower GetSystemRoleName m t) = None
  /\ Temperature (buildTestRequest ToLower GetSystemRoleName m t) = Some (S754_zero false)
  /\ (exists init content,
        Messages (buildTestRequest ToLower GetSystemRoleName m t)
        = (init ++ [user_message content])%list)
  /\ (ResponseFormat_ (buildTestRequest ToLower GetSystemRoleName m t) = None
      \/ Tools (buildTestRequest ToLower GetSystemRoleName m t) = [])
  /\ (Tools (buildTestRequest ToLower GetSystemRoleName m t) = []
      /\ ToolChoice (buildTestRequest ToLower GetSystemRoleName m t) = None
      \/ Tools (buildTestRequest ToLower GetSystemRoleName m t) = [add_tool]
         /\ ToolChoice (buildTestRequest ToLower GetSystemRoleName m t) = Some "required")
  /\ (ToLower t <> "json" -> ToLower t <> "function" ->
      Messages (buildTestRequest ToLower GetSystemRoleName m t) = [user_message "hi"]).
Proof.
  intros He. unfold buildTestRequest. rewrite He.
  destruct (HasPrefix m "o"), (Contains m "thinking"), (Contains m "claude"),
    (Contains m "gemini");
    (destruct (String.eqb_spec (ToLower t) "json") as [Ej | Ej];
     [| destruct (String.eqb_spec (ToLower t) "function") as [Ef | Ef]]);
    cbn;
    (split; [reflexivity |]); (split; [reflexivity |]); (split; [reflexivity |]);
    (split; [first [now eexists [_], _ | now exists [], "hi"] |]);
    (split; [first [now left | now right] |]);
    (split; [first [now left | now right] |]);
    intros; first [reflexivity | contradiction].
Qed.

End TestRequestProperties.

Lemma buildTestRequest_embedding_models_witness :
  GoStrings.Contains (TestRequest.ToLower_ascii "Text-Embedding-3-small") "embed" = true
  /\ TestRequest.buildTestRequest TestRequest.ToLower_ascii TestRequest.system_role
       "Text-Embedding-3-small" "json"
     = ChannelTestSpec.embedding_request "Text-Embedding-3-small".
Proof.
  split; [reflexivity |].
  apply (buildTestRequest_embedding_models TestRequest.ToLower_ascii
           TestRequest.system_role "Text-Embedding-3-small" "json").
  right; right; reflexivity.
Defined.

Lemma buildTestRequest_chat_models_witness :
  TestRequest.isEmbeddingModel TestRequest.ToLower_ascii "gemini-2.5-flash" = false
  /\ TestRequest.Messages
       (TestRequest.buildTestRequest TestRequest.ToLower_ascii TestRequest.system_role
          "gemini-2.5-flash" "text")
     = [ChannelTestSpec.user_message "hi"].
Proof.
  split; [reflexivity |].
  destruct (buildTestRequest_chat_models TestRequest.ToLower_ascii
              TestRequest.system_role "gemini-2.5-flash" "text" eq_refl)
    as (_ & _ & _ & _ & _ & _ & H).
  apply H; vm_compute; discriminate.
Defined.

(** ** testChannel *)

Section TestChannelProperties.
Import GoStrings TestRequest ChannelTest ChannelTestSpec.

Variable ToLower : string -> string.
Variable TrimSpace : string -> string.
Variable GetSystemRoleName : GeneralOpenAIRequest -> string.
Variable GetMaxTokens : GeneralOpenAIRequest -> Z.
Variable ChannelTypeMidjourney : Z.
Variable ChannelTypeMidjourneyPlus : Z.
Variable ChannelTypeSunoAPI : Z.
Variable ChannelTypeKling : Z.
Variable ChannelTypeJimeng : Z.
Variable ChannelTypeVidu : Z.
Variable ChannelTypeMokaAI : Z.
Variable RelayModeEmbeddings : Z.
Variable QuotaPerUnit : Quota.float64.
Variable indefinite : Quota.float64 -> Z.

Local Abbreviation unsupported_type :=
  (unsupported ChannelTypeMidjourney ChannelTypeMidjourneyPlus ChannelTypeSunoAPI
     ChannelTypeKling ChannelTypeJimeng ChannelTypeVidu).

Local Abbreviation test :=
  (testChannel ToLower TrimSpace GetSystemRoleName GetMaxTokens
     ChannelTypeMidjourney ChannelTypeMidjourneyPlus ChannelTypeSunoAPI
     ChannelTypeKling ChannelTypeJimeng ChannelTypeVidu ChannelTypeMokaAI
     RelayModeEmbeddings QuotaPerUnit indefinite).

(** Case analysis along the stages of [testChannel]; [fin] closes the
    goal of each way out. *)
Ltac testChannel_stages run channel fin :=
  unfold testChannel;
  destruct (unsupported_type (Type_ channel)) eqn:?; [fin |];
  destruct (run_GetUserCache run) eqn:?; [fin |];
  destruct (run_SetupContext run) eqn:?; [fin |];
  destruct (run_ModelMappedHelper run) eqn:?; [fin |];
  destruct (run_adaptor_nil run) eqn:?; [fin |];
  destruct (run_ModelPriceHelper run) eqn:?; [| fin];
  destruct (run_RelayMode run =? RelayModeEmbeddings) eqn:?;
  (destruct (run_Convert run) eqn:?; [fin |]);
  (destruct (run_json_Marshal run) eqn:?; [| fin]);
  (destruct (run_DoRequest run) as [[[status] |] |] eqn:?;
   [cbn [StatusCode]; destruct (status =? StatusOK) eqn:?; cbn [negb]; [| fin] | | fin]);
  (destruct (run_DoResponse run) as [[usage |] [respErr |]] eqn:?; [fin | | fin | fin]);
  (destruct (run_ReadAll run) eqn:?; fin).

(** Neither the response time nor the state of the channel is touched by
    [testChannel] itself. *)
Lemma testChannel_no_response_time_update (run : Run) (channel : Channel) (m t : string) :
  response_time_updates (snd (test run channel m t)) = [].
Proof.
  testChannel_stages run channel ltac:(reflexivity).
Qed.

(** X18. A channel of type Midjourney, Midjourney Plus, Suno, Kling,
    Jimeng or Vidu is refused at once: no collaborator is called, nothing
    is sent, and the result holds a local error, no newAPIError and no
    context. *)
Theorem testChannel_refuses_unsupported_types
    (run : Run) (channel : Channel) (m t : string) :
  Type_ channel = ChannelTypeMidjourney \/ Type_ channel = ChannelTypeMidjourneyPlus
  \/ Type_ channel = ChannelTypeSunoAPI \/ Type_ channel = ChannelTypeKling
  \/ Type_ channel = ChannelTypeJimeng \/ Type_ channel = ChannelTypeVidu ->
  snd (test run channel m t) = []
  /\ context (fst (test run channel m t)) = None
  /\ newAPIError (fst (test run channel m t)) = None
  /\ exists msg, localErr (fst (test run channel m t)) = Some (plain (errors_New msg)).
Proof.
  intros H.
  assert (exists msg, unsupported_type (Type_ channel) = Some msg) as [msg Hmsg].
  { unfold unsupported.
    destruct H as [-> | [-> | [-> | [-> | [-> | ->]]]]];
      rewrite ?Z.eqb_refl;
      repeat match goal with
             | |- context [if ?b then _ else _] => destruct b
             end; eauto. }
  unfold testChannel. rewrite Hmsg. cbn. repeat split; eauto.
Qed.

(** X19. A result never holds a newAPIError without a local error, and a
    passed test always has its context.  A failure without newAPIError is
    the same as a failure without context, and happens exactly when the
    channel type is not supported or the user cache cannot be read. *)
Theorem testChannel_result_invariant (run : Run) (channel : Channel) (m t : string) :
  (newAPIError (fst (test run channel m t)) <> None ->
   localErr (fst (test run channel m t)) <> None)
  /\ (localErr (fst (test run channel m t)) = None ->
      context (fst (test run channel m t)) <> None)
  /\ (context (fst (test run channel m t)) = None <->
      localErr (fst (test run channel m t)) <> None
      /\ newAPIError (fst (test run channel m t)) = None)
  /\ (context (fst (test run channel m t)) = None <->
      unsupported_type (Type_ channel) <> None \/ run_GetUserCache run <> None).
Proof.
  testChannel_stages run channel
    ltac:(cbn; repeat split; intros;
          repeat match goal with
                 | H : _ /\ _ |- _ => destruct H
                 | H : _ \/ _ |- _ => destruct H
                 end;
          first [congruence | left; congruence | right; congruence]).
Qed.

(** X20. A consume log is written exactly when the test passes: a failed
    test writes none, and a passed test writes one, as its last call, for
    the tested channel, with the tokens of the usage the adaptor returned
    and the quota computed from that usage and the price data of
    [ModelPriceHelper]. *)
Theorem testChannel_consume_log (run : Run) (channel : Channel) (m t : string) :
  match localErr (fst (test run channel m t)) with
  | Some _ => consume_logs (snd (test run channel m t)) = []
  | None =>
      exists priceData usage init,
        run_ModelPriceHelper run = Ok priceData
        /\ run_DoResponse run = (Some usage, None)
        /\ snd (test run channel m t)
           = (init ++ [RecordConsumeLog (consume_log QuotaPerUnit indefinite run channel priceData usage)])%list
        /\ consume_logs init = []
        /\ log_ChannelId (consume_log QuotaPerUnit indefinite run channel priceData usage)
           = Id channel
        /\ log_PromptTokens (consume_log QuotaPerUnit indefinite run channel priceData usage)
           = Quota.PromptTokens usage
        /\ log_CompletionTokens (consume_log QuotaPerUnit indefinite run channel priceData usage)
           = Quota.CompletionTokens usage
        /\ log_Quota (consume_log QuotaPerUnit indefinite run channel priceData usage)
           = Quota.testChannel_quota QuotaPerUnit indefinite priceData usage
  end.
Proof.
  testChannel_stages run channel
    ltac:(cbn [fst snd localErr failed];
          first [ reflexivity
                | do 2 eexists; eexists (_ :: _);
                  repeat split; reflexivity ]).
Qed.

(** X21. A test sends at most one request to the upstream, and only
    after the user cache, the channel setup, the model mapping, the
    adaptor, the price, the conversion and the marshalling all succeeded;
    its body is what [json.Marshal] returned. *)
Theorem testChannel_upstream_request (run : Run) (channel : Channel) (m t : string) :
  upstream_requests (snd (test run channel m t)) = []
  \/ exists requestBody,
       upstream_requests (snd (test run channel m t)) = [requestBody]
       /\ unsupported_type (Type_ channel) = None
       /\ stages_before_request_pass run requestBody.
Proof.
  unfold stages_before_request_pass.
  testChannel_stages run channel
    ltac:(cbn [fst snd];
          first [ left; reflexivity
                | right; eexists; repeat split; eauto; reflexivity ]).
Qed.

(** X22. The request path is chosen from the model name the caller
    passes, before the model to test is picked.  When the caller passes no
    model, as the batch does, the context handed to [GenRelayInfo] has the
    chat path for every channel but those of type MokaAI, whatever model
    is then tested. *)
Theorem testChannel_path_without_model_argument
    (run : Run) (channel : Channel) (t : string) (c : Context) :
  ToLower "" = "" ->
  In (GenRelayInfo c) (snd (test run channel "" t)) ->
  request_Path c = if Type_ channel =? ChannelTypeMokaAI
                   then "/v1/embeddings" else "/v1/chat/completions".
Proof.
  intros Hlow.
  assert (requestPath_of ToLower ChannelTypeMokaAI channel ""
          = if Type_ channel =? ChannelTypeMokaAI
            then "/v1/embeddings" else "/v1/chat/completions") as Hpath.
  { unfold requestPath_of, isEmbeddingModel. rewrite Hlow. reflexivity. }
  rewrite <- Hpath. clear Hpath.
  testChannel_stages run channel
    ltac:(cbn [snd]; intros Hin; cbn in Hin;
          repeat match goal with
                 | H : _ \/ _ |- _ => destruct H
                 | H : False |- _ => destruct H
                 | H : GenRelayInfo _ = GenRelayInfo _ |- _ => injection H as <-
                 | H : _ = GenRelayInfo _ |- _ => try discriminate H
                 end; try reflexivity).
Qed.

(** ** The handler TestChannel *)

Variable Atoi : string -> result Z.
Variable CacheGetChannel : Z -> result Channel.
Variable GetChannelById : Z -> result Channel.
Variable Error : local_error -> string.

Local Abbreviation handler :=
  (TestChannel ToLower TrimSpace GetSystemRoleName GetMaxTokens
     ChannelTypeMidjourney ChannelTypeMidjourneyPlus ChannelTypeSunoAPI
     ChannelTypeKling ChannelTypeJimeng ChannelTypeVidu ChannelTypeMokaAI
     RelayModeEmbeddings QuotaPerUnit indefinite
     Atoi CacheGetChannel GetChannelById Error).

(** X23. What [TestChannel] answers.  A reply with success true has an
    empty message and the measured time, and is given exactly when the
    test wrote its consume log; the response time of the channel is then
    updated.  Every reply with success false has time 0 and leaves the
    response time alone: the branch that reports a newAPIError with the
    measured time is never taken.  An API error is answered before any
    call is made. *)
Theorem TestChannel_reply (run : Run) (id model type_ : string) (milliseconds : Z) :
  match fst (handler run id model type_ milliseconds) with
  | ApiError _ => snd (handler run id model type_ milliseconds) = []
  | JSON true message time =>
      message = ""
      /\ time = f64_div (Quota.float64_of_int milliseconds) (Quota.float64_of_int 1000)
      /\ (exists channel,
            response_time_updates (snd (handler run id model type_ milliseconds))
            = [(channel, milliseconds)])
      /\ length (consume_logs (snd (handler run id model type_ milliseconds))) = 1%nat
  | JSON false message time =>
      time = S754_zero false
      /\ response_time_updates (snd (handler run id model type_ milliseconds)) = []
      /\ consume_logs (snd (handler run id model type_ milliseconds)) = []
  end.
Proof.
  unfold TestChannel.
  destruct (Atoi id) as [channelId | err]; [| reflexivity].
  destruct (CacheGetChannel channelId) as [channel | err];
    [| destruct (GetChannelById channelId) as [channel | err']; [| reflexivity]];
    testChannel_stages run channel
      ltac:(cbn;
            first [ reflexivity
                  | repeat split; reflexivity
                  | split; [reflexivity |]; split; [reflexivity |];
                    split; [eexists; reflexivity | reflexivity] ]).
Qed.

(** ** The loop of the batch *)

Variable ChannelStatusEnabled : Z.
Variable AutomaticDisableChannelEnabled : bool.
Variable ChannelDisableThreshold : Quota.float64.
Variable ShouldDisableChannel : Z -> NewAPIError -> bool.
Variable ShouldEnableChannel : option NewAPIError -> Z -> bool.
Variable Sprintf_2f : Quota.float64 -> string.
Variable GetContextKeyString : option Context -> option string.

Local Abbreviation threshold := (disableThreshold indefinite ChannelDisableThreshold).

Local Abbreviation exceeded :=
  (response_time_exceeded indefinite ChannelDisableThreshold Sprintf_2f).

Local Abbreviation verdict_of :=
  (verdict indefinite AutomaticDisableChannelEnabled ChannelDisableThreshold
     ShouldDisableChannel Sprintf_2f).

Local Abbreviation judge_channel :=
  (judge ChannelStatusEnabled indefinite AutomaticDisableChannelEnabled
     ChannelDisableThreshold ShouldDisableChannel ShouldEnableChannel Sprintf_2f
     GetContextKeyString).

Local Abbreviation loop :=
  (batch_loop ToLower TrimSpace GetSystemRoleName GetMaxTokens
     ChannelTypeMidjourney ChannelTypeMidjourneyPlus ChannelTypeSunoAPI
     ChannelTypeKling ChannelTypeJimeng ChannelTypeVidu ChannelTypeMokaAI
     RelayModeEmbeddings ChannelStatusEnabled QuotaPerUnit indefinite
     AutomaticDisableChannelEnabled ChannelDisableThreshold
     ShouldDisableChannel ShouldEnableChannel Sprintf_2f GetContextKeyString).

Local Abbreviation body :=
  (batch_body ToLower TrimSpace GetSystemRoleName GetMaxTokens
     ChannelTypeMidjourney ChannelTypeMidjourneyPlus ChannelTypeSunoAPI
     ChannelTypeKling ChannelTypeJimeng ChannelTypeVidu ChannelTypeMokaAI
     RelayModeEmbeddings ChannelStatusEnabled QuotaPerUnit indefinite
     AutomaticDisableChannelEnabled ChannelDisableThreshold
     ShouldDisableChannel ShouldEnableChannel Sprintf_2f GetContextKeyString).

Lemma testChannel_could_not_start (run : Run) (channel : Channel) (m t : string) :
  unsupported_type (Type_ channel) <> None \/ run_GetUserCache run <> None ->
  exists e, fst (test run channel m t) = failed None (plain e) None.
Proof.
  testChannel_stages run channel
    ltac:(cbn [fst]; intros [H | H];
          first [congruence | eexists; reflexivity]).
Qed.

(** The verdict on a result without newAPIError. *)
Lemma verdict_without_error (channel : Channel) (result : testResult) (ms : Z) :
  newAPIError result = None ->
  verdict_of channel result ms
  = if AutomaticDisableChannelEnabled && (threshold <? ms)
    then (Some (exceeded ms), true) else (None, false).
Proof.
  intros Hnone. unfold verdict. rewrite Hnone.
  destruct AutomaticDisableChannelEnabled; cbn [andb negb]; [| reflexivity].
  now destruct (threshold <? ms).
Qed.

(** X24. A test that could not start (unsupported channel type, or no
    user cache) returns no context.  If reading the channel key from a nil
    context panics, the pass of the batch then dies on that channel as soon
    as it wants to act on it: on a channel that is not enabled and that
    [ShouldEnableChannel] would enable for want of an error, or on an
    enabled channel with auto-ban whose time exceeds the threshold.  Neither
    [EnableChannel] nor [processChannelError] is called, the response time
    of the channel is not updated, the channels that follow are not tested
    and no notification is sent. *)
Theorem batch_panics_on_channel_whose_test_could_not_start
    (notify : bool) (run : Run) (channel : Channel) (milliseconds : Z)
    (rest : list (Channel * Run * Z)) :
  GetContextKeyString None = None ->
  unsupported_type (Type_ channel) <> None \/ run_GetUserCache run <> None ->
  (Status channel <> ChannelStatusEnabled
   /\ ShouldEnableChannel None (Status channel) = true
   /\ (AutomaticDisableChannelEnabled = false \/ milliseconds <= threshold))
  \/ (Status channel = ChannelStatusEnabled
      /\ GetAutoBan channel = true
      /\ AutomaticDisableChannelEnabled = true
      /\ threshold < milliseconds) ->
  judge_channel channel (fst (test run channel "" "")) milliseconds
  = ([], SingleFlight.Panicked)
  /\ body notify ((channel, run, milliseconds) :: rest)
     = (snd (test run channel "" ""), SingleFlight.Panicked)
  /\ response_time_updates (fst (body notify ((channel, run, milliseconds) :: rest)))
     = [].
Proof.
  intros Hnil Hstart Hact.
  assert (judge_channel channel (fst (test run channel "" "")) milliseconds
          = ([], SingleFlight.Panicked)) as Hjudge.
  { destruct (testChannel_could_not_start run channel "" "" Hstart) as [e ->].
    unfold judge. rewrite verdict_without_error by reflexivity.
    unfold disable_step, enable_step. cbn [context failed].
    destruct Hact as [(Hst & Hen & Htime) | (Hst & Hauto & Hon & Hlate)].
    - apply Z.eqb_neq in Hst. rewrite Hst.
      assert (AutomaticDisableChannelEnabled && (threshold <? milliseconds) = false)
        as ->.
      { destruct Htime as [-> | Hle]; [reflexivity |].
        apply andb_false_iff; right. now apply Z.ltb_ge. }
      cbn [andb negb]. now rewrite Hen, Hnil.
    - apply Z.eqb_eq in Hst. rewrite Hst, Hon.
      apply Z.ltb_lt in Hlate. rewrite Hlate. cbn [andb].
      now rewrite Hauto, Hnil. }
  split; [exact Hjudge |].
  assert (body notify ((channel, run, milliseconds) :: rest)
          = (snd (test run channel "" ""), SingleFlight.Panicked)) as Hbody.
  { unfold batch_body. cbn [batch_loop].
    destruct (test run channel "" "") as [result calls] eqn:Htest.
    cbn [fst snd] in *. rewrite Hjudge. now rewrite app_nil_r. }
  split; [exact Hbody |].
  rewrite Hbody. cbn [fst]. apply testChannel_no_response_time_update.
Qed.

Lemma judge_calls (channel : Channel) (result : testResult) (ms : Z) :
  exists disabled enabled,
    (disabled = []
     \/ exists usingKey,
          GetContextKeyString (context result) = Some usingKey
          /\ Status channel = ChannelStatusEnabled
          /\ GetAutoBan channel = true
          /\ snd (verdict_of channel result ms) = true
          /\ disabled = [processChannelError (context result) channel usingKey
                           (fst (verdict_of channel result ms))])
    /\ (enabled = []
        \/ exists usingKey,
             GetContextKeyString (context result) = Some usingKey
             /\ Status channel <> ChannelStatusEnabled
             /\ enabled = [EnableChannel (Id channel) usingKey (Name channel)])
    /\ (judge_channel channel result ms
        = ((disabled ++ enabled ++ [UpdateResponseTime channel ms; Sleep])%list,
           SingleFlight.Finished)
        \/ judge_channel channel result ms = ([], SingleFlight.Panicked)
        \/ judge_channel channel result ms = (disabled, SingleFlight.Panicked)).
Proof.
  unfold judge, disable_step, enable_step.
  destruct (verdict_of channel result ms) as [err ban]. cbn [fst snd].
  destruct (Z.eqb_spec (Status channel) ChannelStatusEnabled) as [Hst | Hst];
    cbn [andb negb].
  - destruct ban; cbn [andb].
    + destruct (GetAutoBan channel) eqn:Hauto.
      * destruct (GetContextKeyString (context result)) as [usingKey |] eqn:Hkey.
        -- eexists _, []. split; [right; exists usingKey; eauto 10 |].
           split; [now left | now left].
        -- exists [], []. split; [now left |]. split; [now left |].
           right; left; reflexivity.
      * exists [], []. split; [now left |]. split; [now left | now left].
    + exists [], []. split; [now left |]. split; [now left | now left].
  - destruct (ShouldEnableChannel err (Status channel)).
    + destruct (GetContextKeyString (context result)) as [usingKey |] eqn:Hkey.
      * eexists [], _. split; [now left |].
        split; [right; exists usingKey; eauto | now left].
      * exists [], []. split; [now left |]. split; [now left |].
        right; left; reflexivity.
    + exists [], []. split; [now left |]. split; [now left | now left].
Qed.

(** X25. When the batch hands a channel to [processChannelError], the
    channel was enabled and has auto-ban, the key was read from the context
    of the test, and the error is either the one of the test, accepted by
    [ShouldDisableChannel], or, with automatic disabling on, the
    response-time error for a time above the threshold when the test left
    no error that [ShouldDisableChannel] accepts.  In the same pass the
    channel is not enabled. *)
Theorem batch_disable_conditions
    (channel ch : Channel) (result : testResult) (milliseconds : Z)
    (c : option Context) (usingKey : string) (e : option NewAPIError) :
  In (processChannelError c ch usingKey e)
     (fst (judge_channel channel result milliseconds)) ->
  c = context result /\ ch = channel
  /\ GetContextKeyString (context result) = Some usingKey
  /\ Status channel = ChannelStatusEnabled /\ GetAutoBan channel = true
  /\ ((exists e0, newAPIError result = Some e0 /\ e = Some e0
                  /\ ShouldDisableChannel (Type_ channel) e0 = true)
      \/ (AutomaticDisableChannelEnabled = true /\ threshold < milliseconds
          /\ e = Some (exceeded milliseconds)
          /\ forall e0, newAPIError result = Some e0 ->
                        ShouldDisableChannel (Type_ channel) e0 = false))
  /\ forall id usingKey' name,
       ~ In (EnableChannel id usingKey' name)
           (fst (judge_channel channel result milliseconds)).
Proof.
  unfold judge, disable_step, enable_step.
  destruct (verdict _ _ _ _ _ channel result milliseconds) as [err ban] eqn:Hv.
  destruct (Z.eqb_spec (Status channel) ChannelStatusEnabled) as [Hst | Hst];
    cbn [andb negb].
  2:{ destruct (ShouldEnableChannel err (Status channel));
        [destruct (GetContextKeyString (context result)) |];
        cbn; intros H;
        repeat destruct H as [H | H]; try discriminate H; contradiction. }
  destruct ban; cbn [andb].
  2:{ cbn; intros H;
        repeat destruct H as [H | H]; try discriminate H; contradiction. }
  destruct (GetAutoBan channel) eqn:Hauto.
  2:{ cbn; intros H;
        repeat destruct H as [H | H]; try discriminate H; contradiction. }
  destruct (GetContextKeyString (context result)) as [key |] eqn:Hkey.
  2:{ cbn; intros H; contradiction. }
  cbn; intros H;
    repeat destruct H as [H | H]; try discriminate H; try contradiction.
  injection H as <- <- <- <-.
  do 3 (split; [reflexivity |]). split; [exact Hst |]. split; [reflexivity |].
  split.
  2:{ intros id usingKey' name Hin.
      repeat destruct Hin as [Hin | Hin]; try discriminate Hin; contradiction. }
  unfold verdict in Hv.
  destruct (newAPIError result) as [e0 |] eqn:He0.
  - destruct (ShouldDisableChannel (Type_ channel) e0) eqn:Hban.
    + rewrite andb_false_r in Hv. injection Hv as <-.
      left. now exists e0.
    + destruct AutomaticDisableChannelEnabled eqn:Hon; cbn [andb negb] in Hv;
        [| discriminate Hv].
      destruct (Z.ltb_spec threshold milliseconds) as [Hlt | Hge];
        [| discriminate Hv].
      injection Hv as <-. right. repeat split; try assumption.
      intros e1 [= <-]. exact Hban.
  - destruct AutomaticDisableChannelEnabled eqn:Hon; cbn [andb negb] in Hv;
      [| discriminate Hv].
    destruct (Z.ltb_spec threshold milliseconds) as [Hlt | Hge];
      [| discriminate Hv].
    injection Hv as <-. right. repeat split; try assumption.
    intros e1 [=].
Qed.

(** What an iteration leaves among the updates, the requests and the
    logs: one update when it got to its end, none when it panicked. *)
Lemma judge_response_time_update (channel : Channel) (result : testResult) (ms : Z) :
  response_time_updates (fst (judge_channel channel result ms))
  = match snd (judge_channel channel result ms) with
    | SingleFlight.Finished => [(channel, ms)]
    | SingleFlight.Panicked => []
    end.
Proof.
  destruct (judge_calls channel result ms)
    as (disabled & enabled & Hd & He & [-> | [-> | ->]]); cbn [fst snd].
  - unfold response_time_updates. rewrite !omap_app.
    destruct Hd as [-> | (k & _ & _ & _ & _ & ->)],
             He as [-> | (k' & _ & _ & ->)]; reflexivity.
  - reflexivity.
  - destruct Hd as [-> | (k & _ & _ & _ & _ & ->)]; reflexivity.
Qed.

Lemma judge_sends_nothing (channel : Channel) (result : testResult) (ms : Z) :
  upstream_requests (fst (judge_channel channel result ms)) = []
  /\ consume_logs (fst (judge_channel channel result ms)) = [].
Proof.
  destruct (judge_calls channel result ms)
    as (disabled & enabled & Hd & He & [-> | [-> | ->]]); cbn [fst snd].
  - unfold upstream_requests, consume_logs. rewrite !omap_app.
    destruct Hd as [-> | (k & _ & _ & _ & _ & ->)],
             He as [-> | (k' & _ & _ & ->)]; split; reflexivity.
  - split; reflexivity.
  - destruct Hd as [-> | (k & _ & _ & _ & _ & ->)]; split; reflexivity.
Qed.

Lemma testChannel_requests_and_logs (run : Run) (channel : Channel) (m t : string) :
  (length (consume_logs (snd (test run channel m t)))
   <= length (upstream_requests (snd (test run channel m t))) <= 1)%nat.
Proof.
  testChannel_stages run channel ltac:(cbn; lia).
Qed.

(** The updates of the loop: those of the channels whose iteration got to
    its end. *)
Lemma batch_loop_response_time_updates (channels : list (Channel * Run * Z)) :
  exists n : nat,
    (n <= length channels)%nat
    /\ response_time_updates (fst (loop channels))
       = List.map (fun '(channel, _, milliseconds) => (channel, milliseconds))
           (take n channels)
    /\ (snd (loop channels) = SingleFlight.Finished <-> n = length channels).
Proof.
  induction channels as [| [[channel run] ms] rest IH].
  - exists 0%nat. cbn. repeat split; auto.
  - cbn [batch_loop].
    pose proof (testChannel_no_response_time_update run channel "" "") as Htest.
    destruct (test run channel "" "") as [result calls]. cbn [snd] in Htest.
    pose proof (judge_response_time_update channel result ms) as Hjudge.
    destruct (judge_channel channel result ms) as [done [|]]; cbn [fst snd] in Hjudge.
    + destruct IH as (n & Hn & Hupd & Hend).
      destruct (loop rest) as [more o]. cbn [fst snd] in *.
      exists (S n). split; [cbn; lia |]. split.
      * unfold response_time_updates in *. rewrite !omap_app, Htest, Hjudge, Hupd.
        reflexivity.
      * cbn [length]. rewrite Hend. lia.
    + exists 0%nat. cbn [fst snd length take List.map]. split; [lia |]. split.
      * unfold response_time_updates in *. now rewrite omap_app, Htest, Hjudge.
      * split; [discriminate | lia].
Qed.

(** X26. A pass of the batch updates the response time once for each
    channel whose iteration got to its end, in the order of the list and
    with the time measured for that channel, whatever the outcome of its
    test.  These channels are a prefix of the list: the whole list exactly
    when the pass ends normally, and the channels before the one on which
    the pass panicked otherwise. *)
Theorem batch_updates_response_times
    (notify : bool) (channels : list (Channel * Run * Z)) :
  exists n : nat,
    (n <= length channels)%nat
    /\ response_time_updates (fst (body notify channels))
       = List.map (fun '(channel, _, milliseconds) => (channel, milliseconds))
           (take n channels)
    /\ (snd (body notify channels) = SingleFlight.Finished <-> n = length channels).
Proof.
  destruct (batch_loop_response_time_updates channels) as (n & Hn & Hupd & Hend).
  exists n. split; [exact Hn |].
  unfold batch_body.
  destruct (loop channels) as [calls [|]]; cbn [fst snd] in *.
  - split; [| exact Hend].
    unfold response_time_updates in *. rewrite omap_app, Hupd.
    destruct notify; cbn; now rewrite app_nil_r.
  - split; [exact Hupd | exact Hend].
Qed.

Lemma batch_loop_requests_and_logs (channels : list (Channel * Run * Z)) :
  (length (consume_logs (fst (loop channels)))
   <= length (upstream_requests (fst (loop channels)))
   <= length channels)%nat.
Proof.
  induction channels as [| [[channel run] ms] rest IH]; [cbn; lia |].
  cbn [batch_loop length].
  pose proof (testChannel_requests_and_logs run channel "" "") as Htest.
  destruct (test run channel "" "") as [result calls]. cbn [snd] in Htest.
  destruct (judge_sends_nothing channel result ms) as [Hreq Hlog].
  destruct (judge_channel channel result ms) as [done [|]]; cbn [fst snd] in *.
  - destruct (loop rest) as [more o]. cbn [fst snd] in *.
    unfold upstream_requests, consume_logs in *.
    rewrite !omap_app, Hreq, Hlog, !length_app. cbn [app length] in *. lia.
  - unfold upstream_requests, consume_logs in *.
    rewrite !omap_app, Hreq, Hlog, !length_app. cbn [app length] in *. lia.
Qed.

(** X27. A pass of the batch sends at most one upstream request per
    channel, and writes no more consume logs than it sent requests. *)
Theorem batch_requests_and_logs
    (notify : bool) (channels : list (Channel * Run * Z)) :
  (length (consume_logs (fst (body notify channels)))
   <= length (upstream_requests (fst (body notify channels)))
   <= length channels)%nat.
Proof.
  pose proof (batch_loop_requests_and_logs channels) as H.
  unfold batch_body.
  destruct (loop channels) as [calls [|]]; cbn [fst snd] in *; [| exact H].
  unfold upstream_requests, consume_logs in *. rewrite !omap_app, !length_app.
  destruct notify; cbn; lia.
Qed.

End TestChannelProperties.

Lemma testChannel_refuses_unsupported_types_witness :
  ChannelTest.Type_ (ChannelTestSamples.sample_channel 36 1) = 36
  /\ snd (ChannelTestSamples.testChannel_sample ChannelTestSamples.passing_run
            (ChannelTestSamples.sample_channel 36 1) "gpt-4o" "text") = [].
Proof.
  split; [reflexivity |].
  apply (testChannel_refuses_unsupported_types
           TestRequest.ToLower_ascii (fun s => s) TestRequest.system_role
           TestRequest.MaxTokens 2 5 36 50 51 52 44 6
           Quota.QuotaPerUnit_default Quota.indefinite_amd64
           ChannelTestSamples.passing_run (ChannelTestSamples.sample_channel 36 1)
           "gpt-4o" "text").
  right; right; left; reflexivity.
Defined.

(** The sample channel names an embedding model as its test model; with
    no model argument the request still goes down the chat path. *)
Lemma testChannel_path_without_model_argument_witness :
  TestRequest.ToLower_ascii "" = ""
  /\ In (ChannelTest.SetupContextForSelectedChannel
           {| ChannelTest.request_Path := "/v1/chat/completions" |}
           (ChannelTestSamples.sample_channel 1 1) "text-embedding-3-small")
        (snd (ChannelTestSamples.testChannel_sample ChannelTestSamples.passing_run
                (ChannelTestSamples.sample_channel 1 1) "" ""))
  /\ In (ChannelTest.GenRelayInfo {| ChannelTest.request_Path := "/v1/chat/completions" |})
        (snd (ChannelTestSamples.testChannel_sample ChannelTestSamples.passing_run
                (ChannelTestSamples.sample_channel 1 1) "" ""))
  /\ ChannelTest.request_Path {| ChannelTest.request_Path := "/v1/chat/completions" |}
     = "/v1/chat/completions".
Proof.
  split; [reflexivity |].
  split; [vm_compute; right; left; reflexivity |].
  assert (In (ChannelTest.GenRelayInfo
                {| ChannelTest.request_Path := "/v1/chat/completions" |})
             (snd (ChannelTestSamples.testChannel_sample ChannelTestSamples.passing_run
                     (ChannelTestSamples.sample_channel 1 1) "" ""))) as Hin
    by (vm_compute; right; right; left; reflexivity).
  split; [exact Hin |].
  exact (testChannel_path_without_model_argument
           TestRequest.ToLower_ascii (fun s => s) TestRequest.system_role
           TestRequest.MaxTokens 2 5 36 50 51 52 44 6
           Quota.QuotaPerUnit_default Quota.indefinite_amd64
           ChannelTestSamples.passing_run (ChannelTestSamples.sample_channel 1 1)
           "" _ eq_refl Hin).
Defined.

(** An automatically disabled Suno channel, which is never tested: the
    batch wants to enable it, and dies reading the key. *)
Lemma batch_panics_on_channel_whose_test_could_not_start_witness :
  JudgeSamples.key_of_context None = None
  /\ JudgeSamples.batch_body_sample true true
       [(ChannelTestSamples.sample_channel 36 3, ChannelTestSamples.passing_run, 12);
        (ChannelTestSamples.sample_channel 1 1, ChannelTestSamples.passing_run, 1234)]
     = ([], SingleFlight.Panicked).
Proof.
  split; [reflexivity |].
  apply (batch_panics_on_channel_whose_test_could_not_start
           TestRequest.ToLower_ascii (fun s => s) TestRequest.system_role
           TestRequest.MaxTokens 2 5 36 50 51 52 44 6
           Quota.QuotaPerUnit_default Quota.indefinite_amd64
           JudgeSamples.enabled_status true (Quota.float64_of_int 5)
           JudgeSamples.disable_always JudgeSamples.enable_when_no_error
           JudgeSamples.two_decimals JudgeSamples.key_of_context
           true ChannelTestSamples.passing_run
           (ChannelTestSamples.sample_channel 36 3) 12
           [(ChannelTestSamples.sample_channel 1 1, ChannelTestSamples.passing_run, 1234)]).
  - reflexivity.
  - left; vm_compute; discriminate.
  - left. split; [vm_compute; discriminate |]. split; [reflexivity |].
    right; vm_compute; discriminate.
Defined.

(** A test that passed in six seconds, against a threshold of five. *)
Lemma batch_disable_conditions_witness :
  In (ChannelTest.processChannelError
        (Some {| ChannelTest.request_Path := "/v1/chat/completions" |})
        (ChannelTestSamples.sample_channel 1 1) "sk-sample"
        (Some (ChannelTest.response_time_exceeded Quota.indefinite_amd64
                 (Quota.float64_of_int 5) JudgeSamples.two_decimals 6000)))
     (fst (JudgeSamples.judge_sample true (ChannelTestSamples.sample_channel 1 1)
             (ChannelTestSpec.passed
                (Some {| ChannelTest.request_Path := "/v1/chat/completions" |}))
             6000))
  /\ ChannelTest.disableThreshold Quota.indefinite_amd64 (Quota.float64_of_int 5) = 5000
  /\ forall id usingKey name,
       ~ In (ChannelTest.EnableChannel id usingKey name)
           (fst (JudgeSamples.judge_sample true (ChannelTestSamples.sample_channel 1 1)
                   (ChannelTestSpec.passed
                      (Some {| ChannelTest.request_Path := "/v1/chat/completions" |}))
                   6000)).
Proof.
  assert (In (ChannelTest.processChannelError
                (Some {| ChannelTest.request_Path := "/v1/chat/completions" |})
                (ChannelTestSamples.sample_channel 1 1) "sk-sample"
                (Some (ChannelTest.response_time_exceeded Quota.indefinite_amd64
                         (Quota.float64_of_int 5) JudgeSamples.two_decimals 6000)))
             (fst (JudgeSamples.judge_sample true (ChannelTestSamples.sample_channel 1 1)
                     (ChannelTestSpec.passed
                        (Some {| ChannelTest.request_Path := "/v1/chat/completions" |}))
                     6000))) as Hin
    by (vm_compute; left; reflexivity).
  split; [exact Hin |]. split; [reflexivity |].
  exact (proj2 (proj2 (proj2 (proj2 (proj2 (proj2
           (batch_disable_conditions Quota.indefinite_amd64
              JudgeSamples.enabled_status true (Quota.float64_of_int 5)
              JudgeSamples.disable_always JudgeSamples.enable_when_no_error
              JudgeSamples.two_decimals JudgeSamples.key_of_context
              _ _ _ _ _ _ _ Hin))))))).
Defined.

(* ================================================================== *)
(** * Further properties of the single-flight guard *)

Section SingleFlightProgress.
Import SingleFlight SingleFlightRuns SingleFlightSpec.

Lemma count_lookup (f : pc -> bool) (l : list pc) (i : nat) (p : pc) :
  l !! i = Some p -> f p = true -> (1 <= count f l)%nat.
Proof.
  revert i; induction l as [| q l IH]; intros i Hi Hf; [discriminate |].
  destruct i as [| i]; cbn in Hi.
  - injection Hi as ->. cbn [count]. rewrite Hf. cbn; lia.
  - cbn [count]. specialize (IH i Hi Hf). lia.
Qed.

Lemma count_positive (f : pc -> bool) (l : list pc) :
  (1 <= count f l)%nat -> exists i p, l !! i = Some p /\ f p = true.
Proof.
  induction l as [| q l IH]; cbn [count]; [lia |].
  destruct (f q) eqn:Hq; intros H.
  - now exists 0%nat, q.
  - cbn [b2n] in H. destruct (IH ltac:(lia)) as (i & p & Hi & Hp).
    now exists (S i), p.
Qed.

Lemma critical_section_holds_mutex (s : state) (i : nat) (p : pc) :
  reachable s -> threads s !! i = Some p -> in_critical_section p = true ->
  locked (sh s) = true.
Proof.
  intros Hr Hi Hp.
  destruct (reachable_guard_invariant s Hr) as (H1 & _ & _).
  pose proof (count_lookup in_critical_section _ _ _ Hi Hp) as Hge.
  destruct (locked (sh s)); [reflexivity |]. cbn [b2n] in H1. lia.
Qed.

(** X28. In every reachable state a goroutine that cannot take its next
    step is either over or waits at a [Lock] for a mutex that is held: no
    [Unlock] ever meets a mutex that is not locked, which would be a fatal
    error of the Go runtime. *)
Theorem guard_blocks_only_at_lock (s : state) (i : nat) (p : pc) (inp : input) :
  reachable s ->
  threads s !! i = Some p ->
  thread_step inp p (sh s) = None ->
  finished p = true \/ (at_lock p = true /\ locked (sh s) = true).
Proof.
  intros Hr Hi Hstep.
  pose proof (critical_section_holds_mutex s i p Hr Hi) as Hcs.
  destruct p; cbn in Hstep, Hcs |- *; auto;
    repeat match type of Hstep with
           | context [if locked (sh s) then _ else _] =>
               destruct (locked (sh s)) eqn:Hlocked
           | context [if ?b then _ else _] => destruct b
           | context [match ?x with _ => _ end] => destruct x
           end;
    try discriminate Hstep; auto;
    specialize (Hcs eq_refl); discriminate Hcs.
Qed.

(** X29. In every reachable state a held mutex has a holder: a goroutine
    inside a critical section, which can take its next step whatever
    happens around it, and which has released the mutex once it has run
    three steps.  So the guard never deadlocks. *)
Theorem guard_mutex_is_released (s : state) :
  reachable s ->
  locked (sh s) = true ->
  exists j p,
    threads s !! j = Some p
    /\ in_critical_section p = true
    /\ (forall inp, exists s', system_step inp j s = Some s')
    /\ (forall inp, locked (after_three_steps inp p (sh s)) = false).
Proof.
  intros Hr Hl.
  destruct (reachable_guard_invariant s Hr) as (H1 & _ & _).
  rewrite Hl in H1. cbn [b2n] in H1.
  destruct (count_positive in_critical_section (threads s) ltac:(lia))
    as (j & p & Hj & Hp).
  exists j, p. split; [exact Hj |]. split; [exact Hp |].
  destruct s as [[lk rn] l]. cbn [sh threads locked] in *. subst lk.
  split; intros inp.
  - unfold system_step. cbn [threads sh]. rewrite Hj.
    destruct p; try discriminate Hp; cbn; eauto.
  - unfold after_three_steps.
    destruct p; try discriminate Hp; destruct rn; cbn;
      try reflexivity; destruct (getChannelErr inp); reflexivity.
Qed.

(** X30. In every reachable state a batch that is in flight finds the
    flag set and is the only goroutine that owns it: while a batch runs,
    no invocation can pass the check. *)
Theorem batch_in_flight_keeps_flag (s : state) (i : nat) (p : pc) :
  reachable s ->
  threads s !! i = Some p ->
  batch_in_flight p = true ->
  testAllChannelsRunning (sh s) = true
  /\ count owns_flag (threads s) = 1%nat
  /\ count about_to_set (threads s) = 0%nat.
Proof.
  intros Hr Hi Hp.
  destruct (reachable_guard_invariant s Hr) as (_ & H2 & H3).
  assert (owns_flag p = true) as Hown by (destruct p; try discriminate Hp; reflexivity).
  pose proof (count_lookup owns_flag _ _ _ Hi Hown) as Hge.
  destruct (testAllChannelsRunning (sh s)); cbn [b2n] in H2; [| lia].
  split; [reflexivity |]. split; [lia | now apply H3].
Qed.

End SingleFlightProgress.

Lemma contended_state_reachable : SingleFlight.reachable SingleFlightSpec.contended_state.
Proof. apply (replay_steps SingleFlightSpec.contended). reflexivity. Qed.

Lemma batch_started_state_reachable :
  SingleFlight.reachable SingleFlightSpec.batch_started_state.
Proof. apply (replay_steps SingleFlightSpec.batch_started). reflexivity. Qed.

(** The second invocation waits at [Lock] while the first holds the
    mutex. *)
Lemma guard_blocks_only_at_lock_witness :
  SingleFlight.thread_step SingleFlight.channels_ok SingleFlight.AtLock
    (SingleFlight.sh SingleFlightSpec.contended_state) = None
  /\ (SingleFlightSpec.finished SingleFlight.AtLock = true
      \/ (SingleFlightSpec.at_lock SingleFlight.AtLock = true
          /\ SingleFlight.locked (SingleFlight.sh SingleFlightSpec.contended_state) = true)).
Proof.
  split; [reflexivity |].
  exact (guard_blocks_only_at_lock SingleFlightSpec.contended_state 1
           SingleFlight.AtLock SingleFlight.channels_ok
           contended_state_reachable eq_refl eq_refl).
Defined.

Lemma guard_mutex_is_released_witness :
  SingleFlight.locked (SingleFlight.sh SingleFlightSpec.contended_state) = true
  /\ exists j p,
       SingleFlight.threads SingleFlightSpec.contended_state !! j = Some p
       /\ SingleFlight.in_critical_section p = true
       /\ (forall inp, exists s',
             SingleFlight.system_step inp j SingleFlightSpec.contended_state = Some s')
       /\ (forall inp,
             SingleFlight.locked
               (SingleFlightSpec.after_three_steps inp p
                  (SingleFlight.sh SingleFlightSpec.contended_state)) = false).
Proof.
  split; [reflexivity |].
  exact (guard_mutex_is_released SingleFlightSpec.contended_state
           contended_state_reachable eq_refl).
Defined.

Lemma batch_in_flight_keeps_flag_witness :
  SingleFlight.batch_in_flight SingleFlight.BatchLoop = true
  /\ SingleFlight.testAllChannelsRunning
       (SingleFlight.sh SingleFlightSpec.batch_started_state) = true.
Proof.
  split; [reflexivity |].
  exact (proj1 (batch_in_flight_keeps_flag SingleFlightSpec.batch_started_state 1
                  SingleFlight.BatchLoop batch_started_state_reachable
                  eq_refl eq_refl)).
Defined.
